(** * python-jgrapht: the C backend [src/jgrapht/backend.c]

    The backend is the only C file of the binding.  It keeps two file-scope
    statics, [isolate] and [thread], offers three isolate lifecycle
    functions, and otherwise consists of one-line wrappers: each
    [jgrapht_X(args)] calls [jgrapht_capi_X(thread, args)] of the native
    library built from jgrapht-capi.

    The development has four layers.
    - C data: types, values, and the integer conversion applied when an
      argument is passed to a parameter of a declared type.
    - [backend_api]: the declaration and body of every function of the
      file, transcribed in source order.
    - The functions themselves, as state-passing Rocq functions over the
      two statics and the state of the native library.  The native library
      is an interface ([NativeLibrary]); nothing is assumed about it.
    - [Engine]: a reference implementation, modelled from the
      specification, of the part of the native library that a property
      depends on when it speaks of what the forwarded call does; and
      [Example], one concrete state of it. *)

From Stdlib Require Import ZArith List String Bool Lia.
From stdpp Require Import base gmap strings list fin_maps.
Import ListNotations.
Local Open Scope string_scope.
Local Open Scope Z_scope.

(** ** C data *)

(** The types that occur in the declarations of [backend.c].  [status_t],
    [dimacs_format_t] and [csv_format_t] are enums of the capi headers. *)
Inductive ctype :=
| Tvoid
| Tchar
| Tint
| Tlonglong
| Tdouble
| Tstatus
| Tdimacs_format
| Tcsv_format
| Tptr (t : ctype).

#[global] Instance ctype_eq_dec : EqDecision ctype.
Proof. solve_decision. Defined.

(** Run-time values.  A [double] is its 64-bit IEEE-754 pattern; the backend
    only moves doubles around.  A [char*] argument is the NUL-terminated
    string it points to; every other pointer is an address, [NULL] being 0. *)
Inductive cval :=
| Vvoid
| Vint (n : Z)
| Vdouble (bits : Z)
| Vptr (a : Z)
| Vstr (s : string).

#[global] Instance cval_eq_dec : EqDecision cval.
Proof. solve_decision. Defined.

Definition NULL : Z := 0.
Definition EXIT_FAILURE : Z := 1.

(** Two's complement reduction to a signed integer of [bits] bits: what gcc
    and clang do when an out-of-range integer is converted to a signed
    type. *)
Definition wrap (bits n : Z) : Z :=
  (n + 2 ^ (bits - 1)) mod 2 ^ bits - 2 ^ (bits - 1).

Definition to_int : Z -> Z := wrap 32.
Definition to_longlong : Z -> Z := wrap 64.

Definition in_range (bits n : Z) : bool :=
  (- 2 ^ (bits - 1) <=? n) && (n <? 2 ^ (bits - 1)).

Definition is_int_type (t : ctype) : bool :=
  match t with
  | Tint | Tstatus | Tdimacs_format | Tcsv_format => true
  | _ => false
  end.

(** [has_type v t]: [v] is a value of C type [t]. *)
Definition has_type (v : cval) (t : ctype) : bool :=
  match t, v with
  | Tvoid, Vvoid => true
  | Tlonglong, Vint n => in_range 64 n
  | Tdouble, Vdouble b => (0 <=? b) && (b <? 2 ^ 64)
  | Tptr Tchar, Vstr _ => true
  | Tptr Tchar, Vptr _ => false
  | Tptr _, Vptr _ => true
  | _, Vint n => is_int_type t && in_range 32 n
  | _, _ => false
  end.

(** The double nearest to an integer, ties to even, as its bit pattern:
    what the conversion of an integer to [double] yields (C11 6.3.1.4p2
    with the rounding of IEEE 754). *)
Definition double_of_Z (n : Z) : Z :=
  if n =? 0 then 0
  else
    let sign := if n <? 0 then 2 ^ 63 else 0 in
    let m := Z.abs n in
    let e := Z.log2 m in
    if 1024 <=? e then sign + 2047 * 2 ^ 52
    else if e <=? 52 then
      sign + (e + 1023) * 2 ^ 52 + (m * 2 ^ (52 - e) - 2 ^ 52)
    else
      let shift := e - 52 in
      let q := Z.shiftr m shift in
      let r := m mod 2 ^ shift in
      let half := 2 ^ (shift - 1) in
      let q' := if (half <? r) || ((r =? half) && Z.odd q) then q + 1 else q in
      sign + (e + 1023) * 2 ^ 52 + (q' - 2 ^ 52).

(** The integral part of a double, given by its bits: the value with the
    fraction discarded (C11 6.3.1.4p1).  A NaN or an infinity has none. *)
Definition Z_of_double (b : Z) : option Z :=
  let ex := Z.land (Z.shiftr b 52) 2047 in
  let fr := Z.land b (2 ^ 52 - 1) in
  if ex =? 2047 then None
  else
    let m := if ex =? 0 then fr else 2 ^ 52 + fr in
    let e := (if ex =? 0 then 1 else ex) - 1075 in
    let magnitude := if 0 <=? e then m * 2 ^ e else Z.shiftr m (- e) in
    Some (if Z.testbit b 63 then - magnitude else magnitude).

(** A double converted to a signed integer of [bits] bits.  C leaves the
    conversion undefined when the integral part does not fit; the model
    takes what the x86-64 conversion instructions that gcc and clang emit
    produce then: the least value of the type. *)
Definition int_of_double (bits b : Z) : Z :=
  match Z_of_double b with
  | Some n => if in_range bits n then n else - 2 ^ (bits - 1)
  | None => - 2 ^ (bits - 1)
  end.

(** Conversion of an argument to the type of the parameter that receives
    it, as if by assignment (C11 6.5.2.2p7): between the integer types by
    reduction, from an integer to [double] by rounding, from a [double] to
    an integer type by truncation.  Passing a pointer or a string for an
    arithmetic parameter, or the converse, violates a constraint of C and
    is no call of a C program: the value is then left as it is. *)
Definition convert (t : ctype) (v : cval) : cval :=
  match v with
  | Vint n =>
      if is_int_type t then Vint (to_int n)
      else match t with
           | Tlonglong => Vint (to_longlong n)
           | Tdouble => Vdouble (double_of_Z n)
           | _ => v
           end
  | Vdouble b =>
      if is_int_type t then Vint (int_of_double 32 b)
      else match t with
           | Tlonglong => Vint (int_of_double 64 b)
           | _ => v
           end
  | _ => v
  end.

(** Shorthands for the value a parameter of the given type holds. *)
Definition int (n : Z) : cval := Vint (to_int n).
Definition longlong (n : Z) : cval := Vint (to_longlong n).
Definition double (bits : Z) : cval := Vdouble bits.
Definition ptr (a : Z) : cval := Vptr a.
Definition str (s : string) : cval := Vstr s.

(** ** Declarations *)

(** An argument expression of a call: the static [thread] or a parameter. *)
Inductive expr :=
| Ethread
| Evar (x : string).

#[global] Instance expr_eq_dec : EqDecision expr.
Proof. solve_decision. Defined.

(** A function body.  [Forward true f es] is [return f(es);],
    [Forward false f es] is [f(es);], and [Native] marks the three isolate
    functions, which have control flow of their own and are embedded as
    [jgrapht_isolate_create], [jgrapht_isolate_destroy] and
    [jgrapht_isolate_is_attached] below. *)
Inductive body :=
| Forward (returns : bool) (callee : string) (args : list expr)
| Native.

#[global] Instance body_eq_dec : EqDecision body.
Proof. solve_decision. Defined.

Record fn_decl := Fn {
  fn_ret : ctype;
  fn_name : string;
  fn_params : list (ctype * string);
  fn_body : body
}.

#[global] Instance fn_decl_eq_dec : EqDecision fn_decl.
Proof. solve_decision. Defined.

(** Every function defined in [backend.c], in source order: return type,
    name, parameters with their declared types, and body. *)
Definition backend_api : list fn_decl := [
  Fn Tvoid "jgrapht_isolate_create" []
     (Native);
  Fn Tvoid "jgrapht_isolate_destroy" []
     (Native);
  Fn Tint "jgrapht_isolate_is_attached" []
     (Native);
  Fn Tint "jgrapht_attributes_store_create" [(Tptr (Tptr Tvoid), "res")]
     (Forward true "jgrapht_capi_attributes_store_create" [Ethread; Evar "res"]);
  Fn Tint "jgrapht_attributes_store_put_boolean_attribute" [(Tptr Tvoid, "store"); (Tint, "element"); (Tptr Tchar, "key"); (Tint, "value")]
     (Forward true "jgrapht_capi_attributes_store_put_boolean_attribute" [Ethread; Evar "store"; Evar "element"; Evar "key"; Evar "value"]);
  Fn Tint "jgrapht_attributes_store_put_int_attribute" [(Tptr Tvoid, "store"); (Tint, "element"); (Tptr Tchar, "key"); (Tint, "value")]
     (Forward true "jgrapht_capi_attributes_store_put_int_attribute" [Ethread; Evar "store"; Evar "element"; Evar "key"; Evar "value"]);
  Fn Tint "jgrapht_attributes_store_put_long_attribute" [(Tptr Tvoid, "store"); (Tlonglong, "element"); (Tptr Tchar, "key"); (Tint, "value")]
     (Forward true "jgrapht_capi_attributes_store_put_long_attribute" [Ethread; Evar "store"; Evar "element"; Evar "key"; Evar "value"]);
  Fn Tint "jgrapht_attributes_store_put_double_attribute" [(Tptr Tvoid, "store"); (Tint, "element"); (Tptr Tchar, "key"); (Tdouble, "value")]
     (Forward true "jgrapht_capi_attributes_store_put_double_attribute" [Ethread; Evar "store"; Evar "element"; Evar "key"; Evar "value"]);
  Fn Tint "jgrapht_attributes_store_put_string_attribute" [(Tptr Tvoid, "store"); (Tint, "element"); (Tptr Tchar, "key"); (Tptr Tchar, "value")]
     (Forward true "jgrapht_capi_attributes_store_put_string_attribute" [Ethread; Evar "store"; Evar "element"; Evar "key"; Evar "value"]);
  Fn Tint "jgrapht_attributes_store_remove_attribute" [(Tptr Tvoid, "store"); (Tint, "element"); (Tptr Tchar, "key")]
     (Forward true "jgrapht_capi_attributes_store_remove_attribute" [Ethread; Evar "store"; Evar "element"; Evar "key"]);
  Fn Tint "jgrapht_attributes_registry_create" [(Tptr (Tptr Tvoid), "res")]
     (Forward true "jgrapht_capi_attributes_registry_create" [Ethread; Evar "res"]);
  Fn Tint "jgrapht_attributes_registry_register_attribute" [(Tptr Tvoid, "registry"); (Tptr Tchar, "name"); (Tptr Tchar, "category"); (Tptr Tchar, "type"); (Tptr Tchar, "default_value")]
     (Forward true "jgrapht_capi_attributes_registry_register_attribute" [Ethread; Evar "registry"; Evar "name"; Evar "category"; Evar "type"; Evar "default_value"]);
  Fn Tint "jgrapht_attributes_registry_unregister_attribute" [(Tptr Tvoid, "registry"); (Tptr Tchar, "name"); (Tptr Tchar, "category"); (Tptr Tchar, "type"); (Tptr Tchar, "default_value")]
     (Forward true "jgrapht_capi_attributes_registry_unregister_attribute" [Ethread; Evar "registry"; Evar "name"; Evar "category"; Evar "type"; Evar "default_value"]);
  Fn Tint "jgrapht_clique_exec_bron_kerbosch" [(Tptr Tvoid, "g"); (Tlonglong, "timeout"); (Tptr (Tptr Tvoid), "res")]
     (Forward true "jgrapht_capi_clique_exec_bron_kerbosch" [Ethread; Evar "g"; Evar "timeout"; Evar "res"]);
  Fn Tint "jgrapht_clique_exec_bron_kerbosch_pivot" [(Tptr Tvoid, "g"); (Tlonglong, "timeout"); (Tptr (Tptr Tvoid), "res")]
     (Forward true "jgrapht_capi_clique_exec_bron_kerbosch_pivot" [Ethread; Evar "g"; Evar "timeout"; Evar "res"]);
  Fn Tint "jgrapht_clique_exec_bron_kerbosch_pivot_degeneracy_ordering" [(Tptr Tvoid, "g"); (Tlonglong, "timeout"); (Tptr (Tptr Tvoid), "res")]
     (Forward true "jgrapht_capi_clique_exec_bron_kerbosch_pivot_degeneracy_ordering" [Ethread; Evar "g"; Evar "timeout"; Evar "res"]);
  Fn Tint "jgrapht_clustering_exec_k_spanning_tree" [(Tptr Tvoid, "g"); (Tint, "k"); (Tptr (Tptr Tvoid), "res")]
     (Forward true "jgrapht_capi_clustering_exec_k_spanning_tree" [Ethread; Evar "g"; Evar "k"; Evar "res"]);
  Fn Tint "jgrapht_clustering_exec_label_propagation" [(Tptr Tvoid, "g"); (Tint, "max_iterations"); (Tlonglong, "seed"); (Tptr (Tptr Tvoid), "res")]
     (Forward true "jgrapht_capi_clustering_exec_label_propagation" [Ethread; Evar "g"; Evar "max_iterations"; Evar "seed"; Evar "res"]);
  Fn Tint "jgrapht_clustering_get_number_clusters" [(Tptr Tvoid, "clustering"); (Tptr Tint, "res")]
     (Forward true "jgrapht_capi_clustering_get_number_clusters" [Ethread; Evar "clustering"; Evar "res"]);
  Fn Tint "jgrapht_clustering_ith_cluster_vit" [(Tptr Tvoid, "clustering"); (Tint, "i"); (Tptr (Tptr Tvoid), "res")]
     (Forward true "jgrapht_capi_clustering_ith_cluster_vit" [Ethread; Evar "clustering"; Evar "i"; Evar "res"]);
  Fn Tint "jgrapht_coloring_exec_greedy" [(Tptr Tvoid, "g"); (Tptr Tint, "colors_res"); (Tptr (Tptr Tvoid), "res")]
     (Forward true "jgrapht_capi_coloring_exec_greedy" [Ethread; Evar "g"; Evar "colors_res"; Evar "res"]);
  Fn Tint "jgrapht_coloring_exec_greedy_smallestdegreelast" [(Tptr Tvoid, "g"); (Tptr Tint, "colors_res"); (Tptr (Tptr Tvoid), "res")]
     (Forward true "jgrapht_capi_coloring_exec_greedy_smallestdegreelast" [Ethread; Evar "g"; Evar "colors_res"; Evar "res"]);
  Fn Tint "jgrapht_coloring_exec_backtracking_brown" [(Tptr Tvoid, "g"); (Tptr Tint, "colors_res"); (Tptr (Tptr Tvoid), "res")]
     (Forward true "jgrapht_capi_coloring_exec_backtracking_brown" [Ethread; Evar "g"; Evar "colors_res"; Evar "res"]);
  Fn Tint "jgrapht_coloring_exec_greedy_largestdegreefirst" [(Tptr Tvoid, "g"); (Tptr Tint, "colors_res"); (Tptr (Tptr Tvoid), "res")]
     (Forward true "jgrapht_capi_coloring_exec_greedy_largestdegreefirst" [Ethread; Evar "g"; Evar "colors_res"; Evar "res"]);
  Fn Tint "jgrapht_coloring_exec_greedy_random" [(Tptr Tvoid, "g"); (Tptr Tint, "colors_res"); (Tptr (Tptr Tvoid), "res")]
     (Forward true "jgrapht_capi_coloring_exec_greedy_random" [Ethread; Evar "g"; Evar "colors_res"; Evar "res"]);
  Fn Tint "jgrapht_coloring_exec_greedy_random_with_seed" [(Tptr Tvoid, "g"); (Tlonglong, "seed"); (Tptr Tint, "colors_res"); (Tptr (Tptr Tvoid), "res")]
     (Forward true "jgrapht_capi_coloring_exec_greedy_random_with_seed" [Ethread; Evar "g"; Evar "seed"; Evar "colors_res"; Evar "res"]);
  Fn Tint "jgrapht_coloring_exec_greedy_dsatur" [(Tptr Tvoid, "g"); (Tptr Tint, "colors_res"); (Tptr (Tptr Tvoid), "res")]
     (Forward true "jgrapht_capi_coloring_exec_greedy_dsatur" [Ethread; Evar "g"; Evar "colors_res"; Evar "res"]);
  Fn Tint "jgrapht_coloring_exec_color_refinement" [(Tptr Tvoid, "g"); (Tptr Tint, "colors_res"); (Tptr (Tptr Tvoid), "res")]
     (Forward true "jgrapht_capi_coloring_exec_color_refinement" [Ethread; Evar "g"; Evar "colors_res"; Evar "res"]);
  Fn Tint "jgrapht_connectivity_strong_exec_kosaraju" [(Tptr Tvoid, "g"); (Tptr Tint, "is_connected_res"); (Tptr (Tptr Tvoid), "res")]
     (Forward true "jgrapht_capi_connectivity_strong_exec_kosaraju" [Ethread; Evar "g"; Evar "is_connected_res"; Evar "res"]);
  Fn Tint "jgrapht_connectivity_strong_exec_gabow" [(Tptr Tvoid, "g"); (Tptr Tint, "is_connected_res"); (Tptr (Tptr Tvoid), "res")]
     (Forward true "jgrapht_capi_connectivity_strong_exec_gabow" [Ethread; Evar "g"; Evar "is_connected_res"; Evar "res"]);
  Fn Tint "jgrapht_connectivity_weak_exec_bfs" [(Tptr Tvoid, "g"); (Tptr Tint, "is_connected_res"); (Tptr (Tptr Tvoid), "res")]
     (Forward true "jgrapht_capi_connectivity_weak_exec_bfs" [Ethread; Evar "g"; Evar "is_connected_res"; Evar "res"]);
  Fn Tint "jgrapht_cut_exec_stoer_wagner" [(Tptr Tvoid, "g"); (Tptr Tdouble, "weight"); (Tptr (Tptr Tvoid), "res")]
     (Forward true "jgrapht_capi_cut_exec_stoer_wagner" [Ethread; Evar "g"; Evar "weight"; Evar "res"]);
  Fn Tint "jgrapht_cycles_eulerian_exec_hierholzer" [(Tptr Tvoid, "g"); (Tptr Tint, "is_eulerian_res"); (Tptr (Tptr Tvoid), "res")]
     (Forward true "jgrapht_capi_cycles_eulerian_exec_hierholzer" [Ethread; Evar "g"; Evar "is_eulerian_res"; Evar "res"]);
  Fn Tint "jgrapht_cycles_chinese_postman_exec_edmonds_johnson" [(Tptr Tvoid, "g"); (Tptr (Tptr Tvoid), "res")]
     (Forward true "jgrapht_capi_cycles_chinese_postman_exec_edmonds_johnson" [Ethread; Evar "g"; Evar "res"]);
  Fn Tint "jgrapht_cycles_simple_enumeration_exec_tarjan" [(Tptr Tvoid, "g"); (Tptr (Tptr Tvoid), "res")]
     (Forward true "jgrapht_capi_cycles_simple_enumeration_exec_tarjan" [Ethread; Evar "g"; Evar "res"]);
  Fn Tint "jgrapht_cycles_simple_enumeration_exec_tiernan" [(Tptr Tvoid, "g"); (Tptr (Tptr Tvoid), "res")]
     (Forward true "jgrapht_capi_cycles_simple_enumeration_exec_tiernan" [Ethread; Evar "g"; Evar "res"]);
  Fn Tint "jgrapht_cycles_simple_enumeration_exec_szwarcfiter_lauer" [(Tptr Tvoid, "g"); (Tptr (Tptr Tvoid), "res")]
     (Forward true "jgrapht_capi_cycles_simple_enumeration_exec_szwarcfiter_lauer" [Ethread; Evar "g"; Evar "res"]);
  Fn Tint "jgrapht_cycles_simple_enumeration_exec_johnson" [(Tptr Tvoid, "g"); (Tptr (Tptr Tvoid), "res")]
     (Forward true "jgrapht_capi_cycles_simple_enumeration_exec_johnson" [Ethread; Evar "g"; Evar "res"]);
  Fn Tint "jgrapht_cycles_simple_enumeration_exec_hawick_james" [(Tptr Tvoid, "g"); (Tptr (Tptr Tvoid), "res")]
     (Forward true "jgrapht_capi_cycles_simple_enumeration_exec_hawick_james" [Ethread; Evar "g"; Evar "res"]);
  Fn Tint "jgrapht_cycles_fundamental_basis_exec_queue_bfs" [(Tptr Tvoid, "g"); (Tptr Tdouble, "weight_res"); (Tptr (Tptr Tvoid), "res")]
     (Forward true "jgrapht_capi_cycles_fundamental_basis_exec_queue_bfs" [Ethread; Evar "g"; Evar "weight_res"; Evar "res"]);
  Fn Tint "jgrapht_cycles_fundamental_basis_exec_stack_bfs" [(Tptr Tvoid, "g"); (Tptr Tdouble, "weight_res"); (Tptr (Tptr Tvoid), "res")]
     (Forward true "jgrapht_capi_cycles_fundamental_basis_exec_stack_bfs" [Ethread; Evar "g"; Evar "weight_res"; Evar "res"]);
  Fn Tint "jgrapht_cycles_fundamental_basis_exec_paton" [(Tptr Tvoid, "g"); (Tptr Tdouble, "weight_res"); (Tptr (Tptr Tvoid), "res")]
     (Forward true "jgrapht_capi_cycles_fundamental_basis_exec_paton" [Ethread; Evar "g"; Evar "weight_res"; Evar "res"]);
  Fn Tvoid "jgrapht_error_clear_errno" []
     (Forward false "jgrapht_capi_error_clear_errno" [Ethread]);
  Fn Tstatus "jgrapht_error_get_errno" []
     (Forward true "jgrapht_capi_error_get_errno" [Ethread]);
  Fn (Tptr Tchar) "jgrapht_error_get_errno_msg" []
     (Forward true "jgrapht_capi_error_get_errno_msg" [Ethread]);
  Fn Tvoid "jgrapht_error_print_stack_trace" []
     (Forward true "jgrapht_capi_error_print_stack_trace" [Ethread]);
  Fn Tint "jgrapht_export_file_dimacs" [(Tptr Tvoid, "g"); (Tptr Tchar, "filename"); (Tdimacs_format, "format"); (Tint, "export_edge_weights")]
     (Forward true "jgrapht_capi_export_file_dimacs" [Ethread; Evar "g"; Evar "filename"; Evar "format"; Evar "export_edge_weights"]);
  Fn Tint "jgrapht_export_string_dimacs" [(Tptr Tvoid, "g"); (Tdimacs_format, "format"); (Tint, "export_edge_weights"); (Tptr (Tptr Tvoid), "res")]
     (Forward true "jgrapht_capi_export_string_dimacs" [Ethread; Evar "g"; Evar "format"; Evar "export_edge_weights"; Evar "res"]);
  Fn Tint "jgrapht_export_file_gml" [(Tptr Tvoid, "g"); (Tptr Tchar, "filename"); (Tint, "export_edge_weights"); (Tptr Tvoid, "vertex_attribute_store"); (Tptr Tvoid, "edge_attribute_store")]
     (Forward true "jgrapht_capi_export_file_gml" [Ethread; Evar "g"; Evar "filename"; Evar "export_edge_weights"; Evar "vertex_attribute_store"; Evar "edge_attribute_store"]);
  Fn Tint "jgrapht_export_string_gml" [(Tptr Tvoid, "g"); (Tint, "export_edge_weights"); (Tptr Tvoid, "vertex_attribute_store"); (Tptr Tvoid, "edge_attribute_store"); (Tptr (Tptr Tvoid), "res")]
     (Forward true "jgrapht_capi_export_string_gml" [Ethread; Evar "g"; Evar "export_edge_weights"; Evar "vertex_attribute_store"; Evar "edge_attribute_store"; Evar "res"]);
  Fn Tint "jgrapht_export_file_json" [(Tptr Tvoid, "g"); (Tptr Tchar, "filename"); (Tptr Tvoid, "vertex_attribute_store"); (Tptr Tvoid, "edge_attribute_store")]
     (Forward true "jgrapht_capi_export_file_json" [Ethread; Evar "g"; Evar "filename"; Evar "vertex_attribute_store"; Evar "edge_attribute_store"]);
  Fn Tint "jgrapht_export_string_json" [(Tptr Tvoid, "g"); (Tptr Tvoid, "vertex_attribute_store"); (Tptr Tvoid, "edge_attribute_store"); (Tptr (Tptr Tvoid), "res")]
     (Forward true "jgrapht_capi_export_string_json" [Ethread; Evar "g"; Evar "vertex_attribute_store"; Evar "edge_attribute_store"; Evar "res"]);
  Fn Tint "jgrapht_export_file_lemon" [(Tptr Tvoid, "g"); (Tptr Tchar, "filename"); (Tint, "export_edge_weights"); (Tint, "escape_strings_as_java")]
     (Forward true "jgrapht_capi_export_file_lemon" [Ethread; Evar "g"; Evar "filename"; Evar "export_edge_weights"; Evar "escape_strings_as_java"]);
  Fn Tint "jgrapht_export_string_lemon" [(Tptr Tvoid, "g"); (Tint, "export_edge_weights"); (Tint, "escape_strings_as_java"); (Tptr (Tptr Tvoid), "res")]
     (Forward true "jgrapht_capi_export_string_lemon" [Ethread; Evar "g"; Evar "export_edge_weights"; Evar "escape_strings_as_java"; Evar "res"]);
  Fn Tint "jgrapht_export_file_csv" [(Tptr Tvoid, "g"); (Tptr Tchar, "filename"); (Tcsv_format, "format"); (Tint, "export_edge_weights"); (Tint, "matrix_format_nodeid"); (Tint, "matrix_format_zero_when_no_edge")]
     (Forward true "jgrapht_capi_export_file_csv" [Ethread; Evar "g"; Evar "filename"; Evar "format"; Evar "export_edge_weights"; Evar "matrix_format_nodeid"; Evar "matrix_format_zero_when_no_edge"]);
  Fn Tint "jgrapht_export_string_csv" [(Tptr Tvoid, "g"); (Tcsv_format, "format"); (Tint, "export_edge_weights"); (Tint, "matrix_format_nodeid"); (Tint, "matrix_format_zero_when_no_edge"); (Tptr (Tptr Tvoid), "res")]
     (Forward true "jgrapht_capi_export_string_csv" [Ethread; Evar "g"; Evar "format"; Evar "export_edge_weights"; Evar "matrix_format_nodeid"; Evar "matrix_format_zero_when_no_edge"; Evar "res"]);
  Fn Tint "jgrapht_export_file_gexf" [(Tptr Tvoid, "g"); (Tptr Tchar, "filename"); (Tptr Tvoid, "attributes_registry"); (Tptr Tvoid, "vertex_attribute_store"); (Tptr Tvoid, "edge_attribute_store"); (Tint, "export_edge_weights"); (Tint, "export_edge_labels"); (Tint, "export_edge_types"); (Tint, "export_meta")]
     (Forward true "jgrapht_capi_export_file_gexf" [Ethread; Evar "g"; Evar "filename"; Evar "attributes_registry"; Evar "vertex_attribute_store"; Evar "edge_attribute_store"; Evar "export_edge_weights"; Evar "export_edge_labels"; Evar "export_edge_types"; Evar "export_meta"]);
  Fn Tint "jgrapht_export_string_gexf" [(Tptr Tvoid, "g"); (Tptr Tvoid, "attributes_registry"); (Tptr Tvoid, "vertex_attribute_store"); (Tptr Tvoid, "edge_attribute_store"); (Tint, "export_edge_weights"); (Tint, "export_edge_labels"); (Tint, "export_edge_types"); (Tint, "export_meta"); (Tptr (Tptr Tvoid), "res")]
     (Forward true "jgrapht_capi_export_string_gexf" [Ethread; Evar "g"; Evar "attributes_registry"; Evar "vertex_attribute_store"; Evar "edge_attribute_store"; Evar "export_edge_weights"; Evar "export_edge_labels"; Evar "export_edge_types"; Evar "export_meta"; Evar "res"]);
  Fn Tint "jgrapht_export_file_dot" [(Tptr Tvoid, "g"); (Tptr Tchar, "filename"); (Tptr Tvoid, "vertex_attribute_store"); (Tptr Tvoid, "edge_attribute_store")]
     (Forward true "jgrapht_capi_export_file_dot" [Ethread; Evar "g"; Evar "filename"; Evar "vertex_attribute_store"; Evar "edge_attribute_store"]);
  Fn Tint "jgrapht_export_string_dot" [(Tptr Tvoid, "g"); (Tptr Tvoid, "vertex_attribute_store"); (Tptr Tvoid, "edge_attribute_store"); (Tptr (Tptr Tvoid), "res")]
     (Forward true "jgrapht_capi_export_string_dot" [Ethread; Evar "g"; Evar "vertex_attribute_store"; Evar "edge_attribute_store"; Evar "res"]);
  Fn Tint "jgrapht_export_file_graph6" [(Tptr Tvoid, "g"); (Tptr Tchar, "filename")]
     (Forward true "jgrapht_capi_export_file_graph6" [Ethread; Evar "g"; Evar "filename"]);
  Fn Tint "jgrapht_export_string_graph6" [(Tptr Tvoid, "g"); (Tptr (Tptr Tvoid), "res")]
     (Forward true "jgrapht_capi_export_string_graph6" [Ethread; Evar "g"; Evar "res"]);
  Fn Tint "jgrapht_export_file_sparse6" [(Tptr Tvoid, "g"); (Tptr Tchar, "filename")]
     (Forward true "jgrapht_capi_export_file_sparse6" [Ethread; Evar "g"; Evar "filename"]);
  Fn Tint "jgrapht_export_string_sparse6" [(Tptr Tvoid, "g"); (Tptr (Tptr Tvoid), "res")]
     (Forward true "jgrapht_capi_export_string_sparse6" [Ethread; Evar "g"; Evar "res"]);
  Fn Tint "jgrapht_export_file_graphml" [(Tptr Tvoid, "g"); (Tptr Tchar, "filename"); (Tptr Tvoid, "attributes_registry"); (Tptr Tvoid, "vertex_attribute_store"); (Tptr Tvoid, "edge_attribute_store"); (Tint, "export_edge_weights"); (Tint, "export_vertex_labels"); (Tint, "export_edge_labels")]
     (Forward true "jgrapht_capi_export_file_graphml" [Ethread; Evar "g"; Evar "filename"; Evar "attributes_registry"; Evar "vertex_attribute_store"; Evar "edge_attribute_store"; Evar "export_edge_weights"; Evar "export_vertex_labels"; Evar "export_edge_labels"]);
  Fn Tint "jgrapht_export_string_graphml" [(Tptr Tvoid, "g"); (Tptr Tvoid, "attributes_registry"); (Tptr Tvoid, "vertex_attribute_store"); (Tptr Tvoid, "edge_attribute_store"); (Tint, "export_edge_weights"); (Tint, "export_vertex_labels"); (Tint, "export_edge_labels"); (Tptr (Tptr Tvoid), "res")]
     (Forward true "jgrapht_capi_export_string_graphml" [Ethread; Evar "g"; Evar "attributes_registry"; Evar "vertex_attribute_store"; Evar "edge_attribute_store"; Evar "export_edge_weights"; Evar "export_vertex_labels"; Evar "export_edge_labels"; Evar "res"]);
  Fn Tint "jgrapht_maxflow_exec_push_relabel" [(Tptr Tvoid, "g"); (Tint, "source"); (Tint, "sink"); (Tptr Tdouble, "valueRes"); (Tptr (Tptr Tvoid), "flowMapRes"); (Tptr (Tptr Tvoid), "cutSourcePartitionRes")]
     (Forward true "jgrapht_capi_maxflow_exec_push_relabel" [Ethread; Evar "g"; Evar "source"; Evar "sink"; Evar "valueRes"; Evar "flowMapRes"; Evar "cutSourcePartitionRes"]);
  Fn Tint "jgrapht_maxflow_exec_dinic" [(Tptr Tvoid, "g"); (Tint, "source"); (Tint, "sink"); (Tptr Tdouble, "valueRes"); (Tptr (Tptr Tvoid), "flowMapRes"); (Tptr (Tptr Tvoid), "cutSourcePartitionRes")]
     (Forward true "jgrapht_capi_maxflow_exec_dinic" [Ethread; Evar "g"; Evar "source"; Evar "sink"; Evar "valueRes"; Evar "flowMapRes"; Evar "cutSourcePartitionRes"]);
  Fn Tint "jgrapht_maxflow_exec_edmonds_karp" [(Tptr Tvoid, "g"); (Tint, "source"); (Tint, "sink"); (Tptr Tdouble, "valueRes"); (Tptr (Tptr Tvoid), "flowMapRes"); (Tptr (Tptr Tvoid), "cutSourcePartitionRes")]
     (Forward true "jgrapht_capi_maxflow_exec_edmonds_karp" [Ethread; Evar "g"; Evar "source"; Evar "sink"; Evar "valueRes"; Evar "flowMapRes"; Evar "cutSourcePartitionRes"]);
  Fn Tint "jgrapht_mincostflow_exec_capacity_scaling" [(Tptr Tvoid, "g"); (Tptr Tvoid, "node_supply_fptr"); (Tptr Tvoid, "arc_capacity_lower_bound_fptr"); (Tptr Tvoid, "arc_capacity_upper_bound_fptr"); (Tint, "scaling_factor"); (Tptr Tdouble, "cost_res"); (Tptr (Tptr Tvoid), "flow_res"); (Tptr (Tptr Tvoid), "dual_res")]
     (Forward true "jgrapht_capi_mincostflow_exec_capacity_scaling" [Ethread; Evar "g"; Evar "node_supply_fptr"; Evar "arc_capacity_lower_bound_fptr"; Evar "arc_capacity_upper_bound_fptr"; Evar "scaling_factor"; Evar "cost_res"; Evar "flow_res"; Evar "dual_res"]);
  Fn Tint "jgrapht_generate_barabasi_albert" [(Tptr Tvoid, "g"); (Tint, "m0"); (Tint, "m"); (Tint, "n"); (Tlonglong, "seed")]
     (Forward true "jgrapht_capi_generate_barabasi_albert" [Ethread; Evar "g"; Evar "m0"; Evar "m"; Evar "n"; Evar "seed"]);
  Fn Tint "jgrapht_generate_barabasi_albert_forest" [(Tptr Tvoid, "g"); (Tint, "t"); (Tint, "n"); (Tlonglong, "seed")]
     (Forward true "jgrapht_capi_generate_barabasi_albert_forest" [Ethread; Evar "g"; Evar "t"; Evar "n"; Evar "seed"]);
  Fn Tint "jgrapht_generate_complete" [(Tptr Tvoid, "g"); (Tint, "nodes")]
     (Forward true "jgrapht_capi_generate_complete" [Ethread; Evar "g"; Evar "nodes"]);
  Fn Tint "jgrapht_generate_bipartite_complete" [(Tptr Tvoid, "g"); (Tint, "a"); (Tint, "b")]
     (Forward true "jgrapht_capi_generate_bipartite_complete" [Ethread; Evar "g"; Evar "a"; Evar "b"]);
  Fn Tint "jgrapht_generate_empty" [(Tptr Tvoid, "g"); (Tint, "nodes")]
     (Forward true "jgrapht_capi_generate_empty" [Ethread; Evar "g"; Evar "nodes"]);
  Fn Tint "jgrapht_generate_gnm_random" [(Tptr Tvoid, "g"); (Tint, "n"); (Tint, "m"); (Tint, "loops"); (Tint, "multiple_edges"); (Tlonglong, "seed")]
     (Forward true "jgrapht_capi_generate_gnm_random" [Ethread; Evar "g"; Evar "n"; Evar "m"; Evar "loops"; Evar "multiple_edges"; Evar "seed"]);
  Fn Tint "jgrapht_generate_gnp_random" [(Tptr Tvoid, "g"); (Tint, "n"); (Tdouble, "p"); (Tint, "create_loops"); (Tlonglong, "seed")]
     (Forward true "jgrapht_capi_generate_gnp_random" [Ethread; Evar "g"; Evar "n"; Evar "p"; Evar "create_loops"; Evar "seed"]);
  Fn Tint "jgrapht_generate_ring" [(Tptr Tvoid, "g"); (Tint, "n")]
     (Forward true "jgrapht_capi_generate_ring" [Ethread; Evar "g"; Evar "n"]);
  Fn Tint "jgrapht_generate_scalefree" [(Tptr Tvoid, "g"); (Tint, "n"); (Tlonglong, "seed")]
     (Forward true "jgrapht_capi_generate_scalefree" [Ethread; Evar "g"; Evar "n"; Evar "seed"]);
  Fn Tint "jgrapht_generate_watts_strogatz" [(Tptr Tvoid, "g"); (Tint, "n"); (Tint, "k"); (Tdouble, "p"); (Tint, "add_instead_of_rewire"); (Tlonglong, "seed")]
     (Forward true "jgrapht_capi_generate_watts_strogatz" [Ethread; Evar "g"; Evar "n"; Evar "k"; Evar "p"; Evar "add_instead_of_rewire"; Evar "seed"]);
  Fn Tint "jgrapht_generate_kleinberg_smallworld" [(Tptr Tvoid, "g"); (Tint, "n"); (Tint, "p"); (Tint, "q"); (Tint, "r"); (Tlonglong, "seed")]
     (Forward true "jgrapht_capi_generate_kleinberg_smallworld" [Ethread; Evar "g"; Evar "n"; Evar "p"; Evar "q"; Evar "r"; Evar "seed"]);
  Fn Tint "jgrapht_graph_create" [(Tint, "directed"); (Tint, "allowing_self_loops"); (Tint, "allowing_multiple_edges"); (Tint, "weighted"); (Tptr (Tptr Tvoid), "res")]
     (Forward true "jgrapht_capi_graph_create" [Ethread; Evar "directed"; Evar "allowing_self_loops"; Evar "allowing_multiple_edges"; Evar "weighted"; Evar "res"]);
  Fn Tint "jgrapht_graph_sparse_create" [(Tint, "directed"); (Tint, "weighted"); (Tint, "num_vertices"); (Tptr Tvoid, "edges"); (Tptr (Tptr Tvoid), "res")]
     (Forward true "jgrapht_capi_graph_sparse_create" [Ethread; Evar "directed"; Evar "weighted"; Evar "num_vertices"; Evar "edges"; Evar "res"]);
  Fn Tint "jgrapht_graph_vertices_count" [(Tptr Tvoid, "g"); (Tptr Tint, "res")]
     (Forward true "jgrapht_capi_graph_vertices_count" [Ethread; Evar "g"; Evar "res"]);
  Fn Tint "jgrapht_graph_edges_count" [(Tptr Tvoid, "g"); (Tptr Tint, "res")]
     (Forward true "jgrapht_capi_graph_edges_count" [Ethread; Evar "g"; Evar "res"]);
  Fn Tint "jgrapht_graph_add_vertex" [(Tptr Tvoid, "g"); (Tptr Tint, "res")]
     (Forward true "jgrapht_capi_graph_add_vertex" [Ethread; Evar "g"; Evar "res"]);
  Fn Tint "jgrapht_graph_add_given_vertex" [(Tptr Tvoid, "g"); (Tint, "vertex"); (Tptr Tint, "res")]
     (Forward true "jgrapht_capi_graph_add_given_vertex" [Ethread; Evar "g"; Evar "vertex"; Evar "res"]);
  Fn Tint "jgrapht_graph_remove_vertex" [(Tptr Tvoid, "g"); (Tint, "v"); (Tptr Tint, "res")]
     (Forward true "jgrapht_capi_graph_remove_vertex" [Ethread; Evar "g"; Evar "v"; Evar "res"]);
  Fn Tint "jgrapht_graph_contains_vertex" [(Tptr Tvoid, "g"); (Tint, "v"); (Tptr Tint, "res")]
     (Forward true "jgrapht_capi_graph_contains_vertex" [Ethread; Evar "g"; Evar "v"; Evar "res"]);
  Fn Tint "jgrapht_graph_add_edge" [(Tptr Tvoid, "g"); (Tint, "u"); (Tint, "v"); (Tptr Tint, "res")]
     (Forward true "jgrapht_capi_graph_add_edge" [Ethread; Evar "g"; Evar "u"; Evar "v"; Evar "res"]);
  Fn Tint "jgrapht_graph_add_given_edge" [(Tptr Tvoid, "g"); (Tint, "u"); (Tint, "v"); (Tint, "edge"); (Tptr Tint, "res")]
     (Forward true "jgrapht_capi_graph_add_given_edge" [Ethread; Evar "g"; Evar "u"; Evar "v"; Evar "edge"; Evar "res"]);
  Fn Tint "jgrapht_graph_remove_edge" [(Tptr Tvoid, "g"); (Tint, "e"); (Tptr Tint, "res")]
     (Forward true "jgrapht_capi_graph_remove_edge" [Ethread; Evar "g"; Evar "e"; Evar "res"]);
  Fn Tint "jgrapht_graph_contains_edge" [(Tptr Tvoid, "g"); (Tint, "e"); (Tptr Tint, "res")]
     (Forward true "jgrapht_capi_graph_contains_edge" [Ethread; Evar "g"; Evar "e"; Evar "res"]);
  Fn Tint "jgrapht_graph_contains_edge_between" [(Tptr Tvoid, "g"); (Tint, "u"); (Tint, "v"); (Tptr Tint, "res")]
     (Forward true "jgrapht_capi_graph_contains_edge_between" [Ethread; Evar "g"; Evar "u"; Evar "v"; Evar "res"]);
  Fn Tint "jgrapht_graph_degree_of" [(Tptr Tvoid, "g"); (Tint, "v"); (Tptr Tint, "res")]
     (Forward true "jgrapht_capi_graph_degree_of" [Ethread; Evar "g"; Evar "v"; Evar "res"]);
  Fn Tint "jgrapht_graph_indegree_of" [(Tptr Tvoid, "g"); (Tint, "v"); (Tptr Tint, "res")]
     (Forward true "jgrapht_capi_graph_indegree_of" [Ethread; Evar "g"; Evar "v"; Evar "res"]);
  Fn Tint "jgrapht_graph_outdegree_of" [(Tptr Tvoid, "g"); (Tint, "v"); (Tptr Tint, "res")]
     (Forward true "jgrapht_capi_graph_outdegree_of" [Ethread; Evar "g"; Evar "v"; Evar "res"]);
  Fn Tint "jgrapht_graph_edge_source" [(Tptr Tvoid, "g"); (Tint, "v"); (Tptr Tint, "res")]
     (Forward true "jgrapht_capi_graph_edge_source" [Ethread; Evar "g"; Evar "v"; Evar "res"]);
  Fn Tint "jgrapht_graph_edge_target" [(Tptr Tvoid, "g"); (Tint, "v"); (Tptr Tint, "res")]
     (Forward true "jgrapht_capi_graph_edge_target" [Ethread; Evar "g"; Evar "v"; Evar "res"]);
  Fn Tint "jgrapht_graph_is_weighted" [(Tptr Tvoid, "g"); (Tptr Tint, "res")]
     (Forward true "jgrapht_capi_graph_is_weighted" [Ethread; Evar "g"; Evar "res"]);
  Fn Tint "jgrapht_graph_is_directed" [(Tptr Tvoid, "g"); (Tptr Tint, "res")]
     (Forward true "jgrapht_capi_graph_is_directed" [Ethread; Evar "g"; Evar "res"]);
  Fn Tint "jgrapht_graph_is_undirected" [(Tptr Tvoid, "g"); (Tptr Tint, "res")]
     (Forward true "jgrapht_capi_graph_is_undirected" [Ethread; Evar "g"; Evar "res"]);
  Fn Tint "jgrapht_graph_is_allowing_selfloops" [(Tptr Tvoid, "g"); (Tptr Tint, "res")]
     (Forward true "jgrapht_capi_graph_is_allowing_selfloops" [Ethread; Evar "g"; Evar "res"]);
  Fn Tint "jgrapht_graph_is_allowing_multipleedges" [(Tptr Tvoid, "g"); (Tptr Tint, "res")]
     (Forward true "jgrapht_capi_graph_is_allowing_multipleedges" [Ethread; Evar "g"; Evar "res"]);
  Fn Tint "jgrapht_graph_get_edge_weight" [(Tptr Tvoid, "g"); (Tint, "e"); (Tptr Tdouble, "res")]
     (Forward true "jgrapht_capi_graph_get_edge_weight" [Ethread; Evar "g"; Evar "e"; Evar "res"]);
  Fn Tint "jgrapht_graph_set_edge_weight" [(Tptr Tvoid, "g"); (Tint, "e"); (Tdouble, "weight")]
     (Forward true "jgrapht_capi_graph_set_edge_weight" [Ethread; Evar "g"; Evar "e"; Evar "weight"]);
  Fn Tint "jgrapht_graph_create_all_vit" [(Tptr Tvoid, "g"); (Tptr (Tptr Tvoid), "res")]
     (Forward true "jgrapht_capi_graph_create_all_vit" [Ethread; Evar "g"; Evar "res"]);
  Fn Tint "jgrapht_graph_create_all_eit" [(Tptr Tvoid, "g"); (Tptr (Tptr Tvoid), "res")]
     (Forward true "jgrapht_capi_graph_create_all_eit" [Ethread; Evar "g"; Evar "res"]);
  Fn Tint "jgrapht_graph_create_between_eit" [(Tptr Tvoid, "g"); (Tint, "u"); (Tint, "v"); (Tptr (Tptr Tvoid), "res")]
     (Forward true "jgrapht_capi_graph_create_between_eit" [Ethread; Evar "g"; Evar "u"; Evar "v"; Evar "res"]);
  Fn Tint "jgrapht_graph_vertex_create_eit" [(Tptr Tvoid, "g"); (Tint, "v"); (Tptr (Tptr Tvoid), "res")]
     (Forward true "jgrapht_capi_graph_vertex_create_eit" [Ethread; Evar "g"; Evar "v"; Evar "res"]);
  Fn Tint "jgrapht_graph_vertex_create_out_eit" [(Tptr Tvoid, "g"); (Tint, "v"); (Tptr (Tptr Tvoid), "res")]
     (Forward true "jgrapht_capi_graph_vertex_create_out_eit" [Ethread; Evar "g"; Evar "v"; Evar "res"]);
  Fn Tint "jgrapht_graph_vertex_create_in_eit" [(Tptr Tvoid, "g"); (Tint, "v"); (Tptr (Tptr Tvoid), "res")]
     (Forward true "jgrapht_capi_graph_vertex_create_in_eit" [Ethread; Evar "g"; Evar "v"; Evar "res"]);
  Fn Tint "jgrapht_graph_as_undirected" [(Tptr Tvoid, "g"); (Tptr (Tptr Tvoid), "res")]
     (Forward true "jgrapht_capi_graph_as_undirected" [Ethread; Evar "g"; Evar "res"]);
  Fn Tint "jgrapht_graph_as_unmodifiable" [(Tptr Tvoid, "g"); (Tptr (Tptr Tvoid), "res")]
     (Forward true "jgrapht_capi_graph_as_unmodifiable" [Ethread; Evar "g"; Evar "res"]);
  Fn Tint "jgrapht_graph_as_unweighted" [(Tptr Tvoid, "g"); (Tptr (Tptr Tvoid), "res")]
     (Forward true "jgrapht_capi_graph_as_unweighted" [Ethread; Evar "g"; Evar "res"]);
  Fn Tint "jgrapht_graph_as_edgereversed" [(Tptr Tvoid, "g"); (Tptr (Tptr Tvoid), "res")]
     (Forward true "jgrapht_capi_graph_as_edgereversed" [Ethread; Evar "g"; Evar "res"]);
  Fn Tint "jgrapht_graph_metrics_diameter" [(Tptr Tvoid, "g"); (Tptr Tdouble, "diameter")]
     (Forward true "jgrapht_capi_graph_metrics_diameter" [Ethread; Evar "g"; Evar "diameter"]);
  Fn Tint "jgrapht_graph_metrics_radius" [(Tptr Tvoid, "g"); (Tptr Tdouble, "radius")]
     (Forward true "jgrapht_capi_graph_metrics_radius" [Ethread; Evar "g"; Evar "radius"]);
  Fn Tint "jgrapht_graph_metrics_girth" [(Tptr Tvoid, "g"); (Tptr Tint, "girth")]
     (Forward true "jgrapht_capi_graph_metrics_girth" [Ethread; Evar "g"; Evar "girth"]);
  Fn Tint "jgrapht_graph_metrics_triangles" [(Tptr Tvoid, "g"); (Tptr Tlonglong, "triangles")]
     (Forward true "jgrapht_capi_graph_metrics_triangles" [Ethread; Evar "g"; Evar "triangles"]);
  Fn Tint "jgrapht_graph_metrics_measure_graph" [(Tptr Tvoid, "g"); (Tptr Tdouble, "diameter_res"); (Tptr Tdouble, "radius_res"); (Tptr (Tptr Tvoid), "center_res"); (Tptr (Tptr Tvoid), "periphery_res"); (Tptr (Tptr Tvoid), "pseudo_periphery_res"); (Tptr (Tptr Tvoid), "vertex_eccentricity_map_res")]
     (Forward true "jgrapht_capi_graph_metrics_measure_graph" [Ethread; Evar "g"; Evar "diameter_res"; Evar "radius_res"; Evar "center_res"; Evar "periphery_res"; Evar "pseudo_periphery_res"; Evar "vertex_eccentricity_map_res"]);
  Fn Tint "jgrapht_graphpath_get_fields" [(Tptr Tvoid, "graph_path"); (Tptr Tdouble, "weight"); (Tptr Tint, "start_vertex"); (Tptr Tint, "end_vertex"); (Tptr (Tptr Tvoid), "eit")]
     (Forward true "jgrapht_capi_graphpath_get_fields" [Ethread; Evar "graph_path"; Evar "weight"; Evar "start_vertex"; Evar "end_vertex"; Evar "eit"]);
  Fn Tint "jgrapht_graph_test_is_empty" [(Tptr Tvoid, "g"); (Tptr Tint, "res")]
     (Forward true "jgrapht_capi_graph_test_is_empty" [Ethread; Evar "g"; Evar "res"]);
  Fn Tint "jgrapht_graph_test_is_simple" [(Tptr Tvoid, "g"); (Tptr Tint, "res")]
     (Forward true "jgrapht_capi_graph_test_is_simple" [Ethread; Evar "g"; Evar "res"]);
  Fn Tint "jgrapht_graph_test_has_selfloops" [(Tptr Tvoid, "g"); (Tptr Tint, "res")]
     (Forward true "jgrapht_capi_graph_test_has_selfloops" [Ethread; Evar "g"; Evar "res"]);
  Fn Tint "jgrapht_graph_test_has_multipleedges" [(Tptr Tvoid, "g"); (Tptr Tint, "res")]
     (Forward true "jgrapht_capi_graph_test_has_multipleedges" [Ethread; Evar "g"; Evar "res"]);
  Fn Tint "jgrapht_graph_test_is_complete" [(Tptr Tvoid, "g"); (Tptr Tint, "res")]
     (Forward true "jgrapht_capi_graph_test_is_complete" [Ethread; Evar "g"; Evar "res"]);
  Fn Tint "jgrapht_graph_test_is_weakly_connected" [(Tptr Tvoid, "g"); (Tptr Tint, "res")]
     (Forward true "jgrapht_capi_graph_test_is_weakly_connected" [Ethread; Evar "g"; Evar "res"]);
  Fn Tint "jgrapht_graph_test_is_strongly_connected" [(Tptr Tvoid, "g"); (Tptr Tint, "res")]
     (Forward true "jgrapht_capi_graph_test_is_strongly_connected" [Ethread; Evar "g"; Evar "res"]);
  Fn Tint "jgrapht_graph_test_is_tree" [(Tptr Tvoid, "g"); (Tptr Tint, "res")]
     (Forward true "jgrapht_capi_graph_test_is_tree" [Ethread; Evar "g"; Evar "res"]);
  Fn Tint "jgrapht_graph_test_is_forest" [(Tptr Tvoid, "g"); (Tptr Tint, "res")]
     (Forward true "jgrapht_capi_graph_test_is_forest" [Ethread; Evar "g"; Evar "res"]);
  Fn Tint "jgrapht_graph_test_is_overfull" [(Tptr Tvoid, "g"); (Tptr Tint, "res")]
     (Forward true "jgrapht_capi_graph_test_is_overfull" [Ethread; Evar "g"; Evar "res"]);
  Fn Tint "jgrapht_graph_test_is_split" [(Tptr Tvoid, "g"); (Tptr Tint, "res")]
     (Forward true "jgrapht_capi_graph_test_is_split" [Ethread; Evar "g"; Evar "res"]);
  Fn Tint "jgrapht_graph_test_is_bipartite" [(Tptr Tvoid, "g"); (Tptr Tint, "res")]
     (Forward true "jgrapht_capi_graph_test_is_bipartite" [Ethread; Evar "g"; Evar "res"]);
  Fn Tint "jgrapht_graph_test_is_cubic" [(Tptr Tvoid, "g"); (Tptr Tint, "res")]
     (Forward true "jgrapht_capi_graph_test_is_cubic" [Ethread; Evar "g"; Evar "res"]);
  Fn Tint "jgrapht_graph_test_is_eulerian" [(Tptr Tvoid, "g"); (Tptr Tint, "res")]
     (Forward true "jgrapht_capi_graph_test_is_eulerian" [Ethread; Evar "g"; Evar "res"]);
  Fn Tint "jgrapht_graph_test_is_chordal" [(Tptr Tvoid, "g"); (Tptr Tint, "res")]
     (Forward true "jgrapht_capi_graph_test_is_chordal" [Ethread; Evar "g"; Evar "res"]);
  Fn Tint "jgrapht_graph_test_is_weakly_chordal" [(Tptr Tvoid, "g"); (Tptr Tint, "res")]
     (Forward true "jgrapht_capi_graph_test_is_weakly_chordal" [Ethread; Evar "g"; Evar "res"]);
  Fn Tint "jgrapht_graph_test_has_ore" [(Tptr Tvoid, "g"); (Tptr Tint, "res")]
     (Forward true "jgrapht_capi_graph_test_has_ore" [Ethread; Evar "g"; Evar "res"]);
  Fn Tint "jgrapht_graph_test_is_trianglefree" [(Tptr Tvoid, "g"); (Tptr Tint, "res")]
     (Forward true "jgrapht_capi_graph_test_is_trianglefree" [Ethread; Evar "g"; Evar "res"]);
  Fn Tint "jgrapht_graph_test_is_perfect" [(Tptr Tvoid, "g"); (Tptr Tint, "res")]
     (Forward true "jgrapht_capi_graph_test_is_perfect" [Ethread; Evar "g"; Evar "res"]);
  Fn Tint "jgrapht_graph_test_is_planar" [(Tptr Tvoid, "g"); (Tptr Tint, "res")]
     (Forward true "jgrapht_capi_graph_test_is_planar" [Ethread; Evar "g"; Evar "res"]);
  Fn Tint "jgrapht_graph_test_is_kuratowski_subdivision" [(Tptr Tvoid, "g"); (Tptr Tint, "res")]
     (Forward true "jgrapht_capi_graph_test_is_kuratowski_subdivision" [Ethread; Evar "g"; Evar "res"]);
  Fn Tint "jgrapht_graph_test_is_k33_subdivision" [(Tptr Tvoid, "g"); (Tptr Tint, "res")]
     (Forward true "jgrapht_capi_graph_test_is_k33_subdivision" [Ethread; Evar "g"; Evar "res"]);
  Fn Tint "jgrapht_graph_test_is_k5_subdivision" [(Tptr Tvoid, "g"); (Tptr Tint, "res")]
     (Forward true "jgrapht_capi_graph_test_is_k5_subdivision" [Ethread; Evar "g"; Evar "res"]);
  Fn Tint "jgrapht_handles_destroy" [(Tptr Tvoid, "handle")]
     (Forward true "jgrapht_capi_handles_destroy" [Ethread; Evar "handle"]);
  Fn Tint "jgrapht_handles_get_ccharpointer" [(Tptr Tvoid, "handle"); (Tptr (Tptr Tchar), "res")]
     (Forward true "jgrapht_capi_handles_get_ccharpointer" [Ethread; Evar "handle"; Evar "res"]);
  Fn Tint "jgrapht_import_file_dimacs" [(Tptr Tvoid, "g"); (Tptr Tchar, "filename"); (Tint, "preserve_ids_from_input")]
     (Forward true "jgrapht_capi_import_file_dimacs" [Ethread; Evar "g"; Evar "filename"; Evar "preserve_ids_from_input"]);
  Fn Tint "jgrapht_import_string_dimacs" [(Tptr Tvoid, "g"); (Tptr Tchar, "input"); (Tint, "preserve_ids_from_input")]
     (Forward true "jgrapht_capi_import_string_dimacs" [Ethread; Evar "g"; Evar "input"; Evar "preserve_ids_from_input"]);
  Fn Tint "jgrapht_import_file_gml" [(Tptr Tvoid, "g"); (Tptr Tchar, "filename"); (Tint, "preserve_ids_from_input"); (Tptr Tvoid, "vertex_attribute_fptr"); (Tptr Tvoid, "edge_attribute_fptr")]
     (Forward true "jgrapht_capi_import_file_gml" [Ethread; Evar "g"; Evar "filename"; Evar "preserve_ids_from_input"; Evar "vertex_attribute_fptr"; Evar "edge_attribute_fptr"]);
  Fn Tint "jgrapht_import_string_gml" [(Tptr Tvoid, "g"); (Tptr Tchar, "input"); (Tint, "preserve_ids_from_input"); (Tptr Tvoid, "vertex_attribute_fptr"); (Tptr Tvoid, "edge_attribute_fptr")]
     (Forward true "jgrapht_capi_import_string_gml" [Ethread; Evar "g"; Evar "input"; Evar "preserve_ids_from_input"; Evar "vertex_attribute_fptr"; Evar "edge_attribute_fptr"]);
  Fn Tint "jgrapht_import_file_json" [(Tptr Tvoid, "g"); (Tptr Tchar, "filename"); (Tptr Tvoid, "import_vertex_id_fptr"); (Tptr Tvoid, "vertex_attribute_fptr"); (Tptr Tvoid, "edge_attribute_fptr")]
     (Forward true "jgrapht_capi_import_file_json" [Ethread; Evar "g"; Evar "filename"; Evar "import_vertex_id_fptr"; Evar "vertex_attribute_fptr"; Evar "edge_attribute_fptr"]);
  Fn Tint "jgrapht_import_string_json" [(Tptr Tvoid, "g"); (Tptr Tchar, "input"); (Tptr Tvoid, "import_vertex_id_fptr"); (Tptr Tvoid, "vertex_attribute_fptr"); (Tptr Tvoid, "edge_attribute_fptr")]
     (Forward true "jgrapht_capi_import_string_json" [Ethread; Evar "g"; Evar "input"; Evar "import_vertex_id_fptr"; Evar "vertex_attribute_fptr"; Evar "edge_attribute_fptr"]);
  Fn Tint "jgrapht_import_file_csv" [(Tptr Tvoid, "g"); (Tptr Tchar, "filename"); (Tptr Tvoid, "import_vertex_id_fptr"); (Tcsv_format, "format"); (Tint, "import_edge_weights"); (Tint, "matrix_format_nodeid"); (Tint, "matrix_format_zero_when_no_edge")]
     (Forward true "jgrapht_capi_import_file_csv" [Ethread; Evar "g"; Evar "filename"; Evar "import_vertex_id_fptr"; Evar "format"; Evar "import_edge_weights"; Evar "matrix_format_nodeid"; Evar "matrix_format_zero_when_no_edge"]);
  Fn Tint "jgrapht_import_string_csv" [(Tptr Tvoid, "g"); (Tptr Tchar, "input"); (Tptr Tvoid, "import_vertex_id_fptr"); (Tcsv_format, "format"); (Tint, "import_edge_weights"); (Tint, "matrix_format_nodeid"); (Tint, "matrix_format_zero_when_no_edge")]
     (Forward true "jgrapht_capi_import_string_csv" [Ethread; Evar "g"; Evar "input"; Evar "import_vertex_id_fptr"; Evar "format"; Evar "import_edge_weights"; Evar "matrix_format_nodeid"; Evar "matrix_format_zero_when_no_edge"]);
  Fn Tint "jgrapht_import_file_gexf" [(Tptr Tvoid, "g"); (Tptr Tchar, "filename"); (Tptr Tvoid, "import_vertex_id_fptr"); (Tint, "validate_schema"); (Tptr Tvoid, "vertex_attribute_fptr"); (Tptr Tvoid, "edge_attribute_fptr")]
     (Forward true "jgrapht_capi_import_file_gexf" [Ethread; Evar "g"; Evar "filename"; Evar "import_vertex_id_fptr"; Evar "validate_schema"; Evar "vertex_attribute_fptr"; Evar "edge_attribute_fptr"]);
  Fn Tint "jgrapht_import_string_gexf" [(Tptr Tvoid, "g"); (Tptr Tchar, "input"); (Tptr Tvoid, "import_vertex_id_fptr"); (Tint, "validate_schema"); (Tptr Tvoid, "vertex_attribute_fptr"); (Tptr Tvoid, "edge_attribute_fptr")]
     (Forward true "jgrapht_capi_import_string_gexf" [Ethread; Evar "g"; Evar "input"; Evar "import_vertex_id_fptr"; Evar "validate_schema"; Evar "vertex_attribute_fptr"; Evar "edge_attribute_fptr"]);
  Fn Tint "jgrapht_import_file_graphml_simple" [(Tptr Tvoid, "g"); (Tptr Tchar, "filename"); (Tptr Tvoid, "import_vertex_id_fptr"); (Tint, "validate_schema"); (Tptr Tvoid, "vertex_attribute_fptr"); (Tptr Tvoid, "edge_attribute_fptr")]
     (Forward true "jgrapht_capi_import_file_graphml_simple" [Ethread; Evar "g"; Evar "filename"; Evar "import_vertex_id_fptr"; Evar "validate_schema"; Evar "vertex_attribute_fptr"; Evar "edge_attribute_fptr"]);
  Fn Tint "jgrapht_import_string_graphml_simple" [(Tptr Tvoid, "g"); (Tptr Tchar, "input"); (Tptr Tvoid, "import_vertex_id_fptr"); (Tint, "validate_schema"); (Tptr Tvoid, "vertex_attribute_fptr"); (Tptr Tvoid, "edge_attribute_fptr")]
     (Forward true "jgrapht_capi_import_string_graphml_simple" [Ethread; Evar "g"; Evar "input"; Evar "import_vertex_id_fptr"; Evar "validate_schema"; Evar "vertex_attribute_fptr"; Evar "edge_attribute_fptr"]);
  Fn Tint "jgrapht_import_file_graphml" [(Tptr Tvoid, "g"); (Tptr Tchar, "filename"); (Tptr Tvoid, "import_vertex_id_fptr"); (Tint, "validate_schema"); (Tptr Tvoid, "vertex_attribute_fptr"); (Tptr Tvoid, "edge_attribute_fptr")]
     (Forward true "jgrapht_capi_import_file_graphml" [Ethread; Evar "g"; Evar "filename"; Evar "import_vertex_id_fptr"; Evar "validate_schema"; Evar "vertex_attribute_fptr"; Evar "edge_attribute_fptr"]);
  Fn Tint "jgrapht_import_string_graphml" [(Tptr Tvoid, "g"); (Tptr Tchar, "input"); (Tptr Tvoid, "import_vertex_id_fptr"); (Tint, "validate_schema"); (Tptr Tvoid, "vertex_attribute_fptr"); (Tptr Tvoid, "edge_attribute_fptr")]
     (Forward true "jgrapht_capi_import_string_graphml" [Ethread; Evar "g"; Evar "input"; Evar "import_vertex_id_fptr"; Evar "validate_schema"; Evar "vertex_attribute_fptr"; Evar "edge_attribute_fptr"]);
  Fn Tint "jgrapht_import_file_dot" [(Tptr Tvoid, "g"); (Tptr Tchar, "filename"); (Tptr Tvoid, "import_vertex_id_fptr"); (Tptr Tvoid, "vertex_attribute_fptr"); (Tptr Tvoid, "edge_attribute_fptr")]
     (Forward true "jgrapht_capi_import_file_dot" [Ethread; Evar "g"; Evar "filename"; Evar "import_vertex_id_fptr"; Evar "vertex_attribute_fptr"; Evar "edge_attribute_fptr"]);
  Fn Tint "jgrapht_import_string_dot" [(Tptr Tvoid, "g"); (Tptr Tchar, "input"); (Tptr Tvoid, "import_vertex_id_fptr"); (Tptr Tvoid, "vertex_attribute_fptr"); (Tptr Tvoid, "edge_attribute_fptr")]
     (Forward true "jgrapht_capi_import_string_dot" [Ethread; Evar "g"; Evar "input"; Evar "import_vertex_id_fptr"; Evar "vertex_attribute_fptr"; Evar "edge_attribute_fptr"]);
  Fn Tint "jgrapht_import_file_graph6sparse6" [(Tptr Tvoid, "g"); (Tptr Tchar, "filename"); (Tptr Tvoid, "import_vertex_id_fptr"); (Tptr Tvoid, "vertex_attribute_fptr"); (Tptr Tvoid, "edge_attribute_fptr")]
     (Forward true "jgrapht_capi_import_file_graph6sparse6" [Ethread; Evar "g"; Evar "filename"; Evar "import_vertex_id_fptr"; Evar "vertex_attribute_fptr"; Evar "edge_attribute_fptr"]);
  Fn Tint "jgrapht_import_string_graph6sparse6" [(Tptr Tvoid, "g"); (Tptr Tchar, "input"); (Tptr Tvoid, "import_vertex_id_fptr"); (Tptr Tvoid, "vertex_attribute_fptr"); (Tptr Tvoid, "edge_attribute_fptr")]
     (Forward true "jgrapht_capi_import_string_graph6sparse6" [Ethread; Evar "g"; Evar "input"; Evar "import_vertex_id_fptr"; Evar "vertex_attribute_fptr"; Evar "edge_attribute_fptr"]);
  Fn Tint "jgrapht_isomorphism_exec_vf2" [(Tptr Tvoid, "g1"); (Tptr Tvoid, "g2"); (Tptr Tint, "exist_iso_res"); (Tptr (Tptr Tvoid), "graph_mapping_it_res")]
     (Forward true "jgrapht_capi_isomorphism_exec_vf2" [Ethread; Evar "g1"; Evar "g2"; Evar "exist_iso_res"; Evar "graph_mapping_it_res"]);
  Fn Tint "jgrapht_isomorphism_exec_vf2_subgraph" [(Tptr Tvoid, "g1"); (Tptr Tvoid, "g2"); (Tptr Tint, "exist_iso_res"); (Tptr (Tptr Tvoid), "graph_mapping_it_res")]
     (Forward true "jgrapht_capi_isomorphism_exec_vf2_subgraph" [Ethread; Evar "g1"; Evar "g2"; Evar "exist_iso_res"; Evar "graph_mapping_it_res"]);
  Fn Tint "jgrapht_isomorphism_graph_mapping_edge_correspondence" [(Tptr Tvoid, "graph_mapping"); (Tint, "edge"); (Tint, "forward"); (Tptr Tint, "exists_edge_res"); (Tptr Tint, "edge_res")]
     (Forward true "jgrapht_capi_isomorphism_graph_mapping_edge_correspondence" [Ethread; Evar "graph_mapping"; Evar "edge"; Evar "forward"; Evar "exists_edge_res"; Evar "edge_res"]);
  Fn Tint "jgrapht_isomorphism_graph_mapping_vertex_correspondence" [(Tptr Tvoid, "graph_mapping"); (Tint, "vertex"); (Tint, "forward"); (Tptr Tint, "exist_vertex_res"); (Tptr Tint, "vertex_res")]
     (Forward true "jgrapht_capi_isomorphism_graph_mapping_vertex_correspondence" [Ethread; Evar "graph_mapping"; Evar "vertex"; Evar "forward"; Evar "exist_vertex_res"; Evar "vertex_res"]);
  Fn Tint "jgrapht_it_next_int" [(Tptr Tvoid, "it"); (Tptr Tint, "res")]
     (Forward true "jgrapht_capi_it_next_int" [Ethread; Evar "it"; Evar "res"]);
  Fn Tint "jgrapht_it_next_double" [(Tptr Tvoid, "it"); (Tptr Tdouble, "res")]
     (Forward true "jgrapht_capi_it_next_double" [Ethread; Evar "it"; Evar "res"]);
  Fn Tint "jgrapht_it_next_object" [(Tptr Tvoid, "it"); (Tptr (Tptr Tvoid), "res")]
     (Forward true "jgrapht_capi_it_next_object" [Ethread; Evar "it"; Evar "res"]);
  Fn Tint "jgrapht_it_hasnext" [(Tptr Tvoid, "it"); (Tptr Tint, "res")]
     (Forward true "jgrapht_capi_it_hasnext" [Ethread; Evar "it"; Evar "res"]);
  Fn Tint "jgrapht_list_create" [(Tptr (Tptr Tvoid), "res")]
     (Forward true "jgrapht_capi_list_create" [Ethread; Evar "res"]);
  Fn Tint "jgrapht_list_it_create" [(Tptr Tvoid, "list"); (Tptr (Tptr Tvoid), "res")]
     (Forward true "jgrapht_capi_list_it_create" [Ethread; Evar "list"; Evar "res"]);
  Fn Tint "jgrapht_list_size" [(Tptr Tvoid, "list"); (Tptr Tint, "res")]
     (Forward true "jgrapht_capi_list_size" [Ethread; Evar "list"; Evar "res"]);
  Fn Tint "jgrapht_list_int_add" [(Tptr Tvoid, "list"); (Tint, "e"); (Tptr Tint, "res")]
     (Forward true "jgrapht_capi_list_int_add" [Ethread; Evar "list"; Evar "e"; Evar "res"]);
  Fn Tint "jgrapht_list_double_add" [(Tptr Tvoid, "list"); (Tdouble, "e"); (Tptr Tint, "res")]
     (Forward true "jgrapht_capi_list_double_add" [Ethread; Evar "list"; Evar "e"; Evar "res"]);
  Fn Tint "jgrapht_list_edge_pair_add" [(Tptr Tvoid, "list"); (Tint, "source"); (Tint, "target"); (Tptr Tint, "res")]
     (Forward true "jgrapht_capi_list_edge_pair_add" [Ethread; Evar "list"; Evar "source"; Evar "target"; Evar "res"]);
  Fn Tint "jgrapht_list_edge_triple_add" [(Tptr Tvoid, "list"); (Tint, "source"); (Tint, "target"); (Tdouble, "weight"); (Tptr Tint, "res")]
     (Forward true "jgrapht_capi_list_edge_triple_add" [Ethread; Evar "list"; Evar "source"; Evar "target"; Evar "weight"; Evar "res"]);
  Fn Tint "jgrapht_list_int_remove" [(Tptr Tvoid, "list"); (Tint, "e")]
     (Forward true "jgrapht_capi_list_int_remove" [Ethread; Evar "list"; Evar "e"]);
  Fn Tint "jgrapht_list_double_remove" [(Tptr Tvoid, "list"); (Tdouble, "e")]
     (Forward true "jgrapht_capi_list_double_remove" [Ethread; Evar "list"; Evar "e"]);
  Fn Tint "jgrapht_list_int_contains" [(Tptr Tvoid, "list"); (Tint, "e"); (Tptr Tint, "res")]
     (Forward true "jgrapht_capi_list_int_contains" [Ethread; Evar "list"; Evar "e"; Evar "res"]);
  Fn Tint "jgrapht_list_double_contains" [(Tptr Tvoid, "list"); (Tdouble, "e"); (Tptr Tint, "res")]
     (Forward true "jgrapht_capi_list_double_contains" [Ethread; Evar "list"; Evar "e"; Evar "res"]);
  Fn Tint "jgrapht_list_clear" [(Tptr Tvoid, "list")]
     (Forward true "jgrapht_capi_list_clear" [Ethread; Evar "list"]);
  Fn Tint "jgrapht_map_create" [(Tptr (Tptr Tvoid), "res")]
     (Forward true "jgrapht_capi_map_create" [Ethread; Evar "res"]);
  Fn Tint "jgrapht_map_linked_create" [(Tptr (Tptr Tvoid), "res")]
     (Forward true "jgrapht_capi_map_linked_create" [Ethread; Evar "res"]);
  Fn Tint "jgrapht_map_keys_it_create" [(Tptr Tvoid, "map"); (Tptr (Tptr Tvoid), "res")]
     (Forward true "jgrapht_capi_map_keys_it_create" [Ethread; Evar "map"; Evar "res"]);
  Fn Tint "jgrapht_map_size" [(Tptr Tvoid, "map"); (Tptr Tint, "res")]
     (Forward true "jgrapht_capi_map_size" [Ethread; Evar "map"; Evar "res"]);
  Fn Tint "jgrapht_map_values_it_create" [(Tptr Tvoid, "map"); (Tptr (Tptr Tvoid), "res")]
     (Forward true "jgrapht_capi_map_values_it_create" [Ethread; Evar "map"; Evar "res"]);
  Fn Tint "jgrapht_map_int_double_put" [(Tptr Tvoid, "map"); (Tint, "key"); (Tdouble, "value")]
     (Forward true "jgrapht_capi_map_int_double_put" [Ethread; Evar "map"; Evar "key"; Evar "value"]);
  Fn Tint "jgrapht_map_int_int_put" [(Tptr Tvoid, "map"); (Tint, "key"); (Tint, "value")]
     (Forward true "jgrapht_capi_map_int_int_put" [Ethread; Evar "map"; Evar "key"; Evar "value"]);
  Fn Tint "jgrapht_map_int_double_get" [(Tptr Tvoid, "map"); (Tint, "key"); (Tptr Tdouble, "res")]
     (Forward true "jgrapht_capi_map_int_double_get" [Ethread; Evar "map"; Evar "key"; Evar "res"]);
  Fn Tint "jgrapht_map_int_int_get" [(Tptr Tvoid, "map"); (Tint, "key"); (Tptr Tint, "res")]
     (Forward true "jgrapht_capi_map_int_int_get" [Ethread; Evar "map"; Evar "key"; Evar "res"]);
  Fn Tint "jgrapht_map_int_contains_key" [(Tptr Tvoid, "map"); (Tint, "key"); (Tptr Tint, "res")]
     (Forward true "jgrapht_capi_map_int_contains_key" [Ethread; Evar "map"; Evar "key"; Evar "res"]);
  Fn Tint "jgrapht_map_int_double_remove" [(Tptr Tvoid, "map"); (Tint, "key"); (Tptr Tdouble, "res")]
     (Forward true "jgrapht_capi_map_int_double_remove" [Ethread; Evar "map"; Evar "key"; Evar "res"]);
  Fn Tint "jgrapht_map_int_int_remove" [(Tptr Tvoid, "map"); (Tint, "key"); (Tptr Tint, "res")]
     (Forward true "jgrapht_capi_map_int_int_remove" [Ethread; Evar "map"; Evar "key"; Evar "res"]);
  Fn Tint "jgrapht_map_clear" [(Tptr Tvoid, "map")]
     (Forward true "jgrapht_capi_map_clear" [Ethread; Evar "map"]);
  Fn Tint "jgrapht_matching_exec_greedy_general_max_card" [(Tptr Tvoid, "g"); (Tptr Tdouble, "weight_res"); (Tptr (Tptr Tvoid), "res")]
     (Forward true "jgrapht_capi_matching_exec_greedy_general_max_card" [Ethread; Evar "g"; Evar "weight_res"; Evar "res"]);
  Fn Tint "jgrapht_matching_exec_custom_greedy_general_max_card" [(Tptr Tvoid, "g"); (Tint, "sort"); (Tptr Tdouble, "weight_res"); (Tptr (Tptr Tvoid), "res")]
     (Forward true "jgrapht_capi_matching_exec_custom_greedy_general_max_card" [Ethread; Evar "g"; Evar "sort"; Evar "weight_res"; Evar "res"]);
  Fn Tint "jgrapht_matching_exec_edmonds_general_max_card_dense" [(Tptr Tvoid, "g"); (Tptr Tdouble, "weight_res"); (Tptr (Tptr Tvoid), "res")]
     (Forward true "jgrapht_capi_matching_exec_edmonds_general_max_card_dense" [Ethread; Evar "g"; Evar "weight_res"; Evar "res"]);
  Fn Tint "jgrapht_matching_exec_edmonds_general_max_card_sparse" [(Tptr Tvoid, "g"); (Tptr Tdouble, "weight_res"); (Tptr (Tptr Tvoid), "res")]
     (Forward true "jgrapht_capi_matching_exec_edmonds_general_max_card_sparse" [Ethread; Evar "g"; Evar "weight_res"; Evar "res"]);
  Fn Tint "jgrapht_matching_exec_greedy_general_max_weight" [(Tptr Tvoid, "g"); (Tptr Tdouble, "weight_res"); (Tptr (Tptr Tvoid), "res")]
     (Forward true "jgrapht_capi_matching_exec_greedy_general_max_weight" [Ethread; Evar "g"; Evar "weight_res"; Evar "res"]);
  Fn Tint "jgrapht_matching_exec_custom_greedy_general_max_weight" [(Tptr Tvoid, "g"); (Tint, "normalize_edge_costs"); (Tdouble, "epsilon"); (Tptr Tdouble, "weight_res"); (Tptr (Tptr Tvoid), "res")]
     (Forward true "jgrapht_capi_matching_exec_custom_greedy_general_max_weight" [Ethread; Evar "g"; Evar "normalize_edge_costs"; Evar "epsilon"; Evar "weight_res"; Evar "res"]);
  Fn Tint "jgrapht_matching_exec_pathgrowing_max_weight" [(Tptr Tvoid, "g"); (Tptr Tdouble, "weight_res"); (Tptr (Tptr Tvoid), "res")]
     (Forward true "jgrapht_capi_matching_exec_pathgrowing_max_weight" [Ethread; Evar "g"; Evar "weight_res"; Evar "res"]);
  Fn Tint "jgrapht_matching_exec_blossom5_general_max_weight" [(Tptr Tvoid, "g"); (Tptr Tdouble, "weight_res"); (Tptr (Tptr Tvoid), "res")]
     (Forward true "jgrapht_capi_matching_exec_blossom5_general_max_weight" [Ethread; Evar "g"; Evar "weight_res"; Evar "res"]);
  Fn Tint "jgrapht_matching_exec_blossom5_general_min_weight" [(Tptr Tvoid, "g"); (Tptr Tdouble, "weight_res"); (Tptr (Tptr Tvoid), "res")]
     (Forward true "jgrapht_capi_matching_exec_blossom5_general_min_weight" [Ethread; Evar "g"; Evar "weight_res"; Evar "res"]);
  Fn Tint "jgrapht_matching_exec_blossom5_general_perfect_max_weight" [(Tptr Tvoid, "g"); (Tptr Tdouble, "weight_res"); (Tptr (Tptr Tvoid), "res")]
     (Forward true "jgrapht_capi_matching_exec_blossom5_general_perfect_max_weight" [Ethread; Evar "g"; Evar "weight_res"; Evar "res"]);
  Fn Tint "jgrapht_matching_exec_blossom5_general_perfect_min_weight" [(Tptr Tvoid, "g"); (Tptr Tdouble, "weight_res"); (Tptr (Tptr Tvoid), "res")]
     (Forward true "jgrapht_capi_matching_exec_blossom5_general_perfect_min_weight" [Ethread; Evar "g"; Evar "weight_res"; Evar "res"]);
  Fn Tint "jgrapht_matching_exec_bipartite_max_card" [(Tptr Tvoid, "g"); (Tptr Tdouble, "weight_res"); (Tptr (Tptr Tvoid), "res")]
     (Forward true "jgrapht_capi_matching_exec_bipartite_max_card" [Ethread; Evar "g"; Evar "weight_res"; Evar "res"]);
  Fn Tint "jgrapht_matching_exec_bipartite_perfect_min_weight" [(Tptr Tvoid, "g"); (Tptr Tvoid, "vertex_set1"); (Tptr Tvoid, "vertex_set2"); (Tptr Tdouble, "weight_res"); (Tptr (Tptr Tvoid), "res")]
     (Forward true "jgrapht_capi_matching_exec_bipartite_perfect_min_weight" [Ethread; Evar "g"; Evar "vertex_set1"; Evar "vertex_set2"; Evar "weight_res"; Evar "res"]);
  Fn Tint "jgrapht_matching_exec_bipartite_max_weight" [(Tptr Tvoid, "g"); (Tptr Tdouble, "weight_res"); (Tptr (Tptr Tvoid), "res")]
     (Forward true "jgrapht_capi_matching_exec_bipartite_max_weight" [Ethread; Evar "g"; Evar "weight_res"; Evar "res"]);
  Fn Tint "jgrapht_mst_exec_kruskal" [(Tptr Tvoid, "g"); (Tptr Tdouble, "weight_res"); (Tptr (Tptr Tvoid), "res")]
     (Forward true "jgrapht_capi_mst_exec_kruskal" [Ethread; Evar "g"; Evar "weight_res"; Evar "res"]);
  Fn Tint "jgrapht_mst_exec_prim" [(Tptr Tvoid, "g"); (Tptr Tdouble, "weight_res"); (Tptr (Tptr Tvoid), "res")]
     (Forward true "jgrapht_capi_mst_exec_prim" [Ethread; Evar "g"; Evar "weight_res"; Evar "res"]);
  Fn Tint "jgrapht_mst_exec_boruvka" [(Tptr Tvoid, "g"); (Tptr Tdouble, "weight_res"); (Tptr (Tptr Tvoid), "res")]
     (Forward true "jgrapht_capi_mst_exec_boruvka" [Ethread; Evar "g"; Evar "weight_res"; Evar "res"]);
  Fn Tint "jgrapht_partition_exec_bipartite" [(Tptr Tvoid, "g"); (Tptr Tint, "res"); (Tptr (Tptr Tvoid), "vertex_partition1"); (Tptr (Tptr Tvoid), "vertex_partition2")]
     (Forward true "jgrapht_capi_partition_exec_bipartite" [Ethread; Evar "g"; Evar "res"; Evar "vertex_partition1"; Evar "vertex_partition2"]);
  Fn Tint "jgrapht_planarity_exec_boyer_myrvold" [(Tptr Tvoid, "g"); (Tptr Tint, "is_planar_res"); (Tptr (Tptr Tvoid), "embedding_res"); (Tptr (Tptr Tvoid), "kuratowski_subdivision_res")]
     (Forward true "jgrapht_capi_planarity_exec_boyer_myrvold" [Ethread; Evar "g"; Evar "is_planar_res"; Evar "embedding_res"; Evar "kuratowski_subdivision_res"]);
  Fn Tint "jgrapht_planarity_embedding_edges_around_vertex" [(Tptr Tvoid, "embedding"); (Tint, "vertex"); (Tptr (Tptr Tvoid), "it_res")]
     (Forward true "jgrapht_capi_planarity_embedding_edges_around_vertex" [Ethread; Evar "embedding"; Evar "vertex"; Evar "it_res"]);
  Fn Tint "jgrapht_scoring_exec_alpha_centrality" [(Tptr Tvoid, "g"); (Tptr (Tptr Tvoid), "res")]
     (Forward true "jgrapht_capi_scoring_exec_alpha_centrality" [Ethread; Evar "g"; Evar "res"]);
  Fn Tint "jgrapht_scoring_exec_custom_alpha_centrality" [(Tptr Tvoid, "g"); (Tdouble, "damping_factor"); (Tdouble, "exogenous_factor"); (Tint, "max_iterations"); (Tdouble, "tolerance"); (Tptr (Tptr Tvoid), "res")]
     (Forward true "jgrapht_capi_scoring_exec_custom_alpha_centrality" [Ethread; Evar "g"; Evar "damping_factor"; Evar "exogenous_factor"; Evar "max_iterations"; Evar "tolerance"; Evar "res"]);
  Fn Tint "jgrapht_scoring_exec_betweenness_centrality" [(Tptr Tvoid, "g"); (Tptr (Tptr Tvoid), "res")]
     (Forward true "jgrapht_capi_scoring_exec_betweenness_centrality" [Ethread; Evar "g"; Evar "res"]);
  Fn Tint "jgrapht_scoring_exec_custom_betweenness_centrality" [(Tptr Tvoid, "g"); (Tint, "normalize"); (Tptr (Tptr Tvoid), "res")]
     (Forward true "jgrapht_capi_scoring_exec_custom_betweenness_centrality" [Ethread; Evar "g"; Evar "normalize"; Evar "res"]);
  Fn Tint "jgrapht_scoring_exec_closeness_centrality" [(Tptr Tvoid, "g"); (Tptr (Tptr Tvoid), "res")]
     (Forward true "jgrapht_capi_scoring_exec_closeness_centrality" [Ethread; Evar "g"; Evar "res"]);
  Fn Tint "jgrapht_scoring_exec_custom_closeness_centrality" [(Tptr Tvoid, "g"); (Tint, "incoming"); (Tint, "normalize"); (Tptr (Tptr Tvoid), "res")]
     (Forward true "jgrapht_capi_scoring_exec_custom_closeness_centrality" [Ethread; Evar "g"; Evar "incoming"; Evar "normalize"; Evar "res"]);
  Fn Tint "jgrapht_scoring_exec_harmonic_centrality" [(Tptr Tvoid, "g"); (Tptr (Tptr Tvoid), "res")]
     (Forward true "jgrapht_capi_scoring_exec_harmonic_centrality" [Ethread; Evar "g"; Evar "res"]);
  Fn Tint "jgrapht_scoring_exec_custom_harmonic_centrality" [(Tptr Tvoid, "g"); (Tint, "incoming"); (Tint, "normalize"); (Tptr (Tptr Tvoid), "res")]
     (Forward true "jgrapht_capi_scoring_exec_custom_harmonic_centrality" [Ethread; Evar "g"; Evar "incoming"; Evar "normalize"; Evar "res"]);
  Fn Tint "jgrapht_scoring_exec_pagerank" [(Tptr Tvoid, "g"); (Tptr (Tptr Tvoid), "res")]
     (Forward true "jgrapht_capi_scoring_exec_pagerank" [Ethread; Evar "g"; Evar "res"]);
  Fn Tint "jgrapht_scoring_exec_custom_pagerank" [(Tptr Tvoid, "g"); (Tdouble, "damping_factor"); (Tint, "iterations"); (Tdouble, "tolerance"); (Tptr (Tptr Tvoid), "res")]
     (Forward true "jgrapht_capi_scoring_exec_custom_pagerank" [Ethread; Evar "g"; Evar "damping_factor"; Evar "iterations"; Evar "tolerance"; Evar "res"]);
  Fn Tint "jgrapht_set_create" [(Tptr (Tptr Tvoid), "res")]
     (Forward true "jgrapht_capi_set_create" [Ethread; Evar "res"]);
  Fn Tint "jgrapht_set_linked_create" [(Tptr (Tptr Tvoid), "res")]
     (Forward true "jgrapht_capi_set_linked_create" [Ethread; Evar "res"]);
  Fn Tint "jgrapht_set_it_create" [(Tptr Tvoid, "set"); (Tptr (Tptr Tvoid), "res")]
     (Forward true "jgrapht_capi_set_it_create" [Ethread; Evar "set"; Evar "res"]);
  Fn Tint "jgrapht_set_size" [(Tptr Tvoid, "set"); (Tptr Tint, "res")]
     (Forward true "jgrapht_capi_set_size" [Ethread; Evar "set"; Evar "res"]);
  Fn Tint "jgrapht_set_int_add" [(Tptr Tvoid, "set"); (Tint, "elem"); (Tptr Tint, "res")]
     (Forward true "jgrapht_capi_set_int_add" [Ethread; Evar "set"; Evar "elem"; Evar "res"]);
  Fn Tint "jgrapht_set_double_add" [(Tptr Tvoid, "set"); (Tdouble, "elem"); (Tptr Tint, "res")]
     (Forward true "jgrapht_capi_set_double_add" [Ethread; Evar "set"; Evar "elem"; Evar "res"]);
  Fn Tint "jgrapht_set_int_remove" [(Tptr Tvoid, "set"); (Tint, "elem")]
     (Forward true "jgrapht_capi_set_int_remove" [Ethread; Evar "set"; Evar "elem"]);
  Fn Tint "jgrapht_set_double_remove" [(Tptr Tvoid, "set"); (Tdouble, "elem")]
     (Forward true "jgrapht_capi_set_double_remove" [Ethread; Evar "set"; Evar "elem"]);
  Fn Tint "jgrapht_set_int_contains" [(Tptr Tvoid, "set"); (Tint, "elem"); (Tptr Tint, "res")]
     (Forward true "jgrapht_capi_set_int_contains" [Ethread; Evar "set"; Evar "elem"; Evar "res"]);
  Fn Tint "jgrapht_set_double_contains" [(Tptr Tvoid, "set"); (Tdouble, "elem"); (Tptr Tint, "res")]
     (Forward true "jgrapht_capi_set_double_contains" [Ethread; Evar "set"; Evar "elem"; Evar "res"]);
  Fn Tint "jgrapht_set_clear" [(Tptr Tvoid, "set")]
     (Forward true "jgrapht_capi_set_clear" [Ethread; Evar "set"]);
  Fn Tint "jgrapht_sp_exec_dijkstra_get_path_between_vertices" [(Tptr Tvoid, "g"); (Tint, "source"); (Tint, "target"); (Tptr (Tptr Tvoid), "res")]
     (Forward true "jgrapht_capi_sp_exec_dijkstra_get_path_between_vertices" [Ethread; Evar "g"; Evar "source"; Evar "target"; Evar "res"]);
  Fn Tint "jgrapht_sp_exec_bidirectional_dijkstra_get_path_between_vertices" [(Tptr Tvoid, "g"); (Tint, "source"); (Tint, "target"); (Tptr (Tptr Tvoid), "res")]
     (Forward true "jgrapht_capi_sp_exec_bidirectional_dijkstra_get_path_between_vertices" [Ethread; Evar "g"; Evar "source"; Evar "target"; Evar "res"]);
  Fn Tint "jgrapht_sp_exec_dijkstra_get_singlesource_from_vertex" [(Tptr Tvoid, "g"); (Tint, "source"); (Tptr (Tptr Tvoid), "res")]
     (Forward true "jgrapht_capi_sp_exec_dijkstra_get_singlesource_from_vertex" [Ethread; Evar "g"; Evar "source"; Evar "res"]);
  Fn Tint "jgrapht_sp_exec_bellmanford_get_singlesource_from_vertex" [(Tptr Tvoid, "g"); (Tint, "source"); (Tptr (Tptr Tvoid), "res")]
     (Forward true "jgrapht_capi_sp_exec_bellmanford_get_singlesource_from_vertex" [Ethread; Evar "g"; Evar "source"; Evar "res"]);
  Fn Tint "jgrapht_sp_exec_bfs_get_singlesource_from_vertex" [(Tptr Tvoid, "g"); (Tint, "source"); (Tptr (Tptr Tvoid), "res")]
     (Forward true "jgrapht_capi_sp_exec_bfs_get_singlesource_from_vertex" [Ethread; Evar "g"; Evar "source"; Evar "res"]);
  Fn Tint "jgrapht_sp_exec_johnson_get_allpairs" [(Tptr Tvoid, "g"); (Tptr (Tptr Tvoid), "res")]
     (Forward true "jgrapht_capi_sp_exec_johnson_get_allpairs" [Ethread; Evar "g"; Evar "res"]);
  Fn Tint "jgrapht_sp_exec_floydwarshall_get_allpairs" [(Tptr Tvoid, "g"); (Tptr (Tptr Tvoid), "res")]
     (Forward true "jgrapht_capi_sp_exec_floydwarshall_get_allpairs" [Ethread; Evar "g"; Evar "res"]);
  Fn Tint "jgrapht_sp_singlesource_get_path_to_vertex" [(Tptr Tvoid, "g"); (Tint, "target"); (Tptr (Tptr Tvoid), "res")]
     (Forward true "jgrapht_capi_sp_singlesource_get_path_to_vertex" [Ethread; Evar "g"; Evar "target"; Evar "res"]);
  Fn Tint "jgrapht_sp_allpairs_get_path_between_vertices" [(Tptr Tvoid, "g"); (Tint, "source"); (Tint, "target"); (Tptr (Tptr Tvoid), "res")]
     (Forward true "jgrapht_capi_sp_allpairs_get_path_between_vertices" [Ethread; Evar "g"; Evar "source"; Evar "target"; Evar "res"]);
  Fn Tint "jgrapht_sp_allpairs_get_singlesource_from_vertex" [(Tptr Tvoid, "g"); (Tint, "source"); (Tptr (Tptr Tvoid), "res")]
     (Forward true "jgrapht_capi_sp_allpairs_get_singlesource_from_vertex" [Ethread; Evar "g"; Evar "source"; Evar "res"]);
  Fn Tint "jgrapht_sp_exec_astar_get_path_between_vertices" [(Tptr Tvoid, "g"); (Tint, "source"); (Tint, "target"); (Tptr Tvoid, "heuristic"); (Tptr (Tptr Tvoid), "res")]
     (Forward true "jgrapht_capi_sp_exec_astar_get_path_between_vertices" [Ethread; Evar "g"; Evar "source"; Evar "target"; Evar "heuristic"; Evar "res"]);
  Fn Tint "jgrapht_sp_exec_bidirectional_astar_get_path_between_vertices" [(Tptr Tvoid, "g"); (Tint, "source"); (Tint, "target"); (Tptr Tvoid, "heuristic"); (Tptr (Tptr Tvoid), "res")]
     (Forward true "jgrapht_capi_sp_exec_bidirectional_astar_get_path_between_vertices" [Ethread; Evar "g"; Evar "source"; Evar "target"; Evar "heuristic"; Evar "res"]);
  Fn Tint "jgrapht_sp_exec_astar_alt_heuristic_get_path_between_vertices" [(Tptr Tvoid, "g"); (Tint, "source"); (Tint, "target"); (Tptr Tvoid, "landmarks_set"); (Tptr (Tptr Tvoid), "res")]
     (Forward true "jgrapht_capi_sp_exec_astar_alt_heuristic_get_path_between_vertices" [Ethread; Evar "g"; Evar "source"; Evar "target"; Evar "landmarks_set"; Evar "res"]);
  Fn Tint "jgrapht_sp_exec_bidirectional_astar_alt_heuristic_get_path_between_vertices" [(Tptr Tvoid, "g"); (Tint, "source"); (Tint, "target"); (Tptr Tvoid, "landmarks_set"); (Tptr (Tptr Tvoid), "res")]
     (Forward true "jgrapht_capi_sp_exec_bidirectional_astar_alt_heuristic_get_path_between_vertices" [Ethread; Evar "g"; Evar "source"; Evar "target"; Evar "landmarks_set"; Evar "res"]);
  Fn Tint "jgrapht_sp_exec_yen_get_k_loopless_paths_between_vertices" [(Tptr Tvoid, "g"); (Tint, "source"); (Tint, "target"); (Tint, "k"); (Tptr (Tptr Tvoid), "res")]
     (Forward true "jgrapht_capi_sp_exec_yen_get_k_loopless_paths_between_vertices" [Ethread; Evar "g"; Evar "source"; Evar "target"; Evar "k"; Evar "res"]);
  Fn Tint "jgrapht_sp_exec_eppstein_get_k_paths_between_vertices" [(Tptr Tvoid, "g"); (Tint, "source"); (Tint, "target"); (Tint, "k"); (Tptr (Tptr Tvoid), "res")]
     (Forward true "jgrapht_capi_sp_exec_eppstein_get_k_paths_between_vertices" [Ethread; Evar "g"; Evar "source"; Evar "target"; Evar "k"; Evar "res"]);
  Fn Tint "jgrapht_spanner_exec_greedy_multiplicative" [(Tptr Tvoid, "g"); (Tint, "k"); (Tptr Tdouble, "weight"); (Tptr (Tptr Tvoid), "res")]
     (Forward true "jgrapht_capi_spanner_exec_greedy_multiplicative" [Ethread; Evar "g"; Evar "k"; Evar "weight"; Evar "res"]);
  Fn Tint "jgrapht_tour_tsp_random" [(Tptr Tvoid, "g"); (Tlonglong, "seed"); (Tptr (Tptr Tvoid), "res")]
     (Forward true "jgrapht_capi_tour_tsp_random" [Ethread; Evar "g"; Evar "seed"; Evar "res"]);
  Fn Tint "jgrapht_tour_tsp_greedy_heuristic" [(Tptr Tvoid, "g"); (Tptr (Tptr Tvoid), "res")]
     (Forward true "jgrapht_capi_tour_tsp_greedy_heuristic" [Ethread; Evar "g"; Evar "res"]);
  Fn Tint "jgrapht_tour_tsp_nearest_insertion_heuristic" [(Tptr Tvoid, "g"); (Tptr (Tptr Tvoid), "res")]
     (Forward true "jgrapht_capi_tour_tsp_nearest_insertion_heuristic" [Ethread; Evar "g"; Evar "res"]);
  Fn Tint "jgrapht_tour_tsp_nearest_neighbor_heuristic" [(Tptr Tvoid, "g"); (Tlonglong, "seed"); (Tptr (Tptr Tvoid), "res")]
     (Forward true "jgrapht_capi_tour_tsp_nearest_neighbor_heuristic" [Ethread; Evar "g"; Evar "seed"; Evar "res"]);
  Fn Tint "jgrapht_tour_metric_tsp_christofides" [(Tptr Tvoid, "g"); (Tptr (Tptr Tvoid), "res")]
     (Forward true "jgrapht_capi_tour_metric_tsp_christofides" [Ethread; Evar "g"; Evar "res"]);
  Fn Tint "jgrapht_tour_metric_tsp_two_approx" [(Tptr Tvoid, "g"); (Tptr (Tptr Tvoid), "res")]
     (Forward true "jgrapht_capi_tour_metric_tsp_two_approx" [Ethread; Evar "g"; Evar "res"]);
  Fn Tint "jgrapht_tour_tsp_held_karp" [(Tptr Tvoid, "g"); (Tptr (Tptr Tvoid), "res")]
     (Forward true "jgrapht_capi_tour_tsp_held_karp" [Ethread; Evar "g"; Evar "res"]);
  Fn Tint "jgrapht_tour_hamiltonian_palmer" [(Tptr Tvoid, "g"); (Tptr (Tptr Tvoid), "res")]
     (Forward true "jgrapht_capi_tour_hamiltonian_palmer" [Ethread; Evar "g"; Evar "res"]);
  Fn Tint "jgrapht_tour_tsp_two_opt_heuristic" [(Tptr Tvoid, "g"); (Tint, "k"); (Tdouble, "min_cost_improvement"); (Tlonglong, "seed"); (Tptr (Tptr Tvoid), "res")]
     (Forward true "jgrapht_capi_tour_tsp_two_opt_heuristic" [Ethread; Evar "g"; Evar "k"; Evar "min_cost_improvement"; Evar "seed"; Evar "res"]);
  Fn Tint "jgrapht_tour_tsp_two_opt_heuristic_improve" [(Tptr Tvoid, "graph_path"); (Tdouble, "min_cost_improvement"); (Tlonglong, "seed"); (Tptr (Tptr Tvoid), "res")]
     (Forward true "jgrapht_capi_tour_tsp_two_opt_heuristic_improve" [Ethread; Evar "graph_path"; Evar "min_cost_improvement"; Evar "seed"; Evar "res"]);
  Fn Tint "jgrapht_traverse_create_bfs_from_all_vertices_vit" [(Tptr Tvoid, "g"); (Tptr (Tptr Tvoid), "res")]
     (Forward true "jgrapht_capi_traverse_create_bfs_from_all_vertices_vit" [Ethread; Evar "g"; Evar "res"]);
  Fn Tint "jgrapht_traverse_create_bfs_from_vertex_vit" [(Tptr Tvoid, "g"); (Tint, "v"); (Tptr (Tptr Tvoid), "res")]
     (Forward true "jgrapht_capi_traverse_create_bfs_from_vertex_vit" [Ethread; Evar "g"; Evar "v"; Evar "res"]);
  Fn Tint "jgrapht_traverse_create_lex_bfs_vit" [(Tptr Tvoid, "g"); (Tptr (Tptr Tvoid), "res")]
     (Forward true "jgrapht_capi_traverse_create_lex_bfs_vit" [Ethread; Evar "g"; Evar "res"]);
  Fn Tint "jgrapht_traverse_create_dfs_from_all_vertices_vit" [(Tptr Tvoid, "g"); (Tptr (Tptr Tvoid), "res")]
     (Forward true "jgrapht_capi_traverse_create_dfs_from_all_vertices_vit" [Ethread; Evar "g"; Evar "res"]);
  Fn Tint "jgrapht_traverse_create_dfs_from_vertex_vit" [(Tptr Tvoid, "g"); (Tint, "v"); (Tptr (Tptr Tvoid), "res")]
     (Forward true "jgrapht_capi_traverse_create_dfs_from_vertex_vit" [Ethread; Evar "g"; Evar "v"; Evar "res"]);
  Fn Tint "jgrapht_traverse_create_topological_order_vit" [(Tptr Tvoid, "g"); (Tptr (Tptr Tvoid), "res")]
     (Forward true "jgrapht_capi_traverse_create_topological_order_vit" [Ethread; Evar "g"; Evar "res"]);
  Fn Tint "jgrapht_traverse_create_random_walk_from_vertex_vit" [(Tptr Tvoid, "g"); (Tint, "v"); (Tptr (Tptr Tvoid), "res")]
     (Forward true "jgrapht_capi_traverse_create_random_walk_from_vertex_vit" [Ethread; Evar "g"; Evar "v"; Evar "res"]);
  Fn Tint "jgrapht_traverse_create_custom_random_walk_from_vertex_vit" [(Tptr Tvoid, "g"); (Tint, "v"); (Tint, "weighted"); (Tlonglong, "max_steps"); (Tlonglong, "seed"); (Tptr (Tptr Tvoid), "res")]
     (Forward true "jgrapht_capi_traverse_create_custom_random_walk_from_vertex_vit" [Ethread; Evar "g"; Evar "v"; Evar "weighted"; Evar "max_steps"; Evar "seed"; Evar "res"]);
  Fn Tint "jgrapht_traverse_create_max_cardinality_vit" [(Tptr Tvoid, "g"); (Tptr (Tptr Tvoid), "res")]
     (Forward true "jgrapht_capi_traverse_create_max_cardinality_vit" [Ethread; Evar "g"; Evar "res"]);
  Fn Tint "jgrapht_traverse_create_degeneracy_ordering_vit" [(Tptr Tvoid, "g"); (Tptr (Tptr Tvoid), "res")]
     (Forward true "jgrapht_capi_traverse_create_degeneracy_ordering_vit" [Ethread; Evar "g"; Evar "res"]);
  Fn Tint "jgrapht_traverse_create_closest_first_from_vertex_vit" [(Tptr Tvoid, "g"); (Tint, "v"); (Tptr (Tptr Tvoid), "res")]
     (Forward true "jgrapht_capi_traverse_create_closest_first_from_vertex_vit" [Ethread; Evar "g"; Evar "v"; Evar "res"]);
  Fn Tint "jgrapht_traverse_create_custom_closest_first_from_vertex_vit" [(Tptr Tvoid, "g"); (Tint, "v"); (Tdouble, "radius"); (Tptr (Tptr Tvoid), "res")]
     (Forward true "jgrapht_capi_traverse_create_custom_closest_first_from_vertex_vit" [Ethread; Evar "g"; Evar "v"; Evar "radius"; Evar "res"]);
  Fn Tint "jgrapht_vertexcover_exec_greedy" [(Tptr Tvoid, "g"); (Tptr Tdouble, "weight_res"); (Tptr (Tptr Tvoid), "res")]
     (Forward true "jgrapht_capi_vertexcover_exec_greedy" [Ethread; Evar "g"; Evar "weight_res"; Evar "res"]);
  Fn Tint "jgrapht_vertexcover_exec_greedy_weighted" [(Tptr Tvoid, "g"); (Tptr Tvoid, "weight_vertex_map"); (Tptr Tdouble, "weight_res"); (Tptr (Tptr Tvoid), "res")]
     (Forward true "jgrapht_capi_vertexcover_exec_greedy_weighted" [Ethread; Evar "g"; Evar "weight_vertex_map"; Evar "weight_res"; Evar "res"]);
  Fn Tint "jgrapht_vertexcover_exec_clarkson" [(Tptr Tvoid, "g"); (Tptr Tdouble, "weight_res"); (Tptr (Tptr Tvoid), "res")]
     (Forward true "jgrapht_capi_vertexcover_exec_clarkson" [Ethread; Evar "g"; Evar "weight_res"; Evar "res"]);
  Fn Tint "jgrapht_vertexcover_exec_clarkson_weighted" [(Tptr Tvoid, "g"); (Tptr Tvoid, "weight_vertex_map"); (Tptr Tdouble, "weight_res"); (Tptr (Tptr Tvoid), "res")]
     (Forward true "jgrapht_capi_vertexcover_exec_clarkson_weighted" [Ethread; Evar "g"; Evar "weight_vertex_map"; Evar "weight_res"; Evar "res"]);
  Fn Tint "jgrapht_vertexcover_exec_edgebased" [(Tptr Tvoid, "g"); (Tptr Tdouble, "weight_res"); (Tptr (Tptr Tvoid), "res")]
     (Forward true "jgrapht_capi_vertexcover_exec_edgebased" [Ethread; Evar "g"; Evar "weight_res"; Evar "res"]);
  Fn Tint "jgrapht_vertexcover_exec_baryehudaeven" [(Tptr Tvoid, "g"); (Tptr Tdouble, "weight_res"); (Tptr (Tptr Tvoid), "res")]
     (Forward true "jgrapht_capi_vertexcover_exec_baryehudaeven" [Ethread; Evar "g"; Evar "weight_res"; Evar "res"]);
  Fn Tint "jgrapht_vertexcover_exec_baryehudaeven_weighted" [(Tptr Tvoid, "g"); (Tptr Tvoid, "weight_vertex_map"); (Tptr Tdouble, "weight_res"); (Tptr (Tptr Tvoid), "res")]
     (Forward true "jgrapht_capi_vertexcover_exec_baryehudaeven_weighted" [Ethread; Evar "g"; Evar "weight_vertex_map"; Evar "weight_res"; Evar "res"]);
  Fn Tint "jgrapht_vertexcover_exec_exact" [(Tptr Tvoid, "g"); (Tptr Tdouble, "weight_res"); (Tptr (Tptr Tvoid), "res")]
     (Forward true "jgrapht_capi_vertexcover_exec_exact" [Ethread; Evar "g"; Evar "weight_res"; Evar "res"]);
  Fn Tint "jgrapht_vertexcover_exec_exact_weighted" [(Tptr Tvoid, "g"); (Tptr Tvoid, "weight_vertex_map"); (Tptr Tdouble, "weight_res"); (Tptr (Tptr Tvoid), "res")]
     (Forward true "jgrapht_capi_vertexcover_exec_exact_weighted" [Ethread; Evar "g"; Evar "weight_vertex_map"; Evar "weight_res"; Evar "res"]);
  Fn Tvoid "jgrapht_vmLocatorSymbol" []
     (Forward false "vmLocatorSymbol" [Ethread])
].

(** ** The native library *)

(** The functions [backend.c] links against.  [World] is everything the
    library owns (the isolates, their heaps and error states) together with
    the caller's memory that output pointers refer to.
    - [graal_create_isolate w] is [graal_create_isolate(NULL, &isolate,
      &thread)]: its return code and the values it leaves in the two
      statics.
    - [graal_detach_thread t w] is [graal_detach_thread(t)].
    - [capi f args w] is the call [f(args)] of the library function named
      [f] (every [jgrapht_capi_*] symbol and [vmLocatorSymbol]); the result
      is [Vvoid] for a function returning [void]. *)
Class NativeLibrary (World : Type) := {
  graal_create_isolate : World -> Z * Z * Z * World;
  graal_detach_thread : Z -> World -> Z * World;
  capi : string -> list cval -> World -> cval * World
}.

(** ** The backend's own state *)

(** [static graal_isolate_t *isolate = NULL;]
    [static graal_isolatethread_t *thread = NULL;] *)
Record backend_state := {
  isolate : Z;
  thread : Z
}.

Definition initial_state : backend_state :=
  {| isolate := NULL; thread := NULL |}.

(** What a call of a backend function ends in: it returns a value, leaving
    the statics and the world in some state, or the process ends in
    [exit(code)] after a line was written to [stderr]. *)
Inductive outcome (World A : Type) :=
| Returned (a : A) (st : backend_state) (w : World)
| Exited (code : Z) (stderr : string).

Arguments Returned {World A} a st w.
Arguments Exited {World A} code stderr.

Definition newline : string := String (Ascii.ascii_of_nat 10) EmptyString.

Section Backend.
Context {World : Type} `{!NativeLibrary World}.

Definition Backend (A : Type) : Type :=
  backend_state -> World -> outcome World A.

(** A call of a library function from a wrapper: the statics are not
    touched, the world is the library's to change. *)
Definition capi_call (callee : string) (args : list cval) : Backend cval :=
  fun st w => let (r, w') := capi callee args w in Returned r st w'.

(** The same for a call statement, whose value is dropped. *)
Definition capi_call_void (callee : string) (args : list cval) : Backend cval :=
  fun st w => let (r, w') := capi callee args w in Returned Vvoid st w'.

(** *** library init *)

Definition jgrapht_isolate_create : Backend cval := fun st w =>
  if thread st =? NULL then
    let '(rc, iso, thr, w') := graal_create_isolate w in
    if negb (rc =? 0) then
      Exited EXIT_FAILURE ("graal_create_isolate error" +:+ newline)
    else Returned Vvoid {| isolate := iso; thread := thr |} w'
  else Returned Vvoid st w.

Definition jgrapht_isolate_destroy : Backend cval := fun st w =>
  if negb (thread st =? NULL) then
    let (rc, w') := graal_detach_thread (thread st) w in
    if negb (rc =? 0) then
      Exited EXIT_FAILURE ("graal_detach_thread error" +:+ newline)
    else Returned Vvoid {| isolate := NULL; thread := NULL |} w'
  else Returned Vvoid st w.

Definition jgrapht_isolate_is_attached : Backend cval := fun st w =>
  Returned (Vint (if negb (thread st =? NULL) then 1 else 0)) st w.

(** *** attribute store *)

Definition jgrapht_attributes_store_create (res : Z) : Backend cval := fun st =>
  capi_call "jgrapht_capi_attributes_store_create" [ptr (thread st); ptr res] st.

Definition jgrapht_attributes_store_put_boolean_attribute
    (store element : Z) (key : string) (value : Z) : Backend cval := fun st =>
  capi_call "jgrapht_capi_attributes_store_put_boolean_attribute"
    [ptr (thread st); ptr store; int element; str key; int value] st.

Definition jgrapht_attributes_store_put_int_attribute
    (store element : Z) (key : string) (value : Z) : Backend cval := fun st =>
  capi_call "jgrapht_capi_attributes_store_put_int_attribute"
    [ptr (thread st); ptr store; int element; str key; int value] st.

(** The declaration reads [(void *store, long long int element, char* key,
    int value)]: the 64-bit type is on [element], and [value] is an
    [int]. *)
Definition jgrapht_attributes_store_put_long_attribute
    (store element : Z) (key : string) (value : Z) : Backend cval := fun st =>
  capi_call "jgrapht_capi_attributes_store_put_long_attribute"
    [ptr (thread st); ptr store; longlong element; str key; int value] st.

Definition jgrapht_attributes_store_put_double_attribute
    (store element : Z) (key : string) (value : Z) : Backend cval := fun st =>
  capi_call "jgrapht_capi_attributes_store_put_double_attribute"
    [ptr (thread st); ptr store; int element; str key; double value] st.

Definition jgrapht_attributes_store_put_string_attribute
    (store element : Z) (key : string) (value : string) : Backend cval := fun st =>
  capi_call "jgrapht_capi_attributes_store_put_string_attribute"
    [ptr (thread st); ptr store; int element; str key; str value] st.

(** *** clique *)

Definition jgrapht_clique_exec_bron_kerbosch (g timeout res : Z) : Backend cval :=
  fun st =>
  capi_call "jgrapht_capi_clique_exec_bron_kerbosch"
    [ptr (thread st); ptr g; longlong timeout; ptr res] st.

Definition jgrapht_clique_exec_bron_kerbosch_pivot (g timeout res : Z)
    : Backend cval := fun st =>
  capi_call "jgrapht_capi_clique_exec_bron_kerbosch_pivot"
    [ptr (thread st); ptr g; longlong timeout; ptr res] st.

Definition jgrapht_clique_exec_bron_kerbosch_pivot_degeneracy_ordering
    (g timeout res : Z) : Backend cval := fun st =>
  capi_call "jgrapht_capi_clique_exec_bron_kerbosch_pivot_degeneracy_ordering"
    [ptr (thread st); ptr g; longlong timeout; ptr res] st.

(** *** errors *)

Definition jgrapht_error_clear_errno : Backend cval := fun st =>
  capi_call_void "jgrapht_capi_error_clear_errno" [ptr (thread st)] st.

Definition jgrapht_error_get_errno : Backend cval := fun st =>
  capi_call "jgrapht_capi_error_get_errno" [ptr (thread st)] st.

Definition jgrapht_error_get_errno_msg : Backend cval := fun st =>
  capi_call "jgrapht_capi_error_get_errno_msg" [ptr (thread st)] st.

(** [return f(thread);] in a function returning [void]. *)
Definition jgrapht_error_print_stack_trace : Backend cval := fun st =>
  capi_call_void "jgrapht_capi_error_print_stack_trace" [ptr (thread st)] st.

(** *** flow *)

Definition jgrapht_maxflow_exec_push_relabel
    (g source sink valueRes flowMapRes cutSourcePartitionRes : Z)
    : Backend cval := fun st =>
  capi_call "jgrapht_capi_maxflow_exec_push_relabel"
    [ptr (thread st); ptr g; int source; int sink; ptr valueRes;
     ptr flowMapRes; ptr cutSourcePartitionRes] st.

Definition jgrapht_maxflow_exec_dinic
    (g source sink valueRes flowMapRes cutSourcePartitionRes : Z)
    : Backend cval := fun st =>
  capi_call "jgrapht_capi_maxflow_exec_dinic"
    [ptr (thread st); ptr g; int source; int sink; ptr valueRes;
     ptr flowMapRes; ptr cutSourcePartitionRes] st.

Definition jgrapht_maxflow_exec_edmonds_karp
    (g source sink valueRes flowMapRes cutSourcePartitionRes : Z)
    : Backend cval := fun st =>
  capi_call "jgrapht_capi_maxflow_exec_edmonds_karp"
    [ptr (thread st); ptr g; int source; int sink; ptr valueRes;
     ptr flowMapRes; ptr cutSourcePartitionRes] st.

(** *** graph *)

Definition jgrapht_graph_create
    (directed allowing_self_loops allowing_multiple_edges weighted res : Z)
    : Backend cval := fun st =>
  capi_call "jgrapht_capi_graph_create"
    [ptr (thread st); int directed; int allowing_self_loops;
     int allowing_multiple_edges; int weighted; ptr res] st.

(** *** iterators *)

Definition jgrapht_it_next_int (it res : Z) : Backend cval := fun st =>
  capi_call "jgrapht_capi_it_next_int" [ptr (thread st); ptr it; ptr res] st.

Definition jgrapht_it_next_double (it res : Z) : Backend cval := fun st =>
  capi_call "jgrapht_capi_it_next_double" [ptr (thread st); ptr it; ptr res] st.

Definition jgrapht_it_next_object (it res : Z) : Backend cval := fun st =>
  capi_call "jgrapht_capi_it_next_object" [ptr (thread st); ptr it; ptr res] st.

Definition jgrapht_it_hasnext (it res : Z) : Backend cval := fun st =>
  capi_call "jgrapht_capi_it_hasnext" [ptr (thread st); ptr it; ptr res] st.

(** *** mst *)

Definition jgrapht_mst_exec_kruskal (g weight_res res : Z) : Backend cval :=
  fun st =>
  capi_call "jgrapht_capi_mst_exec_kruskal"
    [ptr (thread st); ptr g; ptr weight_res; ptr res] st.

(** *** vm *)

Definition jgrapht_vmLocatorSymbol : Backend cval := fun st =>
  capi_call_void "vmLocatorSymbol" [ptr (thread st)] st.

(** *** Any function of the file, from its declaration *)

(** The parameters of a call: every argument converted to the declared
    type of the parameter it is bound to. *)
Definition bind_params (ps : list (ctype * string)) (args : list cval)
    : list (string * cval) :=
  zip_with (fun p v => (p.2, convert p.1 v)) ps args.

Fixpoint lookup_var (x : string) (env : list (string * cval)) : cval :=
  match env with
  | [] => Vvoid
  | (y, v) :: env' => if String.eqb x y then v else lookup_var x env'
  end.

Definition eval (st : backend_state) (env : list (string * cval)) (e : expr)
    : cval :=
  match e with
  | Ethread => Vptr (thread st)
  | Evar x => lookup_var x env
  end.

Definition is_void (t : ctype) : bool :=
  match t with Tvoid => true | _ => false end.

(** [run_decl d args] calls the function declared as [d].  A forwarding
    body evaluates its argument expressions and calls the library; the
    three [Native] bodies are the isolate functions above. *)
Definition run_decl (d : fn_decl) (args : list cval) : Backend cval :=
  fun st w =>
  match fn_body d with
  | Forward returns callee es =>
      let env := bind_params (fn_params d) args in
      let (r, w') := capi callee (map (eval st env) es) w in
      Returned (if returns && negb (is_void (fn_ret d)) then r else Vvoid) st w'
  | Native =>
      if String.eqb (fn_name d) "jgrapht_isolate_create" then
        jgrapht_isolate_create st w
      else if String.eqb (fn_name d) "jgrapht_isolate_destroy" then
        jgrapht_isolate_destroy st w
      else jgrapht_isolate_is_attached st w
  end.

(** The declaration found under a name in [backend_api], run on the
    given arguments. *)
Definition run_named (name : string) (args : list cval) : Backend cval :=
  match List.find (fun d => String.eqb (fn_name d) name) backend_api with
  | Some d => run_decl d args
  | None => fun st w => Returned Vvoid st w
  end.

(** A caller's session: a sequence of calls, each with its arguments.
    The session goes on as long as no call ends the process. *)
Fixpoint run_calls (calls : list (fn_decl * list cval)) : Backend (list cval) :=
  fun st w =>
  match calls with
  | [] => Returned [] st w
  | (d, args) :: rest =>
      match run_decl d args st w with
      | Returned r st' w' =>
          match run_calls rest st' w' with
          | Returned rs st'' w'' => Returned (r :: rs) st'' w''
          | Exited code err => Exited code err
          end
      | Exited code err => Exited code err
      end
  end.

End Backend.

(** ** Shape of a declaration *)

Definition param_names (d : fn_decl) : list string := (fn_params d).*2.
Definition param_types (d : fn_decl) : list ctype := (fn_params d).*1.

(** An input is passed by value: an id or scalar, a handle ([void*]) or a
    string ([char*]).  A result slot is a pointer to the place where the
    callee stores a scalar, a handle or a string. *)
Definition is_input_type (t : ctype) : bool :=
  match t with
  | Tint | Tstatus | Tdimacs_format | Tcsv_format | Tlonglong | Tdouble
  | Tptr Tvoid | Tptr Tchar => true
  | _ => false
  end.

Definition is_slot_type (t : ctype) : bool :=
  match t with
  | Tptr t' => is_input_type t'
  | _ => false
  end.

(** The library symbol that [jgrapht_X] stands for: [jgrapht_capi_X], and
    [vmLocatorSymbol] for [jgrapht_vmLocatorSymbol]. *)
Definition library_symbol (name : string) : string :=
  if String.eqb name "jgrapht_vmLocatorSymbol" then "vmLocatorSymbol"
  else "jgrapht_capi_" +:+ substring 8 (String.length name - 8) name.

(** [d] forwards: its body is the single call
    [library_symbol(thread, p1, ..., pn)] on its own parameters in
    declaration order, and the call's value is what a non-void [d]
    returns. *)
Definition forwards (d : fn_decl) : Prop :=
  exists returns,
    fn_body d = Forward returns (library_symbol (fn_name d))
                  (Ethread :: map Evar (param_names d))
    /\ (returns = true \/ fn_ret d = Tvoid)
    /\ NoDup (param_names d).

(** The call-and-status discipline: explicit typed inputs, results only
    through slots, and the [int] return value is the status of the
    forwarded call. *)
Definition call_and_status (d : fn_decl) : Prop :=
  fn_ret d = Tint
  /\ Forall (fun t => is_input_type t || is_slot_type t = true) (param_types d)
  /\ forwards d.

(** The functions that do not follow the discipline: the isolate lifecycle,
    the error channel and the VM locator. *)
Definition direct_result_functions : list string :=
  [ "jgrapht_isolate_create"; "jgrapht_isolate_destroy";
    "jgrapht_isolate_is_attached";
    "jgrapht_error_clear_errno"; "jgrapht_error_get_errno";
    "jgrapht_error_get_errno_msg"; "jgrapht_error_print_stack_trace";
    "jgrapht_vmLocatorSymbol" ].

Definition isolate_lifecycle_functions : list string :=
  [ "jgrapht_isolate_create"; "jgrapht_isolate_destroy";
    "jgrapht_isolate_is_attached" ].

Definition has_prefix (p : string) (d : fn_decl) : bool :=
  String.prefix p (fn_name d).

(** The declarations of one family, selected by the prefix of the name. *)
Definition family (p : string) : list fn_decl :=
  List.filter (has_prefix p) backend_api.

Definition find_decl (name : string) : option fn_decl :=
  List.find (fun d => String.eqb (fn_name d) name) backend_api.

#[global] Instance forwards_dec (d : fn_decl) : Decision (forwards d).
Proof.
  unfold forwards.
  destruct (fn_body d) as [returns callee args|] eqn:Hb.
  - destruct (decide (callee = library_symbol (fn_name d)
                      /\ args = Ethread :: map Evar (param_names d)
                      /\ (returns = true \/ fn_ret d = Tvoid)
                      /\ NoDup (param_names d))) as [H|H].
    + left. exists returns. destruct H as (-> & -> & H1 & H2). auto.
    + right. intros (r & Heq & H1 & H2). inversion Heq; subst. apply H; auto.
  - right. intros (r & Heq & _). discriminate.
Defined.

#[global] Instance call_and_status_dec (d : fn_decl) : Decision (call_and_status d).
Proof. unfold call_and_status. apply _. Defined.

(** ** The engine behind the boundary *)

(** The native library is not part of [backend.c].  [Engine] is a reference
    implementation of the operations the specification describes: status
    codes, execution contexts with their error channel and handle arena,
    the attribute store, graph creation, maximum flow, clique enumeration
    and iterators.  The algorithms' internals are parameters. *)
Module Engine.

(** Modelled from the spec: the header [jgrapht_capi_types.h] that
    declares [status_t] is missing.  The taxonomy is that of section 7;
    success is 0 and a failure is non-zero, the numbers of the failures
    follow the order in which section 7 lists them. *)
Inductive status :=
| Success
| NoSuchElement
| IllegalArgument
| UnsupportedOperation
| NegativeCycle
| Timeout
| InternalFailure.

#[global] Instance status_eq_dec : EqDecision status.
Proof. solve_decision. Defined.

Definition status_code (s : status) : Z :=
  match s with
  | Success => 0
  | NoSuchElement => 1
  | IllegalArgument => 2
  | UnsupportedOperation => 3
  | NegativeCycle => 4
  | Timeout => 5
  | InternalFailure => 6
  end.

Definition status_message (s : status) : string :=
  match s with
  | Success => ""
  | NoSuchElement => "no such element"
  | IllegalArgument => "illegal argument"
  | UnsupportedOperation => "unsupported operation"
  | NegativeCycle => "negative cycle"
  | Timeout => "timeout"
  | InternalFailure => "internal failure"
  end.

(** Modelled from the spec: the attribute store of section 3, a mapping
    from (element id, attribute key) to a typed value
    (boolean/int/long/double/string). *)
Inductive attr_value :=
| ABoolean (b : bool)
| AInt (n : Z)
| ALong (n : Z)
| ADouble (bits : Z)
| AString (s : string).

#[global] Instance attr_value_eq_dec : EqDecision attr_value.
Proof. solve_decision. Defined.

(** Modelled from the spec: the graph of section 3.  Configuration fixed
    at creation; integer vertex and edge ids; each edge has its ordered
    pair (source, target) and a weight (a double, by its bits). *)
Record graph := {
  directed : bool;
  allowSelfLoops : bool;
  allowMultipleEdges : bool;
  weighted : bool;
  vertices : gset Z;
  edges : gmap Z (Z * Z * Z)
}.

Definition empty_graph (d s m w : bool) : graph :=
  {| directed := d; allowSelfLoops := s; allowMultipleEdges := m;
     weighted := w; vertices := ∅; edges := ∅ |}.

(** [x < 0.0] on the bits of a double: sign bit set, not a NaN, not a
    zero. *)
Definition double_exponent (b : Z) : Z := Z.land (Z.shiftr b 52) 2047.
Definition double_fraction (b : Z) : Z := Z.land b (2 ^ 52 - 1).
Definition double_is_nan (b : Z) : bool :=
  (double_exponent b =? 2047) && negb (double_fraction b =? 0).
Definition double_is_zero (b : Z) : bool :=
  (double_exponent b =? 0) && (double_fraction b =? 0).
Definition double_lt_zero (b : Z) : bool :=
  Z.testbit b 63 && negb (double_is_nan b) && negb (double_is_zero b).

Definition negative_capacity (g : graph) : Prop :=
  exists e s t c, edges g !! e = Some (s, t, c) /\ double_lt_zero c = true.

Definition capacities_ok (g : graph) : bool :=
  bool_decide (map_Forall (fun _ e => double_lt_zero e.2 = false) (edges g)).

(** Modelled from the spec: the objects behind handles (section 2):
    attribute stores, graphs, iterators (the items still to come, first
    one first), maps, sets, and the result of a clique enumeration. *)
Inductive object :=
| OAttributeStore (attrs : gmap (Z * string) attr_value)
| OGraph (g : graph)
| OIterator (items : list cval)
| OMap (m : gmap Z cval)
| OSet (s : gset Z)
| OCliques (cs : list (gset Z)).

(** Modelled from the spec: an execution context (glossary) owns one
    handle arena and one error channel (code and message, section 4.4). *)
Record Context := {
  arena : gmap Z object;
  last_error : status;
  last_message : string
}.

Definition empty_context : Context :=
  {| arena := ∅; last_error := Success; last_message := "" |}.

(** The contexts by their thread pointer, and the caller's memory, where
    result slots live. *)
Record World := {
  contexts : gmap Z Context;
  memory : gmap Z cval
}.

Definition with_arena (a : gmap Z object) (c : Context) : Context :=
  {| arena := a; last_error := last_error c; last_message := last_message c |}.

(** A new handle: an address that is not [NULL] and not in use. *)
Definition new_handle (c : Context) : Z :=
  fresh ({[NULL]} ∪ dom (arena c) : gset Z).

Definition alloc (o : object) (c : Context) : Z * Context :=
  let h := new_handle c in (h, with_arena (<[h := o]> (arena c)) c).

(** An operation runs in one context and on the caller's memory. *)
Definition operation : Type :=
  Context -> gmap Z cval -> status * Context * gmap Z cval.

(** Modelled from the spec: section 4.4.  A failing operation populates
    the last-error state of its context; a succeeding one leaves it as it
    is (no auto-clear). *)
Definition record_failure (s : status) (c : Context) : Context :=
  match s with
  | Success => c
  | _ => {| arena := arena c; last_error := s;
            last_message := status_message s |}
  end.

(** Modelled from the spec: every operation returns a status code
    (section 6) and runs in the context of the thread it is given
    (section 9).  The spec gives no behaviour for a thread that owns no
    context ([NULL] included): the model answers [InternalFailure] and
    changes nothing. *)
Definition in_context (t : Z) (f : operation) (w : World) : cval * World :=
  match contexts w !! t with
  | None => (Vint (status_code InternalFailure), w)
  | Some c =>
      let '(s, c', m') := f c (memory w) in
      (Vint (status_code s),
       {| contexts := <[t := record_failure s c']> (contexts w);
          memory := m' |})
  end.

Definition failing (s : status) : operation := fun c m => (s, c, m).

(** *** attribute store *)

(** Modelled from the spec: an attribute store has a lifecycle of its own
    (section 3); a new one is empty and comes back as a handle through the
    result slot (section 4.2). *)
Definition attributes_store_create (args : list cval) : operation := fun c m =>
  match args with
  | [Vptr res] =>
      let (h, c') := alloc (OAttributeStore ∅) c in
      (Success, c', <[res := Vptr h]> m)
  | _ => (InternalFailure, c, m)
  end.

(** Modelled from the spec: the five types of an attribute value
    (section 3).  The capi header with the parameter types is missing:
    each value is taken at the width of its type, a long at 64 bits. *)
Definition decode_boolean (v : cval) : option attr_value :=
  match v with Vint n => Some (ABoolean (negb (to_int n =? 0))) | _ => None end.
Definition decode_int (v : cval) : option attr_value :=
  match v with Vint n => Some (AInt (to_int n)) | _ => None end.
Definition decode_long (v : cval) : option attr_value :=
  match v with Vint n => Some (ALong (to_longlong n)) | _ => None end.
Definition decode_double (v : cval) : option attr_value :=
  match v with Vdouble b => Some (ADouble b) | _ => None end.
Definition decode_string (v : cval) : option attr_value :=
  match v with Vstr s => Some (AString s) | _ => None end.

(** Modelled from the spec: a put maps (element id, attribute key) to the
    typed value (section 3); the element id is an [int], as in the
    sibling wrappers.  A handle that denotes no object fails with
    [NoSuchElement], one that denotes another kind of object with
    [IllegalArgument]. *)
Definition attributes_store_put (decode : cval -> option attr_value)
    (args : list cval) : operation := fun c m =>
  match args with
  | [Vptr store; Vint element; Vstr key; value] =>
      match arena c !! store with
      | Some (OAttributeStore attrs) =>
          match decode value with
          | Some a =>
              let attrs' := <[(to_int element, key) := a]> attrs in
              (Success,
               with_arena (<[store := OAttributeStore attrs']> (arena c)) c, m)
          | None => (IllegalArgument, c, m)
          end
      | Some _ => (IllegalArgument, c, m)
      | None => (NoSuchElement, c, m)
      end
  | _ => (InternalFailure, c, m)
  end.

(** The value stored for [(element, key)] in the store behind handle
    [store] of the context of thread [t]. *)
Definition attribute (w : World) (t store element : Z) (key : string)
    : option attr_value :=
  match contexts w !! t with
  | Some c =>
      match arena c !! store with
      | Some (OAttributeStore attrs) => attrs !! (element, key)
      | _ => None
      end
  | None => None
  end.

(** *** graph *)

(** Modelled from the spec: [createGraph(directed, allowSelfLoops,
    allowMultipleEdges, weighted) -> handle] (section 4.1); the graph is
    created empty with fixed configuration (section 3). *)
Definition graph_create (args : list cval) : operation := fun c m =>
  match args with
  | [Vint d; Vint s; Vint me; Vint wt; Vptr res] =>
      let g := empty_graph (negb (to_int d =? 0)) (negb (to_int s =? 0))
                 (negb (to_int me =? 0)) (negb (to_int wt =? 0)) in
      let (h, c') := alloc (OGraph g) c in
      (Success, c', <[res := Vptr h]> m)
  | _ => (InternalFailure, c, m)
  end.

(** *** iterators *)

(** Modelled from the spec: section 4.2.  [hasNext] never fails and never
    mutates the source; [next] fails with [NoSuchElement] when nothing
    remains and returns the next value otherwise.  An item of another
    kind than the one asked for is outside the spec's words: the model
    answers [IllegalArgument] and consumes nothing.  The same holds for a
    handle that is no iterator. *)
Definition it_hasnext (args : list cval) : operation := fun c m =>
  match args with
  | [Vptr it; Vptr res] =>
      match arena c !! it with
      | Some (OIterator items) =>
          (Success, c,
           <[res := Vint (match items with [] => 0 | _ => 1 end)]> m)
      | Some _ => (IllegalArgument, c, m)
      | None => (NoSuchElement, c, m)
      end
  | _ => (InternalFailure, c, m)
  end.

Inductive item_kind := KInt | KDouble | KObject.

Definition kind_of (v : cval) : option item_kind :=
  match v with
  | Vint _ => Some KInt
  | Vdouble _ => Some KDouble
  | Vptr _ => Some KObject
  | _ => None
  end.

#[global] Instance item_kind_eq_dec : EqDecision item_kind.
Proof. solve_decision. Defined.

(** Modelled from the spec: [next] of item kind [k] (section 4.2). *)
Definition it_next (k : item_kind) (args : list cval) : operation := fun c m =>
  match args with
  | [Vptr it; Vptr res] =>
      match arena c !! it with
      | Some (OIterator []) => (NoSuchElement, c, m)
      | Some (OIterator (v :: rest)) =>
          if decide (kind_of v = Some k) then
            (Success, with_arena (<[it := OIterator rest]> (arena c)) c,
             <[res := v]> m)
          else (IllegalArgument, c, m)
      | Some _ => (IllegalArgument, c, m)
      | None => (NoSuchElement, c, m)
      end
  | _ => (InternalFailure, c, m)
  end.

Inductive flow_algorithm := PushRelabel | Dinic | EdmondsKarp.
Inductive clique_algorithm :=
| BronKerbosch
| BronKerboschPivot
| BronKerboschPivotDegeneracyOrdering.

(** The three results of a maximum-flow computation: the flow value (a
    double), the flow on each edge (doubles), and the source side of a
    minimum cut. *)
Record flow_result := {
  flow_value : Z;
  flow_map : gmap Z Z;
  source_partition : gset Z
}.

Section Algorithms.

(** The numeric internals of the algorithms are not part of the
    contract (section 1): they are parameters.  [deadline_exceeded a g
    timeout] tells whether the enumeration [a] on [g] runs past the
    deadline that [timeout] sets; the clock itself is not modelled. *)
Variable max_flow : flow_algorithm -> graph -> Z -> Z -> flow_result.
Variable maximal_cliques : clique_algorithm -> graph -> list (gset Z).
Variable deadline_exceeded : clique_algorithm -> graph -> Z -> bool.

(** Modelled from the spec: maximum flow (section 4.5) requires source
    and sink to differ and to be existing vertices, a weighted graph,
    and no negative capacity; it returns the flow value, a per-edge
    flow map and the source side of a minimum cut.  A violated
    precondition is a precondition error raised before any work. *)
Definition maxflow_exec (a : flow_algorithm) (args : list cval)
    : operation := fun c m =>
  match args with
  | [Vptr g; Vint source; Vint sink; Vptr valueRes; Vptr flowMapRes;
     Vptr cutSourcePartitionRes] =>
      match arena c !! g with
      | Some (OGraph gr) =>
          let s := to_int source in
          let t := to_int sink in
          if bool_decide (s = t) then (IllegalArgument, c, m)
          else if negb (bool_decide (s ∈ vertices gr)
                        && bool_decide (t ∈ vertices gr))
          then (IllegalArgument, c, m)
          else if negb (weighted gr) then (IllegalArgument, c, m)
          else if negb (capacities_ok gr) then (IllegalArgument, c, m)
          else
            let r := max_flow a gr s t in
            let (hf, c1) := alloc (OMap (Vdouble <$> flow_map r)) c in
            let (hc, c2) := alloc (OSet (source_partition r)) c1 in
            (Success, c2,
             <[cutSourcePartitionRes := Vptr hc]>
               (<[flowMapRes := Vptr hf]>
                  (<[valueRes := Vdouble (flow_value r)]> m)))
      | Some _ => (IllegalArgument, c, m)
      | None => (NoSuchElement, c, m)
      end
  | _ => (InternalFailure, c, m)
  end.

(** Modelled from the spec: a budgeted algorithm takes a timeout and,
    when the deadline is exceeded, aborts, releases its partial state
    and reports [Timeout] instead of a partial result (section 5);
    otherwise it runs to completion and returns a result handle
    (section 4.5). *)
Definition clique_exec (a : clique_algorithm) (args : list cval)
    : operation := fun c m =>
  match args with
  | [Vptr g; Vint timeout; Vptr res] =>
      match arena c !! g with
      | Some (OGraph gr) =>
          if deadline_exceeded a gr (to_longlong timeout)
          then (Timeout, c, m)
          else
            let (h, c') := alloc (OCliques (maximal_cliques a gr)) c in
            (Success, c', <[res := Vptr h]> m)
      | Some _ => (IllegalArgument, c, m)
      | None => (NoSuchElement, c, m)
      end
  | _ => (InternalFailure, c, m)
  end.

(** The operations that return a status, by symbol. *)
Definition operations : list (string * (list cval -> operation)) :=
  [ ("jgrapht_capi_attributes_store_create", attributes_store_create);
    ("jgrapht_capi_attributes_store_put_boolean_attribute",
       attributes_store_put decode_boolean);
    ("jgrapht_capi_attributes_store_put_int_attribute",
       attributes_store_put decode_int);
    ("jgrapht_capi_attributes_store_put_long_attribute",
       attributes_store_put decode_long);
    ("jgrapht_capi_attributes_store_put_double_attribute",
       attributes_store_put decode_double);
    ("jgrapht_capi_attributes_store_put_string_attribute",
       attributes_store_put decode_string);
    ("jgrapht_capi_clique_exec_bron_kerbosch", clique_exec BronKerbosch);
    ("jgrapht_capi_clique_exec_bron_kerbosch_pivot",
       clique_exec BronKerboschPivot);
    ("jgrapht_capi_clique_exec_bron_kerbosch_pivot_degeneracy_ordering",
       clique_exec BronKerboschPivotDegeneracyOrdering);
    ("jgrapht_capi_maxflow_exec_push_relabel", maxflow_exec PushRelabel);
    ("jgrapht_capi_maxflow_exec_dinic", maxflow_exec Dinic);
    ("jgrapht_capi_maxflow_exec_edmonds_karp", maxflow_exec EdmondsKarp);
    ("jgrapht_capi_graph_create", graph_create);
    ("jgrapht_capi_it_next_int", it_next KInt);
    ("jgrapht_capi_it_next_double", it_next KDouble);
    ("jgrapht_capi_it_next_object", it_next KObject);
    ("jgrapht_capi_it_hasnext", it_hasnext) ].

Fixpoint find_operation (name : string)
    (ops : list (string * (list cval -> operation)))
    : option (list cval -> operation) :=
  match ops with
  | [] => None
  | (n, f) :: ops' => if String.eqb name n then Some f
                      else find_operation name ops'
  end.

(** Modelled from the spec: the error channel (section 4.4).
    [clearError] resets the channel of the calling context, the reads
    return its code and message. *)
Definition error_clear_errno (t : Z) (w : World) : cval * World :=
  match contexts w !! t with
  | Some c =>
      (Vvoid,
       {| contexts := <[t := {| arena := arena c; last_error := Success;
                                last_message := "" |}]> (contexts w);
          memory := memory w |})
  | None => (Vvoid, w)
  end.

Definition error_get_errno (t : Z) (w : World) : cval * World :=
  match contexts w !! t with
  | Some c => (Vint (status_code (last_error c)), w)
  | None => (Vint (status_code InternalFailure), w)
  end.

Definition error_get_errno_msg (t : Z) (w : World) : cval * World :=
  match contexts w !! t with
  | Some c => (Vstr (last_message c), w)
  | None => (Vstr (status_message InternalFailure), w)
  end.

(** The library's entry point: the first argument of every function is the
    thread.  A symbol the model does not implement fails with
    [UnsupportedOperation]. *)
Definition call (name : string) (args : list cval) (w : World)
    : cval * World :=
  match args with
  | Vptr t :: args' =>
      if String.eqb name "jgrapht_capi_error_clear_errno" then
        error_clear_errno t w
      else if String.eqb name "jgrapht_capi_error_get_errno" then
        error_get_errno t w
      else if String.eqb name "jgrapht_capi_error_get_errno_msg" then
        error_get_errno_msg t w
      else if String.eqb name "jgrapht_capi_error_print_stack_trace" then
        (Vvoid, w)
      else if String.eqb name "vmLocatorSymbol" then (Vvoid, w)
      else
        match find_operation name operations with
        | Some f => in_context t (f args') w
        | None => in_context t (failing UnsupportedOperation) w
        end
  | _ => (Vint (status_code InternalFailure), w)
  end.

(** A stand-in for GraalVM's isolate functions, which the spec leaves out
    of scope (section 1): creation attaches the calling thread to a new,
    empty context at an address that is not [NULL]; detaching drops the
    context of the thread and fails on a thread that has none. *)
Definition create_isolate (w : World) : Z * Z * Z * World :=
  let t := fresh ({[NULL]} ∪ dom (contexts w) : gset Z) in
  (0, t, t,
   {| contexts := <[t := empty_context]> (contexts w);
      memory := memory w |}).

Definition detach_thread (t : Z) (w : World) : Z * World :=
  match contexts w !! t with
  | Some _ => (0, {| contexts := delete t (contexts w);
                     memory := memory w |})
  | None => (1, w)
  end.

#[local] Instance library : NativeLibrary World := {
  graal_create_isolate := create_isolate;
  graal_detach_thread := detach_thread;
  capi := call
}.

End Algorithms.

End Engine.

(** ** The three families with several variants *)

(** The maximum-flow wrapper of an algorithm, the clique wrapper of a
    variant, and the [next] wrapper of an item kind. *)
Definition maxflow_wrapper {World : Type} `{!NativeLibrary World}
    (a : Engine.flow_algorithm) : Z -> Z -> Z -> Z -> Z -> Z -> Backend cval :=
  match a with
  | Engine.PushRelabel => jgrapht_maxflow_exec_push_relabel
  | Engine.Dinic => jgrapht_maxflow_exec_dinic
  | Engine.EdmondsKarp => jgrapht_maxflow_exec_edmonds_karp
  end.

Definition clique_wrapper {World : Type} `{!NativeLibrary World}
    (a : Engine.clique_algorithm) : Z -> Z -> Z -> Backend cval :=
  match a with
  | Engine.BronKerbosch => jgrapht_clique_exec_bron_kerbosch
  | Engine.BronKerboschPivot => jgrapht_clique_exec_bron_kerbosch_pivot
  | Engine.BronKerboschPivotDegeneracyOrdering =>
      jgrapht_clique_exec_bron_kerbosch_pivot_degeneracy_ordering
  end.

Definition it_next_wrapper {World : Type} `{!NativeLibrary World}
    (k : Engine.item_kind) : Z -> Z -> Backend cval :=
  match k with
  | Engine.KInt => jgrapht_it_next_int
  | Engine.KDouble => jgrapht_it_next_double
  | Engine.KObject => jgrapht_it_next_object
  end.

(** The parameters declared under a name in [backend_api]. *)
Definition params_of (name : string) : option (list (ctype * string)) :=
  fn_params <$> find_decl name.

(** The functions that declare a parameter called [x]. *)
Definition functions_with_param (x : string) : list string :=
  map fn_name
    (List.filter (fun d => bool_decide (x ∈ param_names d)) backend_api).

(** ** A concrete engine state *)

Module Example.
Import Engine.

(** The doubles 1.0, 2.0, 3.0 and -1.0. *)
Definition one : Z := 0x3FF0000000000000.
Definition two : Z := 0x4000000000000000.
Definition three : Z := 0x4008000000000000.
Definition minus_one : Z := 0xBFF0000000000000.

(** 0 -> 1 -> 2 with capacities 3.0 and 2.0. *)
Definition path_graph : graph :=
  {| directed := true; allowSelfLoops := false; allowMultipleEdges := false;
     weighted := true; vertices := {[0; 1; 2]};
     edges := {[ 0 := (0, 1, three); 1 := (1, 2, two) ]} |}.

(** The same with capacity -1.0 on the second edge. *)
Definition negative_graph : graph :=
  {| directed := true; allowSelfLoops := false; allowMultipleEdges := false;
     weighted := true; vertices := {[0; 1; 2]};
     edges := {[ 0 := (0, 1, three); 1 := (1, 2, minus_one) ]} |}.

(** One context, attached at 8192, holding an attribute store, the two
    graphs, an iterator with two integers left and an exhausted one. *)
Definition context : Context :=
  {| arena := {[ 16 := OAttributeStore ∅;
                 32 := OGraph path_graph;
                 48 := OGraph negative_graph;
                 64 := OIterator [Vint 7; Vint 9];
                 80 := OIterator [] ]};
     last_error := Success; last_message := "" |}.

Definition world : World :=
  {| contexts := {[ 8192 := context ]}; memory := ∅ |}.

Definition attached : backend_state := {| isolate := 4096; thread := 8192 |}.

(** Stand-ins for the algorithms: the zero flow with the source alone on
    its side of the cut, the one-vertex cliques, and an enumeration that
    overruns every deadline of less than 1000. *)
Definition zero_flow (a : flow_algorithm) (g : graph) (s t : Z) : flow_result :=
  {| flow_value := 0; flow_map := (fun _ => 0) <$> edges g;
     source_partition := {[ s ]} |}.

Definition singletons (a : clique_algorithm) (g : graph) : list (gset Z) :=
  (fun v => {[ v ]}) <$> elements (vertices g).

Definition overrun (a : clique_algorithm) (g : graph) (timeout : Z) : bool :=
  (0 <? timeout) && (timeout <? 1000).

#[global] Instance engine : NativeLibrary World :=
  library zero_flow singletons overrun.

End Example.

(** ** Sessions against the library alone *)

(** A call is well formed when it has one argument per parameter, and well
    typed when each argument is a value of the declared type. *)
Definition well_formed (d : fn_decl) (args : list cval) : Prop :=
  length args = length (fn_params d).

Definition well_typed (d : fn_decl) (args : list cval) : Prop :=
  Forall2 (fun v t => has_type v t = true) args (param_types d).

(** The value a function of return type [t] hands back when the forwarded
    call produced [r]. *)
Definition returned_value (t : ctype) (r : cval) : cval :=
  if is_void t then Vvoid else r.

(** [d] is a pure pass-through: on well-typed arguments it does what the
    call of its library symbol on [thread] and the same arguments does,
    returns what that call returns, and leaves the statics alone. *)
Definition pass_through {World : Type} `{!NativeLibrary World} (d : fn_decl)
    : Prop :=
  forall args st w, well_typed d args ->
    run_decl d args st w =
      (let (r, w') := capi (library_symbol (fn_name d))
                        (Vptr (thread st) :: args) w in
       Returned (returned_value (fn_ret d) r) st w').

(** The session the library sees when every call of [calls] is made
    directly on the one context [t]. *)
Fixpoint library_calls {World : Type} `{!NativeLibrary World} (t : Z)
    (calls : list (fn_decl * list cval)) (w : World) : list cval * World :=
  match calls with
  | [] => ([], w)
  | (d, args) :: rest =>
      let (r, w') := capi (library_symbol (fn_name d))
                       (Vptr t :: zip_with convert (param_types d) args) w in
      let (rs, w'') := library_calls t rest w' in
      (returned_value (fn_ret d) r :: rs, w'')
  end.

(** Whether a context is attached after a session, told from the calls
    alone: the last of [jgrapht_isolate_create] and
    [jgrapht_isolate_destroy] decides. *)
Fixpoint attached_after (calls : list (fn_decl * list cval)) (attached : bool)
    : bool :=
  match calls with
  | [] => attached
  | (d, _) :: rest =>
      attached_after rest
        (if String.eqb (fn_name d) "jgrapht_isolate_create" then true
         else if String.eqb (fn_name d) "jgrapht_isolate_destroy" then false
         else attached)
  end.

(** A library that does nothing: every isolate creation succeeds and
    leaves the addresses 4096 and 8192 in the statics. *)
#[global] Instance idle_library : NativeLibrary unit := {|
  graal_create_isolate := fun w => (0, 4096, 8192, w);
  graal_detach_thread := fun _ w => (0, w);
  capi := fun _ _ w => (Vint 0, w)
|}.

(** [thread != NULL] *)
Definition is_attached (st : backend_state) : bool := negb (thread st =? NULL).

(** A call of a session that goes to a forwarding function of the file
    with one argument per parameter. *)
Definition wrapper_call (c : fn_decl * list cval) : Prop :=
  In c.1 backend_api
  /\ ~ In (fn_name c.1) isolate_lifecycle_functions
  /\ well_formed c.1 c.2.

(** ** What the library sees of a session *)

(** The calls that reach the library: an isolate creation with its return
    code and the two pointers it stored, a detach of thread [t] with its
    return code, and a call of the symbol [callee]. *)
Inductive event :=
| Created (rc isolate_out thread_out : Z)
| Detached (t rc : Z)
| Called (callee : string) (args : list cval).

(** Any library, with a log of the calls made to it kept beside its
    world. *)
Definition tracing {World : Type} (L : NativeLibrary World)
    : NativeLibrary (list event * World) := {|
  graal_create_isolate := fun lw : list event * World =>
    let '(rc, iso, thr, w') := @graal_create_isolate World L lw.2 in
    (rc, iso, thr, ((lw.1 ++ [Created rc iso thr])%list, w'));
  graal_detach_thread := fun t (lw : list event * World) =>
    let (rc, w') := @graal_detach_thread World L t lw.2 in
    (rc, ((lw.1 ++ [Detached t rc])%list, w'));
  capi := fun f args (lw : list event * World) =>
    let (r, w') := @capi World L f args lw.2 in
    (r, ((lw.1 ++ [Called f args])%list, w'))
|}.

(** The discipline of a log, [current] being the thread that is attached
    ([NULL] when none is): an isolate is created only while no thread is
    attached, the thread detached is the attached one, and every call
    carries the current thread, [NULL] included, as its first argument.
    The result is the thread attached at the end. *)
Fixpoint follows_protocol (current : Z) (log : list event) : option Z :=
  match log with
  | [] => Some current
  | Created rc iso thr :: rest =>
      if (current =? NULL) && (rc =? 0) then follows_protocol thr rest
      else None
  | Detached t rc :: rest =>
      if negb (current =? NULL) && (t =? current) && (rc =? 0)
      then follows_protocol NULL rest
      else None
  | Called f args :: rest =>
      match args with
      | Vptr t :: _ => if t =? current then follows_protocol current rest
                       else None
      | _ => None
      end
  end.

(** Two outcomes that differ at most in the value of [isolate]. *)
Definition same_up_to_isolate {World A : Type} (o1 o2 : outcome World A)
    : Prop :=
  match o1, o2 with
  | Returned a1 st1 w1, Returned a2 st2 w2 =>
      a1 = a2 /\ w1 = w2 /\ thread st1 = thread st2
  | Exited c1 e1, Exited c2 e2 => c1 = c2 /\ e1 = e2
  | _, _ => False
  end.

(** The statics hold one isolate: both are [NULL], or they are the two
    pointers that one successful [graal_create_isolate] stored. *)
Definition one_isolate {World : Type} `{!NativeLibrary World}
    (st : backend_state) : Prop :=
  st = initial_state
  \/ exists w0 w1,
       graal_create_isolate w0 = (0, isolate st, thread st, w1).

(** A library whose isolate creation and detach fail. *)
Definition refusing_library : NativeLibrary unit := {|
  graal_create_isolate := fun w => (1, NULL, NULL, w);
  graal_detach_thread := fun _ w => (1, w);
  capi := fun _ _ w => (Vint 0, w)
|}.

(** ** File and string variants of exporters and importers *)

(** What follows the prefix [p] in the name of [d]. *)
Definition name_after (p : string) (d : fn_decl) : string :=
  substring (String.length p) (String.length (fn_name d) - String.length p)
    (fn_name d).

(** The parameters a string exporter has when the file exporter has [ps]:
    the [filename] is gone and a result slot for the string handle is
    added at the end. *)
Definition export_string_params (ps : list (ctype * string))
    : option (list (ctype * string)) :=
  match ps with
  | g :: (Tptr Tchar, x) :: rest =>
      if String.eqb x "filename"
      then Some (g :: rest ++ [(Tptr (Tptr Tvoid), "res")])
      else None
  | _ => None
  end.

(** The parameters a string importer has when the file importer has [ps]:
    the text to read, called [input], takes the place of the [filename]. *)
Definition import_string_params (ps : list (ctype * string))
    : option (list (ctype * string)) :=
  match ps with
  | g :: (Tptr Tchar, x) :: rest =>
      if String.eqb x "filename" then Some (g :: (Tptr Tchar, "input") :: rest)
      else None
  | _ => None
  end.

(** Inputs first, results last: no by-value input follows a result
    slot. *)
Fixpoint after_inputs (ts : list ctype) : list ctype :=
  match ts with
  | [] => []
  | t :: ts' => if is_input_type t then after_inputs ts' else ts
  end.

Definition inputs_then_slots (ts : list ctype) : Prop :=
  Forall (fun t => is_slot_type t = true) (after_inputs ts).



(** ** Proof automation *)

Create HintDb wrappers.
#[global] Hint Unfold
  jgrapht_attributes_store_create
  jgrapht_attributes_store_put_boolean_attribute
  jgrapht_attributes_store_put_int_attribute
  jgrapht_attributes_store_put_long_attribute
  jgrapht_attributes_store_put_double_attribute
  jgrapht_attributes_store_put_string_attribute
  jgrapht_clique_exec_bron_kerbosch
  jgrapht_clique_exec_bron_kerbosch_pivot
  jgrapht_clique_exec_bron_kerbosch_pivot_degeneracy_ordering
  jgrapht_error_clear_errno jgrapht_error_get_errno
  jgrapht_error_get_errno_msg jgrapht_error_print_stack_trace
  jgrapht_maxflow_exec_push_relabel jgrapht_maxflow_exec_dinic
  jgrapht_maxflow_exec_edmonds_karp
  jgrapht_graph_create
  jgrapht_it_next_int jgrapht_it_next_double jgrapht_it_next_object
  jgrapht_it_hasnext
  jgrapht_mst_exec_kruskal jgrapht_vmLocatorSymbol
  capi_call capi_call_void : wrappers.

(** Both sides are the same library call once the declaration is looked up
    and the wrapper unfolded. *)
Ltac agree :=
  repeat split; cbv [run_named]; simpl; unfold run_decl;
  autounfold with wrappers; simpl;
  match goal with |- context [capi ?f ?a ?w] => destruct (capi f a w) end;
  reflexivity.

(** Membership in a concrete list, and its negation, by evaluation. *)
Ltac in_list :=
  apply list_elem_of_In; apply (bool_decide_unpack _); vm_compute; exact I.

Ltac not_in_list :=
  let H := fresh in
  intros H; apply list_elem_of_In in H; revert H;
  apply (bool_decide_unpack _); vm_compute; exact I.

Ltac is_wrapper_call :=
  split; [in_list | split; [not_in_list | reflexivity]].


(** ** Conversions *)

Lemma wrap_in_range (bits n : Z) :
  0 < bits -> in_range bits n = true -> wrap bits n = n.
Proof.
  intros Hb H. unfold in_range in H. apply andb_true_iff in H as [H1 H2].
  apply Z.leb_le in H1. apply Z.ltb_lt in H2. unfold wrap.
  assert (Hp : 2 ^ bits = 2 * 2 ^ (bits - 1)).
  { replace bits with (Z.succ (bits - 1)) at 1 by lia.
    rewrite Z.pow_succ_r by lia. reflexivity. }
  assert (0 < 2 ^ (bits - 1)) by (apply Z.pow_pos_nonneg; lia).
  rewrite Z.mod_small by lia. lia.
Qed.

Lemma convert_well_typed (v : cval) (t : ctype) :
  has_type v t = true -> convert t v = v.
Proof.
  destruct v as [|n|b|a|s]; try reflexivity.
  - intros H. unfold convert.
    destruct t as [| | | | | | | |t']; simpl in *; try discriminate.
    + unfold to_int. rewrite wrap_in_range; [reflexivity | lia | exact H].
    + unfold to_longlong. rewrite wrap_in_range; [reflexivity | lia | exact H].
    + unfold to_int. rewrite wrap_in_range; [reflexivity | lia | exact H].
    + unfold to_int. rewrite wrap_in_range; [reflexivity | lia | exact H].
    + unfold to_int. rewrite wrap_in_range; [reflexivity | lia | exact H].
    + destruct t'; discriminate.
  - intros H. unfold convert.
    destruct t as [| | | | | | | |t']; simpl in *; try discriminate;
      reflexivity.
Qed.

Lemma zip_with_convert_well_typed (ts : list ctype) (args : list cval) :
  Forall2 (fun v t => has_type v t = true) args ts ->
  zip_with convert ts args = args.
Proof.
  intros H. induction H as [|v t args ts Hv _ IH]; simpl.
  - reflexivity.
  - rewrite convert_well_typed by exact Hv. rewrite IH. reflexivity.
Qed.

(** ** Evaluation of a forwarding body *)

Lemma lookup_var_fresh (x y : string) (v : cval) (env : list (string * cval)) :
  x <> y -> lookup_var x ((y, v) :: env) = lookup_var x env.
Proof.
  intros Hne. simpl. destruct (String.eqb_spec x y); [contradiction | reflexivity].
Qed.

Lemma eval_params (st : backend_state) (ps : list (ctype * string)) :
  forall args : list cval,
    NoDup ps.*2 -> length args = length ps ->
    map (eval st (bind_params ps args)) (map Evar ps.*2)
    = zip_with convert ps.*1 args.
Proof.
  induction ps as [|[t x] ps IH]; intros args Hnd Hlen.
  - destruct args; [reflexivity | discriminate].
  - destruct args as [|v args]; [discriminate|].
    simpl in Hlen. injection Hlen as Hlen.
    rewrite fmap_cons in Hnd. apply NoDup_cons in Hnd as [Hx Hnd].
    rewrite !fmap_cons. cbn [map bind_params zip_with fst snd eval lookup_var].
    rewrite String.eqb_refl. f_equal.
    rewrite <- (IH args Hnd Hlen).
    apply map_ext_in. intros e He.
    apply in_map_iff in He as (y & <- & Hy). cbn [eval].
    apply lookup_var_fresh. intros ->. apply Hx.
    apply list_elem_of_In. exact Hy.
Qed.

Section ForwardingLemmas.
Context {World : Type} `{!NativeLibrary World}.

Lemma run_decl_forwards (d : fn_decl) (args : list cval)
    (st : backend_state) (w : World) :
  forwards d -> well_formed d args ->
  run_decl d args st w =
    (let (r, w') := capi (library_symbol (fn_name d))
                      (Vptr (thread st) :: zip_with convert (param_types d) args) w in
     Returned (returned_value (fn_ret d) r) st w').
Proof.
  intros (returns & Hbody & Hret & Hnd) Hwf.
  unfold run_decl. rewrite Hbody. cbn [map eval].
  unfold param_names in *. rewrite (eval_params st _ args Hnd Hwf).
  unfold param_types.
  destruct (capi _ _ w) as [r w']. f_equal.
  unfold returned_value. destruct Hret as [-> | ->]; simpl.
  - destruct (is_void (fn_ret d)); reflexivity.
  - rewrite andb_false_r. reflexivity.
Qed.

Lemma well_typed_well_formed (d : fn_decl) (args : list cval) :
  well_typed d args -> well_formed d args.
Proof.
  unfold well_typed, well_formed, param_types. intros H.
  apply Forall2_length in H. rewrite length_fmap in H. exact H.
Qed.

Lemma forwards_pass_through (d : fn_decl) : forwards d -> pass_through d.
Proof.
  intros Hf args st w Hty.
  rewrite (run_decl_forwards d args st w Hf (well_typed_well_formed _ _ Hty)).
  rewrite zip_with_convert_well_typed by exact Hty. reflexivity.
Qed.

End ForwardingLemmas.

(** ** Facts read off the table *)

Lemma backend_api_forwards :
  Forall (fun d => fn_name d ∈ isolate_lifecycle_functions \/ forwards d)
    backend_api.
Proof. apply (bool_decide_unpack _). vm_compute. exact I. Qed.

Lemma backend_api_native :
  Forall (fun d => fn_body d = Native -> fn_name d ∈ isolate_lifecycle_functions)
    backend_api.
Proof. apply (bool_decide_unpack _). vm_compute. exact I. Qed.

Lemma backend_api_names_unique : NoDup (map fn_name backend_api).
Proof. apply (bool_decide_unpack _). vm_compute. exact I. Qed.

Lemma backend_api_wrapper (d : fn_decl) :
  In d backend_api -> ~ In (fn_name d) isolate_lifecycle_functions -> forwards d.
Proof.
  intros Hin Hname. apply list_elem_of_In in Hin.
  pose proof backend_api_forwards as H.
  rewrite Forall_forall in H. destruct (H d Hin) as [Hl | Hf]; [|exact Hf].
  exfalso. apply Hname. apply list_elem_of_In. exact Hl.
Qed.

Lemma backend_api_discipline :
  Forall (fun d => fn_name d ∈ direct_result_functions \/ call_and_status d)
    backend_api.
Proof. apply (bool_decide_unpack _). vm_compute. exact I. Qed.

(** ** The call-and-status protocol (C1) *)

(** C1, as stated, fails: [jgrapht_error_get_errno_msg] takes no result
    slot and returns the [char*] message itself, so it does not follow the
    call-and-status discipline. *)
Lemma error_message_is_returned_directly :
  let d := Fn (Tptr Tchar) "jgrapht_error_get_errno_msg" []
             (Forward true "jgrapht_capi_error_get_errno_msg" [Ethread]) in
  In d backend_api /\ ~ call_and_status d.
Proof.
  split.
  - in_list.
  - intros [Hret _]. discriminate Hret.
Qed.

(** C1, amended: every function of the backend other than the isolate
    lifecycle functions, the four error-channel functions and
    [jgrapht_vmLocatorSymbol] returns [int], takes only by-value inputs and
    pointer result slots, and its return value is the status that the
    forwarded library call returned. *)
Theorem status_and_slots_discipline {World : Type} `{!NativeLibrary World}
    (d : fn_decl) :
  In d backend_api -> ~ In (fn_name d) direct_result_functions ->
  fn_ret d = Tint
  /\ Forall (fun t => is_input_type t || is_slot_type t = true) (param_types d)
  /\ forall args st w, well_formed d args ->
       run_decl d args st w =
         (let (status, w') :=
            capi (library_symbol (fn_name d))
              (Vptr (thread st) :: zip_with convert (param_types d) args) w in
          Returned status st w').
Proof.
  intros Hin Hname. apply list_elem_of_In in Hin.
  pose proof backend_api_discipline as H. rewrite Forall_forall in H.
  destruct (H d Hin) as [Hd | (Hret & Hty & Hf)].
  - exfalso. apply Hname. apply list_elem_of_In. exact Hd.
  - split; [exact Hret|]. split; [exact Hty|].
    intros args st w Hwf. rewrite (run_decl_forwards d args st w Hf Hwf).
    rewrite Hret. reflexivity.
Qed.

(** The discipline at [jgrapht_graph_create], over the idle library. *)
Lemma status_and_slots_discipline_witness :
  let d := Fn Tint "jgrapht_graph_create"
             [(Tint, "directed"); (Tint, "allowing_self_loops");
              (Tint, "allowing_multiple_edges"); (Tint, "weighted");
              (Tptr (Tptr Tvoid), "res")]
             (Forward true "jgrapht_capi_graph_create"
                [Ethread; Evar "directed"; Evar "allowing_self_loops";
                 Evar "allowing_multiple_edges"; Evar "weighted"; Evar "res"]) in
  fn_ret d = Tint
  /\ Forall (fun t => is_input_type t || is_slot_type t = true) (param_types d)
  /\ forall args st w, well_formed d args ->
       run_decl (NativeLibrary0 := idle_library) d args st w =
         (let (status, w') :=
            capi (library_symbol (fn_name d))
              (Vptr (thread st) :: zip_with convert (param_types d) args) w in
          Returned status st w').
Proof.
  apply (status_and_slots_discipline (NativeLibrary0 := idle_library)).
  - in_list.
  - not_in_list.
Defined.

(** ** Pass-through (C10) *)

(** C10, as stated, fails: [jgrapht_isolate_create] is a public function of
    the backend that calls no [jgrapht_capi_*] function and changes the
    statics: from the initial state it leaves [thread] non-[NULL]. *)
Lemma isolate_create_is_no_pass_through :
  let d := Fn Tvoid "jgrapht_isolate_create" [] Native in
  In d backend_api /\ ~ pass_through (NativeLibrary0 := idle_library) d.
Proof.
  split.
  - in_list.
  - intros H. specialize (H [] initial_state tt (List.Forall2_nil _)).
    vm_compute in H. discriminate H.
Qed.

(** C10, amended: every function of the backend other than the three
    isolate lifecycle functions is a pure pass-through of its library
    function ([jgrapht_capi_X] for [jgrapht_X], [vmLocatorSymbol] for
    [jgrapht_vmLocatorSymbol]): on arguments of the declared types it
    returns what the call on [thread] and the same arguments in the same
    order returns, and does nothing else. *)
Theorem wrappers_are_pass_through {World : Type} `{!NativeLibrary World}
    (d : fn_decl) :
  In d backend_api -> ~ In (fn_name d) isolate_lifecycle_functions ->
  pass_through d.
Proof.
  intros Hin Hname. apply forwards_pass_through.
  apply backend_api_wrapper; assumption.
Qed.

(** Pass-through at [jgrapht_mst_exec_kruskal], over the idle library. *)
Lemma wrappers_are_pass_through_witness :
  pass_through (NativeLibrary0 := idle_library)
    (Fn Tint "jgrapht_mst_exec_kruskal"
       [(Tptr Tvoid, "g"); (Tptr Tdouble, "weight_res");
        (Tptr (Tptr Tvoid), "res")]
       (Forward true "jgrapht_capi_mst_exec_kruskal"
          [Ethread; Evar "g"; Evar "weight_res"; Evar "res"])).
Proof.
  apply (wrappers_are_pass_through (NativeLibrary0 := idle_library)).
  - in_list.
  - not_in_list.
Defined.

(** ** The named wrappers against their declarations *)


Section Agreement.
Context {World : Type} `{!NativeLibrary World}.

Lemma agree_isolate (st : backend_state) (w : World) :
  run_named "jgrapht_isolate_create" [] st w = jgrapht_isolate_create st w
  /\ run_named "jgrapht_isolate_destroy" [] st w = jgrapht_isolate_destroy st w
  /\ run_named "jgrapht_isolate_is_attached" [] st w
     = jgrapht_isolate_is_attached st w.
Proof. repeat split. Qed.

Lemma agree_error (st : backend_state) (w : World) :
  run_named "jgrapht_error_clear_errno" [] st w = jgrapht_error_clear_errno st w
  /\ run_named "jgrapht_error_get_errno" [] st w = jgrapht_error_get_errno st w
  /\ run_named "jgrapht_error_get_errno_msg" [] st w
     = jgrapht_error_get_errno_msg st w
  /\ run_named "jgrapht_error_print_stack_trace" [] st w
     = jgrapht_error_print_stack_trace st w.
Proof. agree. Qed.

Lemma agree_attributes (store element value : Z) (key s : string)
    (st : backend_state) (w : World) :
  run_named "jgrapht_attributes_store_put_boolean_attribute"
    [Vptr store; Vint element; Vstr key; Vint value] st w
  = jgrapht_attributes_store_put_boolean_attribute store element key value st w
  /\ run_named "jgrapht_attributes_store_put_int_attribute"
       [Vptr store; Vint element; Vstr key; Vint value] st w
     = jgrapht_attributes_store_put_int_attribute store element key value st w
  /\ run_named "jgrapht_attributes_store_put_long_attribute"
       [Vptr store; Vint element; Vstr key; Vint value] st w
     = jgrapht_attributes_store_put_long_attribute store element key value st w
  /\ run_named "jgrapht_attributes_store_put_double_attribute"
       [Vptr store; Vint element; Vstr key; Vdouble value] st w
     = jgrapht_attributes_store_put_double_attribute store element key value st w
  /\ run_named "jgrapht_attributes_store_put_string_attribute"
       [Vptr store; Vint element; Vstr key; Vstr s] st w
     = jgrapht_attributes_store_put_string_attribute store element key s st w.
Proof. agree. Qed.

Lemma agree_graph_create (directed allowing_self_loops allowing_multiple_edges
    weighted res : Z) (st : backend_state) (w : World) :
  run_named "jgrapht_graph_create"
    [Vint directed; Vint allowing_self_loops; Vint allowing_multiple_edges;
     Vint weighted; Vptr res] st w
  = jgrapht_graph_create directed allowing_self_loops allowing_multiple_edges
      weighted res st w.
Proof. agree. Qed.

Lemma agree_maxflow (g source sink valueRes flowMapRes cutSourcePartitionRes : Z)
    (st : backend_state) (w : World) :
  let args := [Vptr g; Vint source; Vint sink; Vptr valueRes; Vptr flowMapRes;
               Vptr cutSourcePartitionRes] in
  run_named "jgrapht_maxflow_exec_push_relabel" args st w
  = jgrapht_maxflow_exec_push_relabel g source sink valueRes flowMapRes
      cutSourcePartitionRes st w
  /\ run_named "jgrapht_maxflow_exec_dinic" args st w
     = jgrapht_maxflow_exec_dinic g source sink valueRes flowMapRes
         cutSourcePartitionRes st w
  /\ run_named "jgrapht_maxflow_exec_edmonds_karp" args st w
     = jgrapht_maxflow_exec_edmonds_karp g source sink valueRes flowMapRes
         cutSourcePartitionRes st w.
Proof. agree. Qed.

Lemma agree_clique (g timeout res : Z) (st : backend_state) (w : World) :
  let args := [Vptr g; Vint timeout; Vptr res] in
  run_named "jgrapht_clique_exec_bron_kerbosch" args st w
  = jgrapht_clique_exec_bron_kerbosch g timeout res st w
  /\ run_named "jgrapht_clique_exec_bron_kerbosch_pivot" args st w
     = jgrapht_clique_exec_bron_kerbosch_pivot g timeout res st w
  /\ run_named "jgrapht_clique_exec_bron_kerbosch_pivot_degeneracy_ordering"
       args st w
     = jgrapht_clique_exec_bron_kerbosch_pivot_degeneracy_ordering g timeout
         res st w.
Proof. agree. Qed.

Lemma agree_iterators (it res : Z) (st : backend_state) (w : World) :
  let args := [Vptr it; Vptr res] in
  run_named "jgrapht_it_next_int" args st w = jgrapht_it_next_int it res st w
  /\ run_named "jgrapht_it_next_double" args st w
     = jgrapht_it_next_double it res st w
  /\ run_named "jgrapht_it_next_object" args st w
     = jgrapht_it_next_object it res st w
  /\ run_named "jgrapht_it_hasnext" args st w = jgrapht_it_hasnext it res st w.
Proof. agree. Qed.

Lemma agree_mst_vm (g weight_res res : Z) (st : backend_state) (w : World) :
  run_named "jgrapht_mst_exec_kruskal" [Vptr g; Vptr weight_res; Vptr res] st w
  = jgrapht_mst_exec_kruskal g weight_res res st w
  /\ run_named "jgrapht_vmLocatorSymbol" [] st w = jgrapht_vmLocatorSymbol st w.
Proof. agree. Qed.

End Agreement.

(** ** One execution context per process (C8) *)

Section SharedContext.
Context {World : Type} `{!NativeLibrary World}.

Lemma wrapper_call_run (d : fn_decl) (args : list cval)
    (st : backend_state) (w : World) :
  wrapper_call (d, args) ->
  run_decl d args st w =
    (let (r, w') := capi (library_symbol (fn_name d))
                      (Vptr (thread st) :: zip_with convert (param_types d) args) w in
     Returned (returned_value (fn_ret d) r) st w').
Proof.
  intros (Hin & Hname & Hwf). simpl in *.
  apply run_decl_forwards; [|exact Hwf].
  apply backend_api_wrapper; assumption.
Qed.

Lemma run_calls_library_calls (calls : list (fn_decl * list cval)) :
  Forall wrapper_call calls ->
  forall st w,
    run_calls calls st w =
      (let (rs, w') := library_calls (thread st) calls w in Returned rs st w').
Proof.
  induction 1 as [|[d args] calls Hc _ IH]; intros st w.
  - reflexivity.
  - cbn [run_calls library_calls].
    rewrite (wrapper_call_run d args st w Hc).
    destruct (capi _ _ w) as [r w1].
    rewrite IH. destruct (library_calls (thread st) calls w1) as [rs w2].
    reflexivity.
Qed.

Lemma isolate_destroy_detaches (st st' : backend_state) (w w' : World)
    (v : cval) :
  jgrapht_isolate_destroy st w = Returned v st' w' -> thread st' = NULL.
Proof.
  unfold jgrapht_isolate_destroy.
  destruct (thread st =? NULL) eqn:Hn; simpl.
  - intros [= _ <- _]. apply Z.eqb_eq. exact Hn.
  - destruct (graal_detach_thread (thread st) w) as [rc w1].
    destruct (rc =? 0); simpl; [|discriminate].
    intros [= _ <- _]. reflexivity.
Qed.

(** C8: a session of wrapper calls is the session the library sees on
    the single context held in [thread]: every call passes that pointer
    and none changes it.  The pointer is [NULL] in the initial state and
    after [jgrapht_isolate_destroy] has returned, and the calls are then
    forwarded on the [NULL] context all the same. *)
Theorem one_shared_context (calls : list (fn_decl * list cval))
    (st : backend_state) (w : World) :
  Forall wrapper_call calls ->
  run_calls calls st w =
    (let (rs, w') := library_calls (thread st) calls w in Returned rs st w')
  /\ run_calls calls initial_state w =
       (let (rs, w') := library_calls NULL calls w in
        Returned rs initial_state w')
  /\ (forall st0 w0 v, jgrapht_isolate_destroy st0 w0 = Returned v st w ->
        run_calls calls st w =
          (let (rs, w') := library_calls NULL calls w in Returned rs st w')).
Proof.
  intros Hc. split; [|split].
  - apply run_calls_library_calls. exact Hc.
  - apply (run_calls_library_calls calls Hc initial_state w).
  - intros st0 w0 v Hd. rewrite (run_calls_library_calls calls Hc st w).
    rewrite (isolate_destroy_detaches st0 st w0 w v Hd). reflexivity.
Qed.

End SharedContext.

(** A graph creation and an error clear after a destroy: both are
    forwarded on the [NULL] context. *)
Lemma one_shared_context_witness :
  let create := Fn Tint "jgrapht_graph_create"
             [(Tint, "directed"); (Tint, "allowing_self_loops");
              (Tint, "allowing_multiple_edges"); (Tint, "weighted");
              (Tptr (Tptr Tvoid), "res")]
             (Forward true "jgrapht_capi_graph_create"
                [Ethread; Evar "directed"; Evar "allowing_self_loops";
                 Evar "allowing_multiple_edges"; Evar "weighted"; Evar "res"]) in
  let clear := Fn Tvoid "jgrapht_error_clear_errno" []
             (Forward false "jgrapht_capi_error_clear_errno" [Ethread]) in
  let calls := [(create, [Vint 1; Vint 0; Vint 0; Vint 1; Vptr 64]); (clear, [])] in
  let attached := {| isolate := 4096; thread := 8192 |} in
  Forall wrapper_call calls
  /\ jgrapht_isolate_destroy (NativeLibrary0 := idle_library) attached tt
     = Returned Vvoid initial_state tt
  /\ run_calls (NativeLibrary0 := idle_library) calls initial_state tt
     = (let (rs, w') := library_calls NULL calls tt in
        Returned rs initial_state w').
Proof.
  intros create clear calls attached.
  assert (Hc : Forall wrapper_call calls).
  { constructor; [is_wrapper_call|].
    constructor; [is_wrapper_call|]. constructor. }
  split; [exact Hc|]. split; [reflexivity|].
  destruct (one_shared_context (NativeLibrary0 := idle_library) calls
              initial_state tt Hc) as (_ & _ & H3).
  apply (H3 attached tt Vvoid). reflexivity.
Defined.

(** ** The error family, whatever the library *)

(** Whatever the library, the functions of the error family are the clear,
    the two reads and the stack-trace print; each of them hands the static
    [thread] and nothing else to its library function and leaves the
    statics as they are. *)
Lemma error_family_forwards_thread {World : Type} `{!NativeLibrary World}
    (st : backend_state) (w : World) :
  map fn_name (family "jgrapht_error_")
  = [ "jgrapht_error_clear_errno"; "jgrapht_error_get_errno";
      "jgrapht_error_get_errno_msg"; "jgrapht_error_print_stack_trace" ]
  /\ (exists r w',
        capi "jgrapht_capi_error_clear_errno" [Vptr (thread st)] w = (r, w')
        /\ jgrapht_error_clear_errno st w = Returned Vvoid st w')
  /\ (exists code w',
        capi "jgrapht_capi_error_get_errno" [Vptr (thread st)] w = (code, w')
        /\ jgrapht_error_get_errno st w = Returned code st w')
  /\ (exists msg w',
        capi "jgrapht_capi_error_get_errno_msg" [Vptr (thread st)] w = (msg, w')
        /\ jgrapht_error_get_errno_msg st w = Returned msg st w')
  /\ (exists r w',
        capi "jgrapht_capi_error_print_stack_trace" [Vptr (thread st)] w = (r, w')
        /\ jgrapht_error_print_stack_trace st w = Returned Vvoid st w').
Proof.
  split; [reflexivity|].
  repeat split; autounfold with wrappers; unfold ptr;
    match goal with |- context [capi ?f ?a ?w] => destruct (capi f a w) as [r w'] end;
    exists r, w'; split; reflexivity.
Qed.

(** ** The isolate lifecycle (C9) *)

Lemma backend_api_forward_names :
  Forall (fun d => fn_body d <> Native ->
                   fn_name d ∉ isolate_lifecycle_functions) backend_api.
Proof. apply (bool_decide_unpack _). vm_compute. exact I. Qed.

Section Lifecycle.
Context {World : Type} `{!NativeLibrary World}.

(** What GraalVM promises of [graal_create_isolate]: when it returns 0
    the calling thread is attached and its address has been stored
    through the third argument. *)
Hypothesis graal_create_isolate_attaches :
  forall w rc iso thr w',
    graal_create_isolate w = (rc, iso, thr, w') -> rc = 0 -> thr <> NULL.

Lemma isolate_create_attached (st : backend_state) (w : World) :
  thread st <> NULL -> jgrapht_isolate_create st w = Returned Vvoid st w.
Proof.
  intros H. unfold jgrapht_isolate_create.
  destruct (Z.eqb_spec (thread st) NULL); [contradiction | reflexivity].
Qed.

Lemma isolate_destroy_detached (st : backend_state) (w : World) :
  thread st = NULL -> jgrapht_isolate_destroy st w = Returned Vvoid st w.
Proof.
  intros H. unfold jgrapht_isolate_destroy. rewrite H. reflexivity.
Qed.

Lemma isolate_create_attaches (st st' : backend_state) (w w' : World)
    (v : cval) :
  jgrapht_isolate_create st w = Returned v st' w' -> thread st' <> NULL.
Proof.
  unfold jgrapht_isolate_create.
  destruct (Z.eqb_spec (thread st) NULL) as [Hn | Hn].
  - destruct (graal_create_isolate w) as [[[rc iso] thr] w1] eqn:Hg.
    destruct (Z.eqb_spec rc 0) as [Hrc | Hrc]; simpl; [|discriminate].
    intros [= _ <- _]. simpl.
    exact (graal_create_isolate_attaches w rc iso thr w1 Hg Hrc).
  - intros [= _ <- _]. exact Hn.
Qed.

Lemma run_decl_attached (d : fn_decl) (args : list cval) (v : cval)
    (st st' : backend_state) (w w' : World) :
  In d backend_api ->
  run_decl d args st w = Returned v st' w' ->
  is_attached st' =
    (if String.eqb (fn_name d) "jgrapht_isolate_create" then true
     else if String.eqb (fn_name d) "jgrapht_isolate_destroy" then false
     else is_attached st).
Proof.
  intros Hin. unfold run_decl.
  destruct (fn_body d) as [returns callee es|] eqn:Hb.
  - destruct (capi _ _ w) as [r w1]. intros [= _ <- _].
    assert (Hnl : ~ In (fn_name d) isolate_lifecycle_functions).
    { intros Hl. apply list_elem_of_In in Hin, Hl.
      pose proof backend_api_forward_names as Hf. rewrite Forall_forall in Hf.
      apply (Hf d Hin); [rewrite Hb; discriminate | exact Hl]. }
    destruct (String.eqb_spec (fn_name d) "jgrapht_isolate_create") as [He|_].
    { exfalso. apply Hnl. rewrite He. simpl. auto. }
    destruct (String.eqb_spec (fn_name d) "jgrapht_isolate_destroy") as [He|_].
    { exfalso. apply Hnl. rewrite He. simpl. auto. }
    reflexivity.
  - destruct (String.eqb (fn_name d) "jgrapht_isolate_create").
    { intros H. unfold is_attached.
      apply isolate_create_attaches in H.
      destruct (Z.eqb_spec (thread st') NULL); [contradiction | reflexivity]. }
    destruct (String.eqb (fn_name d) "jgrapht_isolate_destroy").
    { intros H. unfold is_attached.
      rewrite (isolate_destroy_detaches _ _ _ _ _ H). reflexivity. }
    unfold jgrapht_isolate_is_attached. intros [= _ <- _]. reflexivity.
Qed.

Lemma run_calls_attached (calls : list (fn_decl * list cval)) :
  Forall (fun c => In c.1 backend_api) calls ->
  forall st w rs st' w',
    run_calls calls st w = Returned rs st' w' ->
    is_attached st' = attached_after calls (is_attached st).
Proof.
  induction 1 as [|[d args] calls Hd _ IH]; intros st w rs st' w' Hrun.
  - injection Hrun as _ <- _. reflexivity.
  - cbn [run_calls attached_after fst] in *.
    destruct (run_decl d args st w) as [v st1 w1|] eqn:Hcall; [|discriminate].
    destruct (run_calls calls st1 w1) as [rs1 st2 w2|] eqn:Hrest; [|discriminate].
    injection Hrun as _ <- _.
    rewrite (IH _ _ _ _ _ Hrest).
    rewrite (run_decl_attached d args v st st1 w w1 Hd Hcall). reflexivity.
Qed.

(** C9: [jgrapht_isolate_create] on an attached context and
    [jgrapht_isolate_destroy] on a detached one change nothing, so that a
    second create after a create and a second destroy after a destroy are
    no-ops; and after any session that started detached,
    [jgrapht_isolate_is_attached] answers 1 exactly when the last of the
    create and destroy calls was a create. *)
Theorem isolate_lifecycle_idempotent :
  (forall st w, thread st <> NULL ->
     jgrapht_isolate_create st w = Returned Vvoid st w)
  /\ (forall st w, thread st = NULL ->
        jgrapht_isolate_destroy st w = Returned Vvoid st w)
  /\ (forall st w v st' w',
        jgrapht_isolate_create st w = Returned v st' w' ->
        jgrapht_isolate_create st' w' = Returned Vvoid st' w')
  /\ (forall st w v st' w',
        jgrapht_isolate_destroy st w = Returned v st' w' ->
        jgrapht_isolate_destroy st' w' = Returned Vvoid st' w')
  /\ (forall calls w rs st' w',
        Forall (fun c => In c.1 backend_api) calls ->
        run_calls calls initial_state w = Returned rs st' w' ->
        jgrapht_isolate_is_attached st' w' =
          Returned (Vint (if attached_after calls false then 1 else 0)) st' w').
Proof.
  split; [exact isolate_create_attached|].
  split; [exact isolate_destroy_detached|].
  split; [|split].
  - intros st w v st' w' H. apply isolate_create_attached.
    exact (isolate_create_attaches _ _ _ _ _ H).
  - intros st w v st' w' H. apply isolate_destroy_detached.
    exact (isolate_destroy_detaches _ _ _ _ _ H).
  - intros calls w rs st' w' Hc Hrun.
    pose proof (run_calls_attached calls Hc _ _ _ _ _ Hrun) as Ha.
    unfold jgrapht_isolate_is_attached. fold (is_attached st').
    rewrite Ha. reflexivity.
Qed.

End Lifecycle.

(** Create, destroy, create, create over the idle library: attached. *)
Lemma isolate_lifecycle_idempotent_witness :
  let create := Fn Tvoid "jgrapht_isolate_create" [] Native in
  let destroy := Fn Tvoid "jgrapht_isolate_destroy" [] Native in
  let calls := [(create, []); (destroy, []); (create, []); (create, [])] in
  let attached := {| isolate := 4096; thread := 8192 |} in
  (forall w rc iso thr w',
     graal_create_isolate (NativeLibrary := idle_library) w = (rc, iso, thr, w') ->
     rc = 0 -> thr <> NULL)
  /\ run_calls (NativeLibrary0 := idle_library) calls initial_state tt
     = Returned [Vvoid; Vvoid; Vvoid; Vvoid] attached tt
  /\ jgrapht_isolate_is_attached attached tt
     = Returned (Vint 1) attached tt.
Proof.
  intros create destroy calls attached.
  assert (Hg : forall w rc iso thr w',
             graal_create_isolate (NativeLibrary := idle_library) w
             = (rc, iso, thr, w') -> rc = 0 -> thr <> NULL).
  { intros w rc iso thr w' H _. injection H as _ _ <- _. discriminate. }
  split; [exact Hg|]. split; [reflexivity|].
  destruct (isolate_lifecycle_idempotent (NativeLibrary0 := idle_library) Hg)
    as (_ & _ & _ & _ & H5).
  apply (H5 calls tt [Vvoid; Vvoid; Vvoid; Vvoid] attached tt).
  - repeat (constructor; [in_list|]). constructor.
  - reflexivity.
Defined.

(** ** The engine's bookkeeping *)

Lemma to_int_range (n : Z) : in_range 32 (to_int n) = true.
Proof.
  unfold in_range, to_int, wrap. apply andb_true_iff.
  pose proof (Z.mod_pos_bound (n + 2 ^ (32 - 1)) (2 ^ 32) ltac:(lia)) as H.
  split; [apply Z.leb_le | apply Z.ltb_lt]; lia.
Qed.

Lemma to_int_idempotent (n : Z) : to_int (to_int n) = to_int n.
Proof. apply wrap_in_range; [lia | apply to_int_range]. Qed.

Lemma to_longlong_to_int (n : Z) : to_longlong (to_int n) = to_int n.
Proof.
  apply wrap_in_range; [lia|]. pose proof (to_int_range n) as H.
  unfold in_range in *. apply andb_true_iff in H as [H1 H2].
  apply Z.leb_le in H1. apply Z.ltb_lt in H2.
  apply andb_true_iff. split; [apply Z.leb_le | apply Z.ltb_lt]; lia.
Qed.

Lemma to_int_in_range (n : Z) : in_range 32 n = true -> to_int n = n.
Proof. apply wrap_in_range. lia. Qed.

Lemma to_longlong_in_range (n : Z) : in_range 64 n = true -> to_longlong n = n.
Proof. apply wrap_in_range. lia. Qed.

Lemma new_handle_fresh (c : Engine.Context) :
  Engine.new_handle c <> NULL /\ Engine.arena c !! Engine.new_handle c = None.
Proof.
  unfold Engine.new_handle.
  pose proof (is_fresh ({[NULL]} ∪ dom (Engine.arena c) : gset Z)) as H.
  split.
  - intros Heq. apply H. rewrite Heq. set_solver.
  - apply not_elem_of_dom. set_solver.
Qed.

Lemma in_context_run (t : Z) (f : Engine.operation) (w : Engine.World)
    (c c' : Engine.Context) (s : Engine.status) (m' : gmap Z cval) :
  Engine.contexts w !! t = Some c ->
  f c (Engine.memory w) = (s, c', m') ->
  Engine.in_context t f w =
    (Vint (Engine.status_code s),
     {| Engine.contexts := <[t := Engine.record_failure s c']> (Engine.contexts w);
        Engine.memory := m' |}).
Proof.
  intros Hc Hf. unfold Engine.in_context. rewrite Hc, Hf. reflexivity.
Qed.


Section EngineProperties.
Import Engine.
Variable max_flow : flow_algorithm -> graph -> Z -> Z -> flow_result.
Variable maximal_cliques : clique_algorithm -> graph -> list (gset Z).
Variable deadline_exceeded : clique_algorithm -> graph -> Z -> bool.
Let engine : NativeLibrary World :=
  library max_flow maximal_cliques deadline_exceeded.
#[local] Existing Instance engine.

(** ** Graph creation (C4) *)

(** C4: [jgrapht_graph_create] takes the four configuration flags and a
    result slot.  In an attached context it returns the success status and
    stores in the slot a handle that was not in use before and now denotes
    the empty graph with the given configuration; no other handle of the
    context changes. *)
Theorem graph_create_yields_new_empty_graph
    (directed allowing_self_loops allowing_multiple_edges weighted res : Z)
    (st : backend_state) (w : World) (c : Context) :
  contexts w !! thread st = Some c ->
  params_of "jgrapht_graph_create"
  = Some [ (Tint, "directed"); (Tint, "allowing_self_loops");
           (Tint, "allowing_multiple_edges"); (Tint, "weighted");
           (Tptr (Tptr Tvoid), "res") ]
  /\ exists h w' c',
       jgrapht_graph_create directed allowing_self_loops
         allowing_multiple_edges weighted res st w
       = Returned (Vint (status_code Success)) st w'
       /\ memory w' !! res = Some (Vptr h)
       /\ h <> NULL
       /\ arena c !! h = None
       /\ contexts w' !! thread st = Some c'
       /\ arena c' !! h
          = Some (OGraph (empty_graph (negb (to_int directed =? 0))
                            (negb (to_int allowing_self_loops =? 0))
                            (negb (to_int allowing_multiple_edges =? 0))
                            (negb (to_int weighted =? 0))))
       /\ forall h', h' <> h -> arena c' !! h' = arena c !! h'.
Proof.
  intros Hc. split; [reflexivity|].
  destruct (new_handle_fresh c) as [Hnull Hfresh].
  eexists (new_handle c), _, _. split.
  - change (jgrapht_graph_create directed allowing_self_loops
              allowing_multiple_edges weighted res st w)
      with (let (r, w') :=
              in_context (thread st)
                (graph_create [int directed; int allowing_self_loops;
                               int allowing_multiple_edges; int weighted;
                               ptr res]) w in
            Returned r st w').
    erewrite in_context_run; [reflexivity | exact Hc | reflexivity].
  - cbn [memory contexts record_failure alloc fst snd].
    rewrite !to_int_idempotent.
    split; [apply lookup_insert_eq|].
    split; [exact Hnull|]. split; [exact Hfresh|].
    split; [apply lookup_insert_eq|].
    cbn [arena with_arena].
    split; [apply lookup_insert_eq|].
    intros h' Hne. apply lookup_insert_ne. congruence.
Qed.


(** ** Attribute values (C3) *)

Lemma put_in_store (decode : cval -> option attr_value) (store element : Z)
    (key : string) (value : cval) (a : attr_value) (t : Z) (w : World)
    (c : Context) (attrs : gmap (Z * string) attr_value) :
  contexts w !! t = Some c ->
  arena c !! store = Some (OAttributeStore attrs) ->
  decode value = Some a ->
  exists w',
    in_context t
      (attributes_store_put decode [Vptr store; Vint element; Vstr key; value]) w
    = (Vint (status_code Success), w')
    /\ attribute w' t store (to_int element) key = Some a.
Proof.
  intros Hc Hs Hd. eexists. split.
  - eapply in_context_run; [exact Hc|].
    unfold attributes_store_put. rewrite Hs, Hd. reflexivity.
  - unfold attribute. cbv beta iota delta [contexts record_failure].
    rewrite lookup_insert_eq. cbv beta iota delta [arena with_arena].
    rewrite lookup_insert_eq. apply lookup_insert_eq.
Qed.

(** The sibling puts store what they are given: an [int], a double, a
    string, and the truth value of the [int] that carries a boolean. *)
Lemma sibling_puts_store_exactly (store element : Z) (key : string)
    (st : backend_state) (w : World) (c : Context)
    (attrs : gmap (Z * string) attr_value) :
  contexts w !! thread st = Some c ->
  arena c !! store = Some (OAttributeStore attrs) ->
  in_range 32 element = true ->
  (forall value, in_range 32 value = true ->
     exists w',
       jgrapht_attributes_store_put_int_attribute store element key value st w
       = Returned (Vint (status_code Success)) st w'
       /\ attribute w' (thread st) store element key = Some (AInt value))
  /\ (forall value, in_range 32 value = true ->
        exists w',
          jgrapht_attributes_store_put_boolean_attribute store element key value st w
          = Returned (Vint (status_code Success)) st w'
          /\ attribute w' (thread st) store element key
             = Some (ABoolean (negb (value =? 0))))
  /\ (forall bits,
        exists w',
          jgrapht_attributes_store_put_double_attribute store element key bits st w
          = Returned (Vint (status_code Success)) st w'
          /\ attribute w' (thread st) store element key = Some (ADouble bits))
  /\ (forall s,
        exists w',
          jgrapht_attributes_store_put_string_attribute store element key s st w
          = Returned (Vint (status_code Success)) st w'
          /\ attribute w' (thread st) store element key = Some (AString s)).
Proof.
  intros Hc Hs He.
  assert (Hel : to_int (to_int element) = element).
  { rewrite to_int_idempotent. apply to_int_in_range. exact He. }
  repeat split.
  - intros value Hv.
    destruct (put_in_store decode_int store (to_int element) key (int value)
                (AInt value) _ _ _ _ Hc Hs) as (w' & Hrun & Hattr).
    { unfold int, decode_int. rewrite to_int_idempotent, to_int_in_range by exact Hv.
      reflexivity. }
    exists w'. rewrite Hel in Hattr. split; [|exact Hattr].
    change (jgrapht_attributes_store_put_int_attribute store element key value st w)
      with (let (r, w1) :=
              in_context (thread st)
                (attributes_store_put decode_int
                   [Vptr store; Vint (to_int element); Vstr key; int value]) w in
            Returned r st w1).
    rewrite Hrun. reflexivity.
  - intros value Hv.
    destruct (put_in_store decode_boolean store (to_int element) key (int value)
                (ABoolean (negb (value =? 0))) _ _ _ _ Hc Hs) as (w' & Hrun & Hattr).
    { unfold int, decode_boolean.
      rewrite to_int_idempotent, to_int_in_range by exact Hv. reflexivity. }
    exists w'. rewrite Hel in Hattr. split; [|exact Hattr].
    change (jgrapht_attributes_store_put_boolean_attribute store element key value st w)
      with (let (r, w1) :=
              in_context (thread st)
                (attributes_store_put decode_boolean
                   [Vptr store; Vint (to_int element); Vstr key; int value]) w in
            Returned r st w1).
    rewrite Hrun. reflexivity.
  - intros bits.
    destruct (put_in_store decode_double store (to_int element) key (double bits)
                (ADouble bits) _ _ _ _ Hc Hs eq_refl) as (w' & Hrun & Hattr).
    exists w'. rewrite Hel in Hattr. split; [|exact Hattr].
    change (jgrapht_attributes_store_put_double_attribute store element key bits st w)
      with (let (r, w1) :=
              in_context (thread st)
                (attributes_store_put decode_double
                   [Vptr store; Vint (to_int element); Vstr key; double bits]) w in
            Returned r st w1).
    rewrite Hrun. reflexivity.
  - intros s.
    destruct (put_in_store decode_string store (to_int element) key (str s)
                (AString s) _ _ _ _ Hc Hs eq_refl) as (w' & Hrun & Hattr).
    exists w'. rewrite Hel in Hattr. split; [|exact Hattr].
    change (jgrapht_attributes_store_put_string_attribute store element key s st w)
      with (let (r, w1) :=
              in_context (thread st)
                (attributes_store_put decode_string
                   [Vptr store; Vint (to_int element); Vstr key; str s]) w in
            Returned r st w1).
    rewrite Hrun. reflexivity.
Qed.

(** What the long put stores for any value: the value reduced to 32 bits,
    because the parameter that receives it is declared [int]. *)
Lemma put_long_attribute_stores_low_word (store element : Z) (key : string)
    (value : Z) (st : backend_state) (w : World) (c : Context)
    (attrs : gmap (Z * string) attr_value) :
  contexts w !! thread st = Some c ->
  arena c !! store = Some (OAttributeStore attrs) ->
  in_range 32 element = true ->
  exists w',
    jgrapht_attributes_store_put_long_attribute store element key value st w
    = Returned (Vint (status_code Success)) st w'
    /\ attribute w' (thread st) store element key = Some (ALong (to_int value)).
Proof.
  intros Hc Hs He.
  destruct (put_in_store decode_long store (to_longlong element) key (int value)
              (ALong (to_int value)) _ _ _ _ Hc Hs) as (w' & Hrun & Hattr).
  { unfold int, decode_long. rewrite to_longlong_to_int. reflexivity. }
  exists w'. split.
  - change (jgrapht_attributes_store_put_long_attribute store element key value st w)
      with (let (r, w1) :=
              in_context (thread st)
                (attributes_store_put decode_long
                   [Vptr store; Vint (to_longlong element); Vstr key; int value]) w in
            Returned r st w1).
    rewrite Hrun. reflexivity.
  - rewrite <- Hattr. f_equal. symmetry.
    rewrite to_longlong_in_range.
    + apply to_int_in_range. exact He.
    + unfold in_range in *. apply andb_true_iff in He as [H1 H2].
      apply Z.leb_le in H1. apply Z.ltb_lt in H2.
      apply andb_true_iff. split; [apply Z.leb_le | apply Z.ltb_lt]; lia.
Qed.

End EngineProperties.

(** C3 at the 64-bit value 4294967301 (2^32 + 5): whatever the library
    does, the long put hands it the value 5, because the parameter [value]
    is declared [int]; with the reference engine the call reports success
    and the store then holds the long 5 under the key, not the value that
    was put. *)
Theorem put_long_attribute_loses_high_bits :
  (forall (World : Type) (L : NativeLibrary World) (st : backend_state)
          (w : World),
     jgrapht_attributes_store_put_long_attribute 16 7 "weight" 4294967301 st w
     = capi_call "jgrapht_capi_attributes_store_put_long_attribute"
         [Vptr (thread st); Vptr 16; Vint 7; Vstr "weight"; Vint 5] st w)
  /\ exists w',
       jgrapht_attributes_store_put_long_attribute 16 7 "weight" 4294967301
         Example.attached Example.world
       = Returned (Vint 0) Example.attached w'
       /\ Engine.attribute w' 8192 16 7 "weight" = Some (Engine.ALong 5)
       /\ Engine.ALong 5 <> Engine.ALong 4294967301.
Proof.
  split; [intros World L st w; reflexivity|].
  destruct (put_long_attribute_stores_low_word Example.zero_flow
              Example.singletons Example.overrun 16 7 "weight" 4294967301
              Example.attached Example.world Example.context ∅)
    as (w' & Hrun & Hattr); try reflexivity.
  exists w'. split; [exact Hrun|]. split; [exact Hattr|]. discriminate.
Qed.

(** A directed, weighted graph without loops and multiple edges, created
    in the example context. *)
Lemma graph_create_yields_new_empty_graph_witness :
  Engine.contexts Example.world !! thread Example.attached
  = Some Example.context
  /\ exists h w' c',
       jgrapht_graph_create 1 0 0 1 100 Example.attached Example.world
       = Returned (Vint 0) Example.attached w'
       /\ Engine.memory w' !! 100 = Some (Vptr h)
       /\ Engine.contexts w' !! 8192 = Some c'
       /\ Engine.arena c' !! h
          = Some (Engine.OGraph (Engine.empty_graph true false false true)).
Proof.
  assert (Hc : Engine.contexts Example.world !! thread Example.attached
               = Some Example.context) by reflexivity.
  split; [exact Hc|].
  destruct (graph_create_yields_new_empty_graph Example.zero_flow
              Example.singletons Example.overrun 1 0 0 1 100
              Example.attached Example.world Example.context Hc)
    as (_ & h & w' & c' & Hrun & Hmem & _ & _ & Hctx & Hg & _).
  exists h, w', c'. repeat split; assumption.
Defined.

(** ** Maximum flow (C5) *)

Lemma capacities_ok_spec (g : Engine.graph) :
  Engine.capacities_ok g = true <-> ~ Engine.negative_capacity g.
Proof.
  unfold Engine.capacities_ok, Engine.negative_capacity.
  rewrite bool_decide_eq_true. unfold map_Forall. split.
  - intros H (e & s & t & c & He & Hneg).
    specialize (H e (s, t, c) He). simpl in H. congruence.
  - intros H e [[s t] c] He. simpl.
    destruct (Engine.double_lt_zero c) eqn:Hneg; [|reflexivity].
    exfalso. apply H. exists e, s, t, c. auto.
Qed.

Section EngineAlgorithms.
Import Engine.
Variable max_flow : flow_algorithm -> graph -> Z -> Z -> flow_result.
Variable maximal_cliques : clique_algorithm -> graph -> list (gset Z).
Variable deadline_exceeded : clique_algorithm -> graph -> Z -> bool.
Let engine : NativeLibrary World :=
  library max_flow maximal_cliques deadline_exceeded.
#[local] Existing Instance engine.

Lemma maxflow_wrapper_engine (a : flow_algorithm)
    (g source sink valueRes flowMapRes cutSourcePartitionRes : Z)
    (st : backend_state) (w : World) :
  maxflow_wrapper a g source sink valueRes flowMapRes cutSourcePartitionRes st w
  = (let (r, w') :=
       in_context (thread st)
         (maxflow_exec max_flow a
            [Vptr g; int source; int sink; Vptr valueRes; Vptr flowMapRes;
             Vptr cutSourcePartitionRes]) w in
     Returned r st w').
Proof. destruct a; reflexivity. Qed.

Lemma maxflow_exec_rejects (a : flow_algorithm)
    (g source sink valueRes flowMapRes cutSourcePartitionRes : Z)
    (c : Context) (m : gmap Z cval) (gr : graph) :
  arena c !! g = Some (OGraph gr) ->
  in_range 32 source = true -> in_range 32 sink = true ->
  ~ (source <> sink /\ source ∈ vertices gr /\ sink ∈ vertices gr
     /\ weighted gr = true /\ ~ negative_capacity gr) ->
  maxflow_exec max_flow a
    [Vptr g; int source; int sink; Vptr valueRes; Vptr flowMapRes;
     Vptr cutSourcePartitionRes] c m
  = (IllegalArgument, c, m).
Proof.
  intros Hg Hs Ht Hpre. unfold maxflow_exec, int. rewrite Hg.
  rewrite !to_int_idempotent, (to_int_in_range _ Hs), (to_int_in_range _ Ht).
  destruct (bool_decide_reflect (source = sink)); [reflexivity|].
  destruct (bool_decide_reflect (source ∈ vertices gr)); [|reflexivity].
  destruct (bool_decide_reflect (sink ∈ vertices gr)); [|reflexivity].
  simpl. destruct (weighted gr) eqn:Hw; [|reflexivity].
  simpl. destruct (capacities_ok gr) eqn:Hcap; [|reflexivity].
  exfalso. apply Hpre. apply capacities_ok_spec in Hcap. auto.
Qed.

Lemma maxflow_exec_accepts (a : flow_algorithm)
    (g source sink valueRes flowMapRes cutSourcePartitionRes : Z)
    (c : Context) (m : gmap Z cval) (gr : graph) :
  arena c !! g = Some (OGraph gr) ->
  in_range 32 source = true -> in_range 32 sink = true ->
  source <> sink -> source ∈ vertices gr -> sink ∈ vertices gr ->
  weighted gr = true -> ~ negative_capacity gr ->
  let r := max_flow a gr source sink in
  let c1 := (alloc (OMap (Vdouble <$> flow_map r)) c).2 in
  let c2 := (alloc (OSet (source_partition r)) c1).2 in
  maxflow_exec max_flow a
    [Vptr g; int source; int sink; Vptr valueRes; Vptr flowMapRes;
     Vptr cutSourcePartitionRes] c m
  = (Success, c2,
     <[cutSourcePartitionRes := Vptr (new_handle c1)]>
       (<[flowMapRes := Vptr (new_handle c)]>
          (<[valueRes := Vdouble (flow_value r)]> m))).
Proof.
  intros Hg Hs Ht Hne Hsv Htv Hw Hcap. unfold maxflow_exec, int. rewrite Hg.
  rewrite !to_int_idempotent, (to_int_in_range _ Hs), (to_int_in_range _ Ht).
  rewrite (bool_decide_eq_false_2 _ Hne).
  rewrite (bool_decide_eq_true_2 _ Hsv), (bool_decide_eq_true_2 _ Htv).
  rewrite Hw. apply capacities_ok_spec in Hcap. rewrite Hcap. reflexivity.
Qed.

(** C5: each of the three maximum-flow wrappers takes a graph handle, the
    source and the sink, and three result slots: a [double*] and two
    [void**].  On a live graph handle the status is success exactly when
    source and sink differ and are vertices of the graph, the graph is
    weighted and no capacity is negative.  On success the three slots hold
    the flow value, a handle to the per-edge flow map and a handle to the
    source side of a minimum cut, the two handles being different; when
    source equals sink, a vertex is absent or a capacity is negative the
    status is non-zero. *)
Theorem maxflow_three_results_or_precondition_error (a : flow_algorithm)
    (g source sink valueRes flowMapRes cutSourcePartitionRes : Z)
    (st : backend_state) (w : World) (c : Context) (gr : graph) :
  contexts w !! thread st = Some c ->
  arena c !! g = Some (OGraph gr) ->
  in_range 32 source = true -> in_range 32 sink = true ->
  valueRes <> flowMapRes -> valueRes <> cutSourcePartitionRes ->
  flowMapRes <> cutSourcePartitionRes ->
  Forall (fun name =>
            params_of name
            = Some [ (Tptr Tvoid, "g"); (Tint, "source"); (Tint, "sink");
                     (Tptr Tdouble, "valueRes");
                     (Tptr (Tptr Tvoid), "flowMapRes");
                     (Tptr (Tptr Tvoid), "cutSourcePartitionRes") ])
    [ "jgrapht_maxflow_exec_push_relabel"; "jgrapht_maxflow_exec_dinic";
      "jgrapht_maxflow_exec_edmonds_karp" ]
  /\ exists s w',
       maxflow_wrapper a g source sink valueRes flowMapRes
         cutSourcePartitionRes st w
       = Returned (Vint (status_code s)) st w'
       /\ (s = Success <->
           source <> sink /\ source ∈ vertices gr /\ sink ∈ vertices gr
           /\ weighted gr = true /\ ~ negative_capacity gr)
       /\ (s = Success ->
           exists c' hf hc,
             contexts w' !! thread st = Some c'
             /\ memory w' !! valueRes
                = Some (Vdouble (flow_value (max_flow a gr source sink)))
             /\ memory w' !! flowMapRes = Some (Vptr hf)
             /\ memory w' !! cutSourcePartitionRes = Some (Vptr hc)
             /\ arena c' !! hf
                = Some (OMap (Vdouble <$> flow_map (max_flow a gr source sink)))
             /\ arena c' !! hc
                = Some (OSet (source_partition (max_flow a gr source sink)))
             /\ hf <> hc)
       /\ (source = sink \/ source ∉ vertices gr \/ sink ∉ vertices gr
           \/ negative_capacity gr ->
           status_code s <> 0).
Proof.
  intros Hc Hg Hs Ht Hvf Hvc Hfc.
  split; [repeat constructor|].
  rewrite maxflow_wrapper_engine.
  destruct (decide (source <> sink /\ source ∈ vertices gr /\ sink ∈ vertices gr
                    /\ weighted gr = true /\ capacities_ok gr = true))
    as [Hpre | Hpre].
  - destruct Hpre as (Hne & Hsv & Htv & Hw & Hcap).
    apply capacities_ok_spec in Hcap.
    pose proof (maxflow_exec_accepts a g source sink valueRes flowMapRes
                  cutSourcePartitionRes c (memory w) gr Hg Hs Ht Hne Hsv Htv
                  Hw Hcap) as Hrun.
    cbv zeta in Hrun.
    rewrite (in_context_run _ _ _ _ _ _ _ Hc Hrun).
    eexists Success, _. split; [reflexivity|].
    split; [tauto|]. split.
    + intros _.
      set (r := max_flow a gr source sink).
      set (c1 := (alloc (OMap (Vdouble <$> flow_map r)) c).2).
      destruct (new_handle_fresh c) as [_ Hf1].
      destruct (new_handle_fresh c1) as [_ Hf2].
      assert (H1 : arena c1 !! new_handle c
                   = Some (OMap (Vdouble <$> flow_map r))).
      { subst c1. unfold alloc. cbv beta iota zeta delta [snd arena with_arena].
        apply lookup_insert_eq. }
      assert (Hh : new_handle c <> new_handle c1) by congruence.
      eexists _, (new_handle c), (new_handle c1).
      cbv beta iota delta [contexts memory record_failure].
      split; [apply lookup_insert_eq|].
      split; [rewrite !lookup_insert_ne by congruence; apply lookup_insert_eq|].
      split; [rewrite lookup_insert_ne by congruence; apply lookup_insert_eq|].
      split; [apply lookup_insert_eq|].
      unfold alloc at 1. cbv beta iota zeta delta [snd arena with_arena].
      split; [rewrite lookup_insert_ne by congruence; exact H1|].
      split; [apply lookup_insert_eq | exact Hh].
    + intros [Heq | [Hsv' | [Htv' | Hneg]]]; contradiction.
  - assert (Hpre' : ~ (source <> sink /\ source ∈ vertices gr
                       /\ sink ∈ vertices gr /\ weighted gr = true
                       /\ ~ negative_capacity gr)).
    { intros (H1 & H2 & H3 & H4 & H5). apply Hpre.
      apply capacities_ok_spec in H5. auto. }
    pose proof (maxflow_exec_rejects a g source sink valueRes flowMapRes
                  cutSourcePartitionRes c (memory w) gr Hg Hs Ht Hpre') as Hrun.
    rewrite (in_context_run _ _ _ _ _ _ _ Hc Hrun).
    eexists IllegalArgument, _. split; [reflexivity|].
    split; [split; [discriminate | intros H; contradiction]|].
    split; [discriminate|]. intros _. discriminate.
Qed.


(** ** Budgeted algorithms (C6) *)

Lemma clique_wrapper_engine (a : clique_algorithm) (g timeout res : Z)
    (st : backend_state) (w : World) :
  clique_wrapper a g timeout res st w
  = (let (r, w') :=
       in_context (thread st)
         (clique_exec maximal_cliques deadline_exceeded a
            [Vptr g; longlong timeout; Vptr res]) w in
     Returned r st w').
Proof. destruct a; reflexivity. Qed.

(** C6: the functions of the backend that take a [timeout] are the three
    Bron-Kerbosch wrappers, and they take it as a 64-bit integer.  On a
    live graph handle, when the enumeration overruns the deadline the
    wrapper returns the [Timeout] status, which is not the success status,
    writes no result and leaves no object behind; otherwise it returns
    success and the slot holds a handle to the complete result. *)
Theorem clique_timeout_is_reported (a : clique_algorithm) (g timeout res : Z)
    (st : backend_state) (w : World) (c : Context) (gr : graph) :
  contexts w !! thread st = Some c ->
  arena c !! g = Some (OGraph gr) ->
  in_range 64 timeout = true ->
  functions_with_param "timeout"
  = [ "jgrapht_clique_exec_bron_kerbosch";
      "jgrapht_clique_exec_bron_kerbosch_pivot";
      "jgrapht_clique_exec_bron_kerbosch_pivot_degeneracy_ordering" ]
  /\ Forall (fun name =>
               params_of name
               = Some [ (Tptr Tvoid, "g"); (Tlonglong, "timeout");
                        (Tptr (Tptr Tvoid), "res") ])
       [ "jgrapht_clique_exec_bron_kerbosch";
         "jgrapht_clique_exec_bron_kerbosch_pivot";
         "jgrapht_clique_exec_bron_kerbosch_pivot_degeneracy_ordering" ]
  /\ (deadline_exceeded a gr timeout = true ->
      exists w' c',
        clique_wrapper a g timeout res st w
        = Returned (Vint (status_code Timeout)) st w'
        /\ status_code Timeout <> status_code Success
        /\ memory w' = memory w
        /\ contexts w' !! thread st = Some c'
        /\ arena c' = arena c
        /\ last_error c' = Timeout)
  /\ (deadline_exceeded a gr timeout = false ->
      exists h w' c',
        clique_wrapper a g timeout res st w
        = Returned (Vint (status_code Success)) st w'
        /\ memory w' !! res = Some (Vptr h)
        /\ contexts w' !! thread st = Some c'
        /\ arena c' !! h = Some (OCliques (maximal_cliques a gr))).
Proof.
  intros Hc Hg Ht.
  split; [vm_compute; reflexivity|]. split; [repeat constructor|].
  rewrite clique_wrapper_engine. unfold longlong.
  rewrite (to_longlong_in_range _ Ht).
  split.
  - intros Hlate. eexists _, _. split.
    + erewrite in_context_run; [reflexivity | exact Hc |].
      unfold clique_exec. rewrite Hg, (to_longlong_in_range _ Ht), Hlate.
      reflexivity.
    + cbv beta iota delta [contexts memory record_failure].
      split; [discriminate|]. split; [reflexivity|].
      split; [apply lookup_insert_eq|]. split; reflexivity.
  - intros Hlate. eexists (new_handle c), _, _. split.
    + erewrite in_context_run; [reflexivity | exact Hc |].
      unfold clique_exec. rewrite Hg, (to_longlong_in_range _ Ht), Hlate.
      reflexivity.
    + cbv beta iota delta [contexts memory record_failure].
      split; [apply lookup_insert_eq|].
      split; [apply lookup_insert_eq|].
      unfold alloc. cbv beta iota zeta delta [snd arena with_arena].
      apply lookup_insert_eq.
Qed.

(** ** Iterators (C7) *)

Lemma it_next_wrapper_engine (k : item_kind) (it res : Z)
    (st : backend_state) (w : World) :
  it_next_wrapper k it res st w
  = (let (r, w') := in_context (thread st) (it_next k [Vptr it; Vptr res]) w in
     Returned r st w').
Proof. destruct k; reflexivity. Qed.

(** C7: the iterator family is [hasnext] and [next], the latter in one
    variant per item kind, each with the slot of its kind.  On a live
    iterator [hasnext] succeeds, stores 1 or 0 in its slot according to
    whether an item remains, and changes nothing else: every context, the
    iterator included, is as before.  [next] on an exhausted iterator
    returns the non-zero [NoSuchElement] status; when an item of its kind
    is next, it succeeds, stores the item in the slot and leaves the
    iterator with the remaining items. *)
Theorem iterator_protocol (it res : Z) (st : backend_state) (w : World)
    (c : Context) (items : list cval) :
  contexts w !! thread st = Some c ->
  arena c !! it = Some (OIterator items) ->
  map (fun d => (fn_name d, fn_params d)) (family "jgrapht_it_")
  = [ ("jgrapht_it_next_int", [(Tptr Tvoid, "it"); (Tptr Tint, "res")]);
      ("jgrapht_it_next_double", [(Tptr Tvoid, "it"); (Tptr Tdouble, "res")]);
      ("jgrapht_it_next_object",
         [(Tptr Tvoid, "it"); (Tptr (Tptr Tvoid), "res")]);
      ("jgrapht_it_hasnext", [(Tptr Tvoid, "it"); (Tptr Tint, "res")]) ]
  /\ (exists w',
        jgrapht_it_hasnext it res st w
        = Returned (Vint (status_code Success)) st w'
        /\ memory w'
           = <[res := Vint (match items with [] => 0 | _ => 1 end)]> (memory w)
        /\ contexts w' = contexts w)
  /\ (forall k, items = [] ->
        exists w',
          it_next_wrapper k it res st w
          = Returned (Vint (status_code NoSuchElement)) st w'
          /\ status_code NoSuchElement <> 0)
  /\ (forall k v rest, items = v :: rest -> kind_of v = Some k ->
        exists w' c',
          it_next_wrapper k it res st w
          = Returned (Vint (status_code Success)) st w'
          /\ memory w' !! res = Some v
          /\ contexts w' !! thread st = Some c'
          /\ arena c' !! it = Some (OIterator rest)).
Proof.
  intros Hc Hit. split; [reflexivity|]. split; [|split].
  - eexists. split.
    + change (jgrapht_it_hasnext it res st w)
        with (let (r, w') :=
                in_context (thread st) (it_hasnext [Vptr it; Vptr res]) w in
              Returned r st w').
      erewrite in_context_run; [reflexivity | exact Hc |].
      unfold it_hasnext. rewrite Hit. reflexivity.
    + cbv beta iota delta [contexts memory record_failure].
      split; [reflexivity|]. apply insert_id. exact Hc.
  - intros k ->. eexists. split; [|discriminate].
    rewrite it_next_wrapper_engine.
    erewrite in_context_run; [reflexivity | exact Hc |].
    unfold it_next. rewrite Hit. reflexivity.
  - intros k v rest -> Hk. eexists _, _. split.
    + rewrite it_next_wrapper_engine.
      erewrite in_context_run; [reflexivity | exact Hc |].
      unfold it_next. rewrite Hit.
      destruct (decide (kind_of v = Some k)); [reflexivity | contradiction].
    + cbv beta iota delta [contexts memory record_failure].
      split; [apply lookup_insert_eq|].
      split; [apply lookup_insert_eq|].
      cbv beta iota delta [arena with_arena]. apply lookup_insert_eq.
Qed.

End EngineAlgorithms.

(** Dinic from 0 to 2 on the example path graph: three results. *)
Lemma maxflow_three_results_or_precondition_error_witness :
  Engine.contexts Example.world !! thread Example.attached
  = Some Example.context
  /\ Engine.arena Example.context !! 32
     = Some (Engine.OGraph Example.path_graph)
  /\ exists w' hf hc,
       jgrapht_maxflow_exec_dinic 32 0 2 100 108 116 Example.attached
         Example.world
       = Returned (Vint 0) Example.attached w'
       /\ Engine.memory w' !! 100 = Some (Vdouble 0)
       /\ Engine.memory w' !! 108 = Some (Vptr hf)
       /\ Engine.memory w' !! 116 = Some (Vptr hc)
       /\ hf <> hc.
Proof.
  assert (Hc : Engine.contexts Example.world !! thread Example.attached
               = Some Example.context) by reflexivity.
  assert (Hg : Engine.arena Example.context !! 32
               = Some (Engine.OGraph Example.path_graph)) by reflexivity.
  split; [exact Hc|]. split; [exact Hg|].
  destruct (maxflow_three_results_or_precondition_error Example.zero_flow
              Example.singletons Example.overrun Engine.Dinic
              32 0 2 100 108 116 Example.attached Example.world
              Example.context Example.path_graph Hc Hg)
    as (_ & s & w' & Hrun & Hiff & Hres & _);
    try reflexivity; try discriminate.
  assert (Hs : s = Engine.Success).
  { apply Hiff. split; [discriminate|].
    split; [apply (bool_decide_unpack _); vm_compute; exact I|].
    split; [apply (bool_decide_unpack _); vm_compute; exact I|].
    split; [reflexivity|].
    apply capacities_ok_spec. vm_compute. reflexivity. }
  destruct (Hres Hs) as (c' & hf & hc & _ & Hv & Hf & Hcut & _ & _ & Hne).
  exists w', hf, hc. rewrite Hs in Hrun. repeat split; assumption.
Defined.

(** Bron-Kerbosch on the example graph with a timeout of 5, which the
    stand-in enumeration overruns. *)
Lemma clique_timeout_is_reported_witness :
  Engine.contexts Example.world !! thread Example.attached
  = Some Example.context
  /\ Engine.arena Example.context !! 32
     = Some (Engine.OGraph Example.path_graph)
  /\ Example.overrun Engine.BronKerbosch Example.path_graph 5 = true
  /\ exists w',
       jgrapht_clique_exec_bron_kerbosch 32 5 100 Example.attached
         Example.world
       = Returned (Vint 5) Example.attached w'
       /\ Engine.memory w' = Engine.memory Example.world.
Proof.
  assert (Hc : Engine.contexts Example.world !! thread Example.attached
               = Some Example.context) by reflexivity.
  assert (Hg : Engine.arena Example.context !! 32
               = Some (Engine.OGraph Example.path_graph)) by reflexivity.
  assert (Hlate : Example.overrun Engine.BronKerbosch Example.path_graph 5
                  = true) by reflexivity.
  split; [exact Hc|]. split; [exact Hg|]. split; [exact Hlate|].
  destruct (clique_timeout_is_reported Example.zero_flow Example.singletons
              Example.overrun Engine.BronKerbosch 32 5 100 Example.attached
              Example.world Example.context Example.path_graph Hc Hg)
    as (_ & _ & Hto & _); [reflexivity|].
  destruct (Hto Hlate) as (w' & c' & Hrun & _ & Hmem & _).
  exists w'. split; assumption.
Defined.

(** [hasnext] and [next_int] on the example iterator over 7 and 9. *)
Lemma iterator_protocol_witness :
  Engine.contexts Example.world !! thread Example.attached
  = Some Example.context
  /\ Engine.arena Example.context !! 64
     = Some (Engine.OIterator [Vint 7; Vint 9])
  /\ (exists w',
        jgrapht_it_hasnext 64 100 Example.attached Example.world
        = Returned (Vint 0) Example.attached w'
        /\ Engine.memory w' = <[100 := Vint 1]> (Engine.memory Example.world)
        /\ Engine.contexts w' = Engine.contexts Example.world)
  /\ (exists w' c',
        jgrapht_it_next_int 64 100 Example.attached Example.world
        = Returned (Vint 0) Example.attached w'
        /\ Engine.memory w' !! 100 = Some (Vint 7)
        /\ Engine.contexts w' !! 8192 = Some c'
        /\ Engine.arena c' !! 64 = Some (Engine.OIterator [Vint 9])).
Proof.
  assert (Hc : Engine.contexts Example.world !! thread Example.attached
               = Some Example.context) by reflexivity.
  assert (Hit : Engine.arena Example.context !! 64
                = Some (Engine.OIterator [Vint 7; Vint 9])) by reflexivity.
  split; [exact Hc|]. split; [exact Hit|].
  destruct (iterator_protocol Example.zero_flow Example.singletons
              Example.overrun 64 100 Example.attached Example.world
              Example.context [Vint 7; Vint 9] Hc Hit)
    as (_ & Hhas & _ & Hnext).
  split; [exact Hhas|].
  exact (Hnext Engine.KInt (Vint 7) [Vint 9] eq_refl eq_refl).
Defined.

(** ** Beyond the claims: the two statics *)

Section Statics.
Context {World : Type} `{!NativeLibrary World}.

(** The statics after one call, when it returns. *)
Lemma run_decl_one_isolate (d : fn_decl) (args : list cval) (v : cval)
    (st st' : backend_state) (w w' : World) :
  one_isolate st ->
  run_decl d args st w = Returned v st' w' ->
  one_isolate st'.
Proof.
  intros Hinv. unfold run_decl.
  destruct (fn_body d) as [returns callee es|].
  - destruct (capi _ _ w) as [r w1]. intros [= _ <- _]. exact Hinv.
  - destruct (String.eqb (fn_name d) "jgrapht_isolate_create").
    { unfold jgrapht_isolate_create.
      destruct (thread st =? NULL).
      - destruct (graal_create_isolate w) as [[[rc iso] thr] w1] eqn:Hg.
        destruct (Z.eqb_spec rc 0) as [-> | _]; simpl; [|discriminate].
        intros [= _ <- _]. right. exists w, w1. exact Hg.
      - intros [= _ <- _]. exact Hinv. }
    destruct (String.eqb (fn_name d) "jgrapht_isolate_destroy").
    { unfold jgrapht_isolate_destroy.
      destruct (thread st =? NULL); simpl.
      - intros [= _ <- _]. exact Hinv.
      - destruct (graal_detach_thread (thread st) w) as [rc w1].
        destruct (rc =? 0); simpl; [|discriminate].
        intros [= _ <- _]. left. reflexivity. }
    unfold jgrapht_isolate_is_attached. intros [= _ <- _]. exact Hinv.
Qed.

(** X3: the two statics always belong together.  After any session that
    started with the statics holding one isolate, both [NULL] in
    particular, they are both [NULL] or they are the isolate and the
    thread that one successful [graal_create_isolate] stored; no call ever
    leaves them mixed from two creations. *)
Theorem statics_hold_one_isolate (calls : list (fn_decl * list cval)) :
  forall (st : backend_state) (w : World) (rs : list cval)
         (st' : backend_state) (w' : World),
    one_isolate st ->
    run_calls calls st w = Returned rs st' w' ->
    one_isolate st'.
Proof.
  induction calls as [|[d args] calls IH]; intros st w rs st' w' Hinv Hrun.
  - injection Hrun as _ <- _. exact Hinv.
  - cbn [run_calls] in Hrun.
    destruct (run_decl d args st w) as [v st1 w1|] eqn:Hcall; [|discriminate].
    destruct (run_calls calls st1 w1) as [rs1 st2 w2|] eqn:Hrest; [|discriminate].
    injection Hrun as _ <- _.
    apply (IH st1 w1 rs1 st2 w2); [|exact Hrest].
    exact (run_decl_one_isolate d args v st st1 w w1 Hinv Hcall).
Qed.

Lemma eval_same_thread (st1 st2 : backend_state) (env : list (string * cval))
    (es : list expr) :
  thread st1 = thread st2 ->
  map (eval st1 env) es = map (eval st2 env) es.
Proof.
  intros Ht. apply map_ext. intros [|x]; simpl; [rewrite Ht|]; reflexivity.
Qed.

Lemma run_decl_ignores_isolate (d : fn_decl) (args : list cval)
    (st1 st2 : backend_state) (w : World) :
  thread st1 = thread st2 ->
  same_up_to_isolate (run_decl d args st1 w) (run_decl d args st2 w).
Proof.
  intros Ht. unfold run_decl.
  destruct (fn_body d) as [returns callee es|].
  - rewrite (eval_same_thread st1 st2 _ es Ht).
    destruct (capi _ _ w) as [r w1]. simpl. auto.
  - destruct (String.eqb (fn_name d) "jgrapht_isolate_create").
    { unfold jgrapht_isolate_create. rewrite <- Ht.
      destruct (thread st1 =? NULL); [|simpl; auto].
      destruct (graal_create_isolate w) as [[[rc iso] thr] w1].
      destruct (rc =? 0); simpl; auto. }
    destruct (String.eqb (fn_name d) "jgrapht_isolate_destroy").
    { unfold jgrapht_isolate_destroy. rewrite <- Ht.
      destruct (thread st1 =? NULL); simpl; [auto|].
      destruct (graal_detach_thread (thread st1) w) as [rc w1].
      destruct (rc =? 0); simpl; auto. }
    unfold jgrapht_isolate_is_attached. rewrite <- Ht. simpl. auto.
Qed.

(** X4: the static [isolate] is written but never read.  Two sessions of
    the same calls that start with the same [thread] and different
    [isolate] values return the same values, leave the library in the same
    state and the same [thread] behind, or end the process alike. *)
Theorem isolate_is_never_read (calls : list (fn_decl * list cval)) :
  forall (st1 st2 : backend_state) (w : World),
    thread st1 = thread st2 ->
    same_up_to_isolate (run_calls calls st1 w) (run_calls calls st2 w).
Proof.
  induction calls as [|[d args] calls IH]; intros st1 st2 w Ht.
  - simpl. auto.
  - cbn [run_calls].
    pose proof (run_decl_ignores_isolate d args st1 st2 w Ht) as Hcall.
    destruct (run_decl d args st1 w) as [v1 s1 w1|c1 e1];
      destruct (run_decl d args st2 w) as [v2 s2 w2|c2 e2];
      simpl in Hcall; try contradiction.
    + destruct Hcall as (-> & -> & Ht1).
      pose proof (IH s1 s2 w2 Ht1) as Hrest.
      destruct (run_calls calls s1 w2) as [rs1 t1 u1|c1 e1];
        destruct (run_calls calls s2 w2) as [rs2 t2 u2|c2 e2];
        simpl in Hrest; try contradiction; simpl.
      * destruct Hrest as (-> & -> & Ht2). auto.
      * exact Hrest.
    + exact Hcall.
Qed.

End Statics.

(** Create, then a graph creation, from the initial state over the idle
    library. *)
Lemma statics_hold_one_isolate_witness :
  let create := Fn Tvoid "jgrapht_isolate_create" [] Native in
  let graph := Fn Tint "jgrapht_graph_create"
             [(Tint, "directed"); (Tint, "allowing_self_loops");
              (Tint, "allowing_multiple_edges"); (Tint, "weighted");
              (Tptr (Tptr Tvoid), "res")]
             (Forward true "jgrapht_capi_graph_create"
                [Ethread; Evar "directed"; Evar "allowing_self_loops";
                 Evar "allowing_multiple_edges"; Evar "weighted"; Evar "res"]) in
  one_isolate (NativeLibrary0 := idle_library) initial_state
  /\ one_isolate (NativeLibrary0 := idle_library)
       {| isolate := 4096; thread := 8192 |}.
Proof.
  intros create graph.
  assert (H0 : one_isolate (NativeLibrary0 := idle_library) initial_state)
    by (left; reflexivity).
  split; [exact H0|].
  apply (statics_hold_one_isolate (NativeLibrary0 := idle_library)
           [(create, []); (graph, [Vint 1; Vint 0; Vint 0; Vint 1; Vptr 64])]
           initial_state tt [Vvoid; Vint 0]
           {| isolate := 4096; thread := 8192 |} tt H0).
  reflexivity.
Defined.

(** The same two calls from two states that differ in [isolate] only. *)
Lemma isolate_is_never_read_witness :
  let destroy := Fn Tvoid "jgrapht_isolate_destroy" [] Native in
  let count := Fn Tint "jgrapht_graph_vertices_count"
             [(Tptr Tvoid, "g"); (Tptr Tint, "res")]
             (Forward true "jgrapht_capi_graph_vertices_count"
                [Ethread; Evar "g"; Evar "res"]) in
  same_up_to_isolate
    (run_calls (NativeLibrary0 := idle_library)
       [(count, [Vptr 16; Vptr 64]); (destroy, [])]
       {| isolate := 4096; thread := 8192 |} tt)
    (run_calls (NativeLibrary0 := idle_library)
       [(count, [Vptr 16; Vptr 64]); (destroy, [])]
       {| isolate := 0; thread := 8192 |} tt).
Proof.
  intros destroy count.
  apply (isolate_is_never_read (NativeLibrary0 := idle_library)).
  reflexivity.
Defined.

(** ** Beyond the claims: how a session ends *)

Section SessionExit.
Context {World : Type} `{!NativeLibrary World}.

(** Why one call ended the process. *)
Lemma run_decl_exit_cause (d : fn_decl) (args : list cval)
    (st : backend_state) (w : World) (code : Z) (err : string) :
  run_decl d args st w = Exited code err ->
  code = EXIT_FAILURE
  /\ ((fn_name d = "jgrapht_isolate_create"
       /\ thread st = NULL
       /\ (graal_create_isolate w).1.1.1 <> 0
       /\ err = "graal_create_isolate error" +:+ newline)
      \/ (fn_name d = "jgrapht_isolate_destroy"
          /\ thread st <> NULL
          /\ (graal_detach_thread (thread st) w).1 <> 0
          /\ err = "graal_detach_thread error" +:+ newline)).
Proof.
  unfold run_decl.
  destruct (fn_body d) as [returns callee es|].
  { destruct (capi _ _ w). discriminate. }
  destruct (String.eqb_spec (fn_name d) "jgrapht_isolate_create") as [Hn|_].
  { unfold jgrapht_isolate_create.
    destruct (Z.eqb_spec (thread st) NULL) as [Ht|_]; [|discriminate].
    destruct (graal_create_isolate w) as [[[rc iso] thr] w1].
    destruct (Z.eqb_spec rc 0) as [|Hrc]; simpl; [discriminate|].
    intros [= <- <-]. split; [reflexivity|]. left. auto. }
  destruct (String.eqb_spec (fn_name d) "jgrapht_isolate_destroy") as [Hn|_].
  { unfold jgrapht_isolate_destroy.
    destruct (Z.eqb_spec (thread st) NULL) as [|Ht]; simpl; [discriminate|].
    destruct (graal_detach_thread (thread st) w) as [rc w1].
    destruct (Z.eqb_spec rc 0) as [|Hrc]; simpl; [discriminate|].
    intros [= <- <-]. split; [reflexivity|]. right. auto. }
  discriminate.
Qed.

(** X2: a session ends the process only in one of two ways.  The call at
    which it ends is a [jgrapht_isolate_create] made while no thread is
    attached whose [graal_create_isolate] returns non-zero, or a
    [jgrapht_isolate_destroy] made while a thread is attached whose
    [graal_detach_thread] returns non-zero; every call before it has
    returned, the exit code is [EXIT_FAILURE] and the line on [stderr]
    names the function that failed. *)
Theorem session_exit_cause (calls : list (fn_decl * list cval)) :
  forall (st : backend_state) (w : World) (code : Z) (err : string),
    run_calls calls st w = Exited code err ->
    code = EXIT_FAILURE
    /\ exists before d args after rs st1 w1,
         calls = (before ++ (d, args) :: after)%list
         /\ run_calls before st w = Returned rs st1 w1
         /\ ((fn_name d = "jgrapht_isolate_create"
              /\ thread st1 = NULL
              /\ (graal_create_isolate w1).1.1.1 <> 0
              /\ err = "graal_create_isolate error" +:+ newline)
             \/ (fn_name d = "jgrapht_isolate_destroy"
                 /\ thread st1 <> NULL
                 /\ (graal_detach_thread (thread st1) w1).1 <> 0
                 /\ err = "graal_detach_thread error" +:+ newline)).
Proof.
  induction calls as [|[d args] calls IH]; intros st w code err Hrun.
  - discriminate.
  - cbn [run_calls] in Hrun.
    destruct (run_decl d args st w) as [v st1 w1|c e] eqn:Hcall.
    + destruct (run_calls calls st1 w1) as [rs1 st2 w2|c e] eqn:Hrest;
        [discriminate|].
      injection Hrun as <- <-.
      destruct (IH st1 w1 c e Hrest)
        as (Hcode & before & d' & args' & after & rs & st3 & w3 & Heq & Hb & Hc).
      split; [exact Hcode|].
      exists ((d, args) :: before), d', args', after, (v :: rs), st3, w3.
      split; [rewrite Heq; reflexivity|].
      split; [|exact Hc].
      cbn [run_calls]. rewrite Hcall, Hb. reflexivity.
    + injection Hrun as <- <-.
      destruct (run_decl_exit_cause d args st w c e Hcall) as [Hcode Hc].
      split; [exact Hcode|].
      exists [], d, args, calls, [], st, w.
      split; [reflexivity|]. split; [reflexivity | exact Hc].
Qed.

End SessionExit.

(** A vertex count and then a create, over a library whose isolate
    creation fails. *)
Lemma session_exit_cause_witness :
  let create := Fn Tvoid "jgrapht_isolate_create" [] Native in
  let count := Fn Tint "jgrapht_graph_vertices_count"
             [(Tptr Tvoid, "g"); (Tptr Tint, "res")]
             (Forward true "jgrapht_capi_graph_vertices_count"
                [Ethread; Evar "g"; Evar "res"]) in
  let calls := [(count, [Vptr 16; Vptr 64]); (create, []); (count, [])] in
  run_calls (NativeLibrary0 := refusing_library) calls initial_state tt
  = Exited 1 ("graal_create_isolate error" +:+ newline)
  /\ EXIT_FAILURE = 1.
Proof.
  intros create count calls.
  assert (Hrun : run_calls (NativeLibrary0 := refusing_library) calls
                   initial_state tt
                 = Exited 1 ("graal_create_isolate error" +:+ newline))
    by reflexivity.
  split; [exact Hrun|].
  destruct (session_exit_cause (NativeLibrary0 := refusing_library) calls
              initial_state tt 1 _ Hrun) as [Hcode _].
  symmetry. exact Hcode.
Defined.

(** ** Beyond the claims: attach and detach *)

Section AttachDetach.
Context {World : Type} `{!NativeLibrary World}.

Hypothesis graal_create_isolate_attaches :
  forall w rc iso thr w',
    graal_create_isolate w = (rc, iso, thr, w') -> rc = 0 -> thr <> NULL.

(** X5: create and then destroy is a round trip.  When both return,
    starting detached, the destroy has detached exactly the thread that the
    create attached, both calls of the library succeeded, and the statics
    are [NULL] again as at program start. *)
Theorem create_destroy_round_trip (st st1 st2 : backend_state)
    (w w1 w2 : World) (v1 v2 : cval) :
  thread st = NULL ->
  jgrapht_isolate_create st w = Returned v1 st1 w1 ->
  jgrapht_isolate_destroy st1 w1 = Returned v2 st2 w2 ->
  st2 = initial_state
  /\ graal_create_isolate w = (0, isolate st1, thread st1, w1)
  /\ graal_detach_thread (thread st1) w1 = (0, w2).
Proof.
  intros Hdet Hcreate Hdestroy.
  unfold jgrapht_isolate_create in Hcreate. rewrite Hdet in Hcreate.
  simpl in Hcreate.
  destruct (graal_create_isolate w) as [[[rc iso] thr] w'] eqn:Hg.
  destruct (Z.eqb_spec rc 0) as [Hrc | Hrc]; simpl in Hcreate; [|discriminate].
  injection Hcreate as _ <- <-. subst rc.
  pose proof (graal_create_isolate_attaches w 0 iso thr w' Hg eq_refl) as Hthr.
  unfold jgrapht_isolate_destroy in Hdestroy. cbn [thread] in *.
  destruct (Z.eqb_spec thr NULL) as [|_]; [contradiction|].
  simpl in Hdestroy.
  destruct (graal_detach_thread thr w') as [rc w''] eqn:Hd.
  destruct (Z.eqb_spec rc 0) as [Hrc | Hrc]; simpl in Hdestroy; [|discriminate].
  injection Hdestroy as _ <- <-. subst rc.
  split; [reflexivity|]. split; reflexivity.
Qed.

End AttachDetach.

(** Create and destroy from the initial state over the idle library. *)
Lemma create_destroy_round_trip_witness :
  let attached := {| isolate := 4096; thread := 8192 |} in
  (forall w rc iso thr w',
     graal_create_isolate (NativeLibrary := idle_library) w = (rc, iso, thr, w') ->
     rc = 0 -> thr <> NULL)
  /\ jgrapht_isolate_create (NativeLibrary0 := idle_library) initial_state tt
     = Returned Vvoid attached tt
  /\ jgrapht_isolate_destroy (NativeLibrary0 := idle_library) attached tt
     = Returned Vvoid initial_state tt
  /\ graal_detach_thread (NativeLibrary := idle_library) 8192 tt = (0, tt).
Proof.
  intros attached.
  assert (Hg : forall w rc iso thr w',
             graal_create_isolate (NativeLibrary := idle_library) w
             = (rc, iso, thr, w') -> rc = 0 -> thr <> NULL).
  { intros w rc iso thr w' H _. injection H as _ _ <- _. discriminate. }
  split; [exact Hg|]. split; [reflexivity|]. split; [reflexivity|].
  destruct (create_destroy_round_trip (NativeLibrary0 := idle_library) Hg
              initial_state attached initial_state tt tt tt Vvoid Vvoid
              eq_refl eq_refl eq_refl) as (_ & _ & Hd).
  exact Hd.
Defined.

(** ** Beyond the claims: the width of the long put *)

Lemma wrap_add_multiple (bits n k : Z) :
  0 < bits -> wrap bits (n + k * 2 ^ bits) = wrap bits n.
Proof.
  intros Hb. unfold wrap.
  replace (n + k * 2 ^ bits + 2 ^ (bits - 1))
    with (n + 2 ^ (bits - 1) + k * 2 ^ bits) by lia.
  rewrite Z.mod_add; [reflexivity|].
  apply Z.pow_nonzero; lia.
Qed.

(** X6: [jgrapht_attributes_store_put_long_attribute] ignores the high
    bits of the value.  Two values that differ by a multiple of 2^32 make
    the very same call of the library, whatever the library is: every
    64-bit value shares its call with other 64-bit values. *)
Theorem put_long_attribute_ignores_high_bits {World : Type}
    `{!NativeLibrary World} (store element : Z) (key : string) (value k : Z)
    (st : backend_state) (w : World) :
  jgrapht_attributes_store_put_long_attribute store element key
    (value + k * 2 ^ 32) st w
  = jgrapht_attributes_store_put_long_attribute store element key value st w.
Proof.
  unfold jgrapht_attributes_store_put_long_attribute, int, to_int.
  rewrite (wrap_add_multiple 32 value k) by lia. reflexivity.
Qed.

(** ** Beyond the claims: the use of the GraalVM interface *)

Lemma follows_protocol_app (log1 log2 : list event) :
  forall current mid,
    follows_protocol current log1 = Some mid ->
    follows_protocol current (log1 ++ log2) = follows_protocol mid log2.
Proof.
  induction log1 as [|e log1 IH]; intros current mid H.
  - injection H as <-. reflexivity.
  - rewrite <- app_comm_cons. destruct e as [rc iso thr | t rc | f args];
      cbn [follows_protocol] in *.
    + destruct ((current =? NULL) && (rc =? 0)); [|discriminate].
      apply IH. exact H.
    + destruct (negb (current =? NULL) && (t =? current) && (rc =? 0));
        [|discriminate].
      apply IH. exact H.
    + destruct args as [|[| | |t|] args]; try discriminate.
      destruct (t =? current); [|discriminate].
      apply IH. exact H.
Qed.

Lemma backend_api_thread_first :
  Forall (fun d => match fn_body d with
                   | Forward _ _ (Ethread :: _) => True
                   | Forward _ _ _ => False
                   | Native => True
                   end) backend_api.
Proof.
  apply Forall_forall. intros d Hd.
  pose proof backend_api_forwards as Hf. rewrite Forall_forall in Hf.
  pose proof backend_api_forward_names as Hn. rewrite Forall_forall in Hn.
  destruct (fn_body d) as [returns callee es|] eqn:Hb; [|exact I].
  destruct (Hf d Hd) as [Hl | (r & Hbody & _)].
  - exfalso. apply (Hn d Hd); [rewrite Hb; discriminate | exact Hl].
  - rewrite Hb in Hbody. injection Hbody as _ _ ->. exact I.
Qed.

Section Protocol.
Context {World : Type} (L : NativeLibrary World).

(** One call over the logging library: it does what it does over [L], and
    the events it adds follow the protocol. *)
Lemma run_decl_traced (d : fn_decl) (args : list cval) (st : backend_state)
    (log : list event) (w : World) :
  In d backend_api ->
  match run_decl (NativeLibrary0 := tracing L) d args st (log, w) with
  | Returned r st' (log', w') =>
      run_decl (NativeLibrary0 := L) d args st w = Returned r st' w'
      /\ exists evs, log' = (log ++ evs)%list
                     /\ follows_protocol (thread st) evs = Some (thread st')
  | Exited code err =>
      run_decl (NativeLibrary0 := L) d args st w = Exited code err
  end.
Proof.
  intros Hin. apply list_elem_of_In in Hin.
  pose proof backend_api_thread_first as Hf. rewrite Forall_forall in Hf.
  specialize (Hf d Hin). unfold run_decl.
  destruct (fn_body d) as [returns callee es|].
  - destruct es as [|[|x] es]; try contradiction.
    cbn [map eval capi tracing fst snd].
    destruct (@capi World L callee _ w) as [r w'].
    split; [reflexivity|]. eexists. split; [reflexivity|].
    cbn [follows_protocol]. rewrite Z.eqb_refl. reflexivity.
  - destruct (String.eqb (fn_name d) "jgrapht_isolate_create").
    { unfold jgrapht_isolate_create.
      destruct (Z.eqb_spec (thread st) NULL) as [Ht | Ht].
      - cbn [graal_create_isolate tracing fst snd].
        destruct (@graal_create_isolate World L w) as [[[rc iso] thr] w'].
        destruct (Z.eqb_spec rc 0) as [-> | Hrc]; simpl; [|reflexivity].
        split; [reflexivity|]. eexists. split; [reflexivity|].
        cbn [follows_protocol]. rewrite Ht. reflexivity.
      - split; [reflexivity|]. exists []. split; [symmetry; apply app_nil_r|].
        reflexivity. }
    destruct (String.eqb (fn_name d) "jgrapht_isolate_destroy").
    { unfold jgrapht_isolate_destroy.
      destruct (Z.eqb_spec (thread st) NULL) as [Ht | Ht]; simpl.
      - split; [reflexivity|]. exists []. split; [symmetry; apply app_nil_r|].
        reflexivity.
      - cbn [graal_detach_thread tracing fst snd].
        destruct (@graal_detach_thread World L (thread st) w) as [rc w'].
        destruct (Z.eqb_spec rc 0) as [-> | Hrc]; simpl; [|reflexivity].
        split; [reflexivity|]. eexists. split; [reflexivity|].
        cbn [follows_protocol].
        destruct (Z.eqb_spec (thread st) NULL); [contradiction|].
        rewrite Z.eqb_refl. reflexivity. }
    unfold jgrapht_isolate_is_attached.
    split; [reflexivity|]. exists []. split; [symmetry; apply app_nil_r|].
    reflexivity.
Qed.

(** X9: the backend uses the library in a disciplined way.  In every
    session that returns, it creates an isolate only while no thread is
    attached, it detaches only the thread that the last creation attached,
    and every other call carries that thread, or [NULL] while none is
    attached, as its first argument.  Keeping the log changes nothing in
    what the session does. *)
Theorem graal_protocol_is_followed (calls : list (fn_decl * list cval)) :
  forall (st : backend_state) (log : list event) (w : World)
         (rs : list cval) (st' : backend_state) (log' : list event)
         (w' : World),
    Forall (fun c => In c.1 backend_api) calls ->
    run_calls (NativeLibrary0 := tracing L) calls st (log, w)
    = Returned rs st' (log', w') ->
    run_calls (NativeLibrary0 := L) calls st w = Returned rs st' w'
    /\ exists evs, log' = (log ++ evs)%list
                   /\ follows_protocol (thread st) evs = Some (thread st').
Proof.
  induction calls as [|[d args] calls IH];
    intros st log w rs st' log' w' Hc Hrun.
  - injection Hrun as <- <- <- <-. split; [reflexivity|].
    exists []. split; [symmetry; apply app_nil_r | reflexivity].
  - apply Forall_cons in Hc as [Hd Hc]. cbn [fst] in Hd.
    cbn [run_calls] in *.
    pose proof (run_decl_traced d args st log w Hd) as Hcall.
    destruct (run_decl (NativeLibrary0 := tracing L) d args st (log, w))
      as [v st1 [log1 w1]|c e]; [|discriminate].
    destruct Hcall as (Hl & evs1 & -> & Hp1).
    destruct (run_calls (NativeLibrary0 := tracing L) calls st1
                ((log ++ evs1)%list, w1)) as [rs1 st2 [log2 w2]|c e] eqn:Hrest;
      [|discriminate].
    injection Hrun as <- <- <- <-.
    destruct (IH st1 _ w1 rs1 st2 log2 w2 Hc Hrest) as (Hl2 & evs2 & -> & Hp2).
    split.
    + rewrite Hl, Hl2. reflexivity.
    + exists (evs1 ++ evs2)%list. split; [symmetry; apply app_assoc|].
      rewrite (follows_protocol_app evs1 evs2 _ _ Hp1). exact Hp2.
Qed.

End Protocol.

(** A count before the create, one after it, a second create, a destroy
    and a count after it, over the idle library. *)
Lemma graal_protocol_is_followed_witness :
  let create := Fn Tvoid "jgrapht_isolate_create" [] Native in
  let destroy := Fn Tvoid "jgrapht_isolate_destroy" [] Native in
  let count := Fn Tint "jgrapht_graph_vertices_count"
             [(Tptr Tvoid, "g"); (Tptr Tint, "res")]
             (Forward true "jgrapht_capi_graph_vertices_count"
                [Ethread; Evar "g"; Evar "res"]) in
  let calls := [(count, [Vptr 16; Vptr 64]); (create, []);
                (count, [Vptr 16; Vptr 64]); (create, []); (destroy, []);
                (count, [Vptr 16; Vptr 64])] in
  let log := [Called "jgrapht_capi_graph_vertices_count"
                [Vptr 0; Vptr 16; Vptr 64];
              Created 0 4096 8192;
              Called "jgrapht_capi_graph_vertices_count"
                [Vptr 8192; Vptr 16; Vptr 64];
              Detached 8192 0;
              Called "jgrapht_capi_graph_vertices_count"
                [Vptr 0; Vptr 16; Vptr 64]] in
  Forall (fun c => In c.1 backend_api) calls
  /\ run_calls (NativeLibrary0 := tracing idle_library) calls initial_state
       ([], tt)
     = Returned [Vint 0; Vvoid; Vint 0; Vvoid; Vvoid; Vint 0] initial_state
         (log, tt)
  /\ follows_protocol NULL log = Some NULL.
Proof.
  intros create destroy count calls log.
  assert (Hc : Forall (fun c => In c.1 backend_api) calls).
  { repeat (constructor; [in_list|]). constructor. }
  assert (Hrun : run_calls (NativeLibrary0 := tracing idle_library) calls
                   initial_state ([], tt)
                 = Returned [Vint 0; Vvoid; Vint 0; Vvoid; Vvoid; Vint 0]
                     initial_state (log, tt)) by reflexivity.
  split; [exact Hc|]. split; [exact Hrun|].
  destruct (graal_protocol_is_followed idle_library calls initial_state []
              tt _ initial_state log tt Hc Hrun) as (_ & evs & Heq & Hp).
  simpl in Heq. rewrite Heq. exact Hp.
Defined.

(** ** Beyond the claims: file and string variants *)

(** X7: the exporters come in pairs.  For every format there is a file
    exporter and a string exporter, and the string exporter takes what the
    file exporter takes, in the same order, with the [filename] left out
    and a result slot for the string handle added at the end. *)
Theorem exporters_come_in_pairs :
  map (name_after "jgrapht_export_string_") (family "jgrapht_export_string_")
  = map (name_after "jgrapht_export_file_") (family "jgrapht_export_file_")
  /\ Forall (fun d =>
               is_Some (export_string_params (fn_params d))
               /\ params_of ("jgrapht_export_string_"
                             +:+ name_after "jgrapht_export_file_" d)
                  = export_string_params (fn_params d))
       (family "jgrapht_export_file_").
Proof.
  split.
  - vm_compute. reflexivity.
  - apply (bool_decide_unpack _). vm_compute. exact I.
Qed.

(** X8: the importers come in pairs.  For every format there is a file
    importer and a string importer with the same parameters in the same
    order, the text to read taking the place of the [filename]. *)
Theorem importers_come_in_pairs :
  map (name_after "jgrapht_import_string_") (family "jgrapht_import_string_")
  = map (name_after "jgrapht_import_file_") (family "jgrapht_import_file_")
  /\ Forall (fun d =>
               is_Some (import_string_params (fn_params d))
               /\ params_of ("jgrapht_import_string_"
                             +:+ name_after "jgrapht_import_file_" d)
                  = import_string_params (fn_params d))
       (family "jgrapht_import_file_").
Proof.
  split.
  - vm_compute. reflexivity.
  - apply (bool_decide_unpack _). vm_compute. exact I.
Qed.

(** ** Beyond the claims: inputs first, results last *)

(** X10: in every function of the file the by-value inputs come first and
    the result slots last: once a parameter is a pointer through which a
    result is stored, every parameter after it is one too. *)
Theorem results_come_last :
  Forall (fun d => inputs_then_slots (param_types d)) backend_api.
Proof. apply (bool_decide_unpack _). vm_compute. exact I. Qed.

(** ** The error channel (C2) *)


Section ErrorChannel.
Import Engine.
Variable max_flow : flow_algorithm -> graph -> Z -> Z -> flow_result.
Variable maximal_cliques : clique_algorithm -> graph -> list (gset Z).
Variable deadline_exceeded : clique_algorithm -> graph -> Z -> bool.
Let engine : NativeLibrary World :=
  library max_flow maximal_cliques deadline_exceeded.
#[local] Existing Instance engine.







End ErrorChannel.

